(** * dx-scanner: the practice evaluation engine and the JavaScript
      .gitignore practice

    A shallow embedding of

    - [src/scanner/Scanner.ts] ([detectPracticesForComponent],
      [detectPractices], [report]), and
    - [src/practices/JavaScript/JsGitignoreCorrectlySetPractice.ts]
      ([evaluate]),

    followed by the properties of the engine that the specification states.

    Asynchronous functions are embedded as functions returning the list of
    observable events they cause together with either a fault (a rejected
    promise) or a value (a fulfilled one). *)

From Stdlib Require Import String Ascii List Bool Arith NArith Lia Permutation.
Import ListNotations.

Local Open Scope string_scope.
Local Open Scope list_scope.

(* ===================================================================== *)
(** * JavaScript strings and values                                       *)
(* ===================================================================== *)

(** A JavaScript string is a sequence of UTF-16 code units.  Only the
    operations the sources use are embedded. *)
Module Js.

Definition CodeUnit := N.
Definition JsString := list CodeUnit.

(** A literal of ASCII characters as a JavaScript string. *)
Definition lit (s : string) : JsString :=
  map N_of_ascii (list_ascii_of_string s).

(** The code units [String.prototype.trim] strips: ECMAScript WhiteSpace
    and LineTerminator. *)
Definition isWhiteSpace (c : CodeUnit) : bool :=
  ((9 <=? c) && (c <=? 13)         (* TAB, LF, VT, FF, CR *)
   || (c =? 32)                    (* SPACE *)
   || (c =? 160)                   (* NO-BREAK SPACE *)
   || (c =? 5760)                  (* U+1680 *)
   || ((8192 <=? c) && (c <=? 8202)) (* U+2000 .. U+200A *)
   || (c =? 8232) || (c =? 8233)   (* U+2028, U+2029 *)
   || (c =? 8239)                  (* U+202F *)
   || (c =? 8287)                  (* U+205F *)
   || (c =? 12288)                 (* U+3000 *)
   || (c =? 65279))%N.             (* U+FEFF *)

Fixpoint dropWhile {A} (f : A -> bool) (l : list A) : list A :=
  match l with
  | [] => []
  | x :: t => if f x then dropWhile f t else l
  end.

(** [s.trim()] *)
Definition trim (s : JsString) : JsString :=
  rev (dropWhile isWhiteSpace (rev (dropWhile isWhiteSpace s))).

(** [s.startsWith(p)] *)
Fixpoint startsWith (p s : JsString) : bool :=
  match p, s with
  | [], _ => true
  | _ :: _, [] => false
  | a :: p', b :: s' => (a =? b)%N && startsWith p' s'
  end.

(** [/lit/.test(s)] for a regular expression that is a literal text and
    has no flags: some position of [s] starts with the text. *)
Fixpoint testLiteral (p s : JsString) : bool :=
  startsWith p s ||
  match s with
  | [] => false
  | _ :: s' => testLiteral p s'
  end.

Definition pushFront (c : CodeUnit) (pieces : list JsString) : list JsString :=
  match pieces with
  | [] => [[c]]
  | l :: ls => (c :: l) :: ls
  end.

(** [s.split(/\r?\n/)]: the string is cut at every line feed, a carriage
    return immediately before the line feed belonging to the separator. *)
Fixpoint splitLines (s : JsString) : list JsString :=
  match s with
  | [] => [[]]
  | c :: rest =>
      if (c =? 10)%N then [] :: splitLines rest
      else
        match rest with
        | d :: rest' =>
            if (c =? 13)%N && (d =? 10)%N then [] :: splitLines rest'
            else pushFront c (splitLines rest)
        | [] => pushFront c (splitLines rest)
        end
  end.

(** The values the practice computes with: the result of
    [Array.prototype.find] is a string or [undefined], and [&&], [||], [!]
    work on any value through its truthiness. *)
Inductive Value :=
| Undefined
| Bool (b : bool)
| Str (s : JsString).

Definition truthy (v : Value) : bool :=
  match v with
  | Undefined => false
  | Bool b => b
  | Str [] => false
  | Str (_ :: _) => true
  end.

Definition and (a b : Value) : Value := if truthy a then b else a.
Definition or (a b : Value) : Value := if truthy a then a else b.
Definition not (a : Value) : Value := Bool (negb (truthy a)).

(** [array.find(f)] *)
Definition find (f : JsString -> bool) (l : list JsString) : Value :=
  match List.find f l with
  | Some s => Str s
  | None => Undefined
  end.

End Js.

(* ===================================================================== *)
(** * The data model                                                      *)
(* ===================================================================== *)

Definition PracticeId := string.

Inductive PracticeEvaluationResult := practicing | notPracticing | unknown.

(** Modelled from the spec: the enumeration [PracticeImpact] is declared in
    [src/model.ts], which is not among the sources; the specification gives
    it the members low, medium and high.  Its members are taken to be truthy
    JavaScript values. *)
Inductive PracticeImpact := low | medium | high.

Inductive ProgrammingLanguage := JavaScript | TypeScript | UNKNOWN.

Record DependsOn := {
  dep_practicing : list PracticeId;
  dep_notPracticing : list PracticeId
}.

(** The argument of the [@DxPractice] decorator. *)
Record PracticeMetadata := {
  id : PracticeId;
  name : string;
  impact : PracticeImpact;
  suggestion : string;
  reportOnlyOnce : bool;
  url : string;
  dependsOn : DependsOn
}.

Record ProjectComponent := {
  framework : string;
  language : ProgrammingLanguage;
  path : string;
  platform : string;
  type : string;
  repositoryPath : option string
}.

(** The per-practice entry of the override store; [cfg_impact] is its
    [impact] property, [None] when the property is undefined. *)
Record PracticeConfig := {
  cfg_impact : option PracticeImpact
}.

Record ConfigProvider := {
  getOverriddenPractice : PracticeId -> PracticeConfig
}.

(** [readFile] either rejects with an error or yields the file's text. *)
Record FileInspector := {
  readFile : string -> string + Js.JsString
}.

Record RootContext := {
  fileInspector : option FileInspector
}.

Record PracticeContext := {
  projectComponent : ProjectComponent;
  root : RootContext;
  config : option PracticeConfig
}.

(** What an awaited [evaluate] call does: it returns a result or throws. *)
Inductive EvaluateOutcome :=
| Returned (r : PracticeEvaluationResult)
| Threw (error : string).

(* ===================================================================== *)
(** * JsGitignoreCorrectlySetPractice                                     *)
(* ===================================================================== *)

Module JsGitignoreCorrectlySetPractice.

Definition metadata : PracticeMetadata := {|
  id := "JavaScript.GitignoreCorrectlySet";
  name := "Set .gitignore Correctly";
  impact := high;
  suggestion := "Set patterns in the .gitignore as usual.";
  reportOnlyOnce := true;
  url := "https://github.com/github/gitignore/blob/master/Node.gitignore";
  dependsOn := {| dep_practicing := ["LanguageIndependent.GitignoreIsPresent"];
                  dep_notPracticing := [] |}
|}.

Definition isApplicable (ctx : PracticeContext) : bool :=
  match language (projectComponent ctx) with
  | JavaScript => true
  | _ => false
  end.

Definition parseGitignore (gitignoreFile : Js.JsString) : list Js.JsString :=
  filter (fun content =>
            negb (match Js.trim content with [] => true | _ => false end)
            && negb (Js.startsWith (Js.lit "#") content))
         (Js.splitLines gitignoreFile).

(** The value of the condition of the final [if]. *)
Definition correctlySet (parsedGitignore : list Js.JsString) : Js.Value :=
  let packageJsonRegex := Js.find (Js.testLiteral (Js.lit "package-lock.json")) parsedGitignore in
  let yarnLockRegex := Js.find (Js.testLiteral (Js.lit "yarn.lock")) parsedGitignore in
  let nodeModulesRegex := Js.find (Js.testLiteral (Js.lit "node_modules")) parsedGitignore in
  let coverageRegex := Js.find (Js.testLiteral (Js.lit "coverage")) parsedGitignore in
  let errorLogRegex := Js.find (Js.testLiteral (Js.lit ".log")) parsedGitignore in
  let exactlyOneLockfile :=
    Js.or (Js.and packageJsonRegex (Js.not yarnLockRegex))
          (Js.and (Js.not packageJsonRegex) yarnLockRegex) in
  Js.and (Js.and (Js.and exactlyOneLockfile nodeModulesRegex) errorLogRegex) coverageRegex.

(** [evaluate] paired with the paths it asked the file inspector to read,
    in order. *)
Definition evaluate (ctx : PracticeContext) : list string * EvaluateOutcome :=
  match fileInspector (root ctx) with
  | None => ([], Returned unknown)
  | Some inspector =>
      match readFile inspector ".gitignore" with
      | inl error => ([".gitignore"], Threw error)
      | inr content =>
          let parsedGitignore := parseGitignore content in
          ([".gitignore"],
           if Js.truthy (correctlySet parsedGitignore)
           then Returned practicing
           else Returned notPracticing)
      end
  end.

End JsGitignoreCorrectlySetPractice.


(* ===================================================================== *)
(** * The engine's records                                                *)
(* ===================================================================== *)

(** A practice of the catalogue: its metadata and its capabilities.  The
    engine treats [isApplicable] and [evaluate] as opaque; [evaluate] is a
    function of the context it is handed. *)
Record IPracticeWithMetadata := {
  getMetadata : PracticeMetadata;
  isApplicable : PracticeContext -> bool;
  evaluate : PracticeContext -> EvaluateOutcome
}.

Definition practiceId (p : IPracticeWithMetadata) : PracticeId :=
  id (getMetadata p).

Record ProjectComponentContext := {
  pcc_projectComponent : ProjectComponent;
  configProvider : ConfigProvider;
  getPracticeContext : PracticeContext
}.

Record LanguageContext := {
  getProjectComponentContext : ProjectComponent -> ProjectComponentContext
}.

Record ProjectComponentAndLangContext := {
  component : ProjectComponent;
  languageContext : LanguageContext
}.

Record PracticeWithContext := {
  componentContext : ProjectComponentContext;
  practiceContext : PracticeContext;
  practice : IPracticeWithMetadata;
  evaluation : PracticeEvaluationResult;
  isOn : bool
}.

Definition recordId (r : PracticeWithContext) : PracticeId :=
  practiceId (practice r).

(** The two lists [ScannerUtils.filterPractices] returns. *)
Record FilteredPractices := {
  customApplicablePractices : list IPracticeWithMetadata;
  practicesOff : list IPracticeWithMetadata
}.

(** An element of the array handed to [reporter.report]. *)
Record PracticeReport := {
  rep_component : ProjectComponent;
  rep_practice : PracticeMetadata;
  rep_evaluation : PracticeEvaluationResult;
  rep_impact : PracticeImpact;
  rep_isOn : bool
}.

(** The errors the evaluation of practices and the report reject with:
    the one a failing dependency resolution throws, and whatever the
    reporter throws. *)
Inductive Fault :=
| DependencyCycleFault (members : list PracticeId)
| ReporterFault (error : string).

(** What [reporter.report] returns: a string, or another value, given by
    the text [util.inspect] renders it as. *)
Inductive ReportValue :=
| ReportString (text : string)
| ReportObject (inspected : string).

(** What a run does that can be observed from outside the engine. *)
Inductive Event :=
| EvaluateCalled (c : ProjectComponent) (p : PracticeId)
    (** [practice.evaluate] was invoked for a component *)
| DebuggerCreated (namespace : string)
    (** [debug(namespace)]: the factory of the debug package made a logger
        for the namespace; nothing is written *)
| ScanDebug (line : string)
    (** [this.scanDebug(line)]: the scanner's logger wrote a line *)
| ScanDebugNames (names : list string)
    (** [this.scanDebug(names)] *)
| ReporterReport (entries : list PracticeReport)
    (** [this.reporter.report(entries)] *)
| ConsoleLog (text : string)
    (** [console.log(text)] *).

(** An awaited asynchronous computation: the events it caused and either
    the fault it rejected with or its value. *)
Definition Async (A : Type) : Type := list Event * (Fault + A).

(** The injected reporter: [report] throws or returns a value. *)
Record IReporter := {
  reporter_report : list PracticeReport -> string + ReportValue
}.

(** The lines that were written to a log. *)
Definition loggedLines (events : list Event) : list string :=
  flat_map (fun e => match e with
                     | ScanDebug line => [line]
                     | ScanDebugNames names => names
                     | _ => []
                     end) events.

Definition evaluateCalls (events : list Event) : list PracticeId :=
  flat_map (fun e => match e with
                     | EvaluateCalled _ p => [p]
                     | _ => []
                     end) events.

(* ===================================================================== *)
(** * ScannerUtils                                                        *)
(* ===================================================================== *)

(** Modelled from the spec: [src/scanner/ScannerUtils.ts] is not among the
    sources.  [sortPractices] and [isFulfilled] below, and the functions
    they are built from, follow sections 4.1 and 4.2 of the specification.
    [filterPractices] is not modelled: the scanner takes a function in its
    place as a parameter. *)
Module ScannerUtils.

(** The ids a practice names in its dependency constraints. *)
Definition dependencies (p : IPracticeWithMetadata) : list PracticeId :=
  dep_practicing (dependsOn (getMetadata p))
  ++ dep_notPracticing (dependsOn (getMetadata p)).

Definition hasId (d : PracticeId) (p : IPracticeWithMetadata) : bool :=
  String.eqb (practiceId p) d.

(** [p] names a practice of [rest] in its constraints. *)
Definition blockedBy (rest : list IPracticeWithMetadata)
    (p : IPracticeWithMetadata) : bool :=
  existsb (fun d => existsb (hasId d) rest) (dependencies p).

(** The first element satisfying [f], and the list without it. *)
Fixpoint extractFirst {A} (f : A -> bool) (l : list A) : option (A * list A) :=
  match l with
  | [] => None
  | x :: t =>
      if f x then Some (x, t)
      else match extractFirst f t with
           | Some (y, t') => Some (y, x :: t')
           | None => None
           end
  end.

(** Repeatedly place the first practice, in the order given, none of whose
    constraints names a practice still to be placed.  Returns the practices
    placed and those that could not be. *)
Fixpoint linearize (fuel : nat) (rest : list IPracticeWithMetadata)
  : list IPracticeWithMetadata * list IPracticeWithMetadata :=
  match fuel with
  | 0 => ([], rest)
  | S fuel' =>
      match extractFirst (fun p => negb (blockedBy rest p)) rest with
      | None => ([], rest)
      | Some (p, rest') =>
          let (placed, stuck) := linearize fuel' rest' in
          (p :: placed, stuck)
      end
  end.

(** From the id [a] of a practice of [stuck], the first id among its
    constraints that is again the id of a practice of [stuck]. *)
Definition nextBlocker (stuck : list IPracticeWithMetadata) (a : PracticeId)
  : PracticeId :=
  match List.find (hasId a) stuck with
  | None => a
  | Some p =>
      match List.find (fun d => existsb (hasId d) stuck) (dependencies p) with
      | None => a
      | Some d => d
      end
  end.

(** The part of a trail (most recent id first) walked since [a] was
    visited, oldest first, [a] included. *)
Fixpoint sinceVisit (a : PracticeId) (trail : list PracticeId) : list PracticeId :=
  match trail with
  | [] => []
  | b :: older =>
      if String.eqb b a then [b] else sinceVisit a older ++ [b]
  end.

(** Follow [nextBlocker] from [a] until an id repeats; the ids walked from
    its first visit on are a cycle. *)
Fixpoint walkToCycle (fuel : nat) (stuck : list IPracticeWithMetadata)
    (trail : list PracticeId) (a : PracticeId) : list PracticeId :=
  if existsb (String.eqb a) trail then sinceVisit a trail
  else match fuel with
       | 0 => []
       | S fuel' => walkToCycle fuel' stuck (a :: trail) (nextBlocker stuck a)
       end.

Definition findCycle (stuck : list IPracticeWithMetadata) : list PracticeId :=
  match stuck with
  | [] => []
  | p :: _ => walkToCycle (List.length stuck) stuck [] (practiceId p)
  end.

(** Modelled from the spec: [ScannerUtils.sortPractices], the dependency
    graph resolver, is not among the sources.  Section 4.1: it has an edge
    from a practice to every practice of its input whose id the practice
    names in [requiresPracticing] or [requiresNotPracticing]; it produces a
    topological ordering with ties broken by catalogue registration order;
    it fails with a structured error identifying the cycle members when the
    constraints contain a cycle; ids outside its input are no error. *)
Definition sortPractices (practices : list IPracticeWithMetadata)
  : Fault + list IPracticeWithMetadata :=
  match linearize (List.length practices) practices with
  | (placed, []) => inr placed
  | (_, stuck) => inl (DependencyCycleFault (findCycle stuck))
  end.

Definition hasEvaluation (d : PracticeId) (e : PracticeEvaluationResult)
    (r : PracticeWithContext) : bool :=
  String.eqb (recordId r) d
  && match evaluation r, e with
     | practicing, practicing => true
     | notPracticing, notPracticing => true
     | unknown, unknown => true
     | _, _ => false
     end.

(** Modelled from the spec: [ScannerUtils.isFulfilled] is not among the
    sources.  Section 4.2, step 2: for every id in [requiresPracticing]
    there is, among the records produced so far for the component, a record
    for it with evaluation practicing, and for every id in
    [requiresNotPracticing] a record for it with evaluation notPracticing. *)
Definition isFulfilled (p : IPracticeWithMetadata)
    (evaluatedPractices : list PracticeWithContext) : bool :=
  forallb (fun d => existsb (hasEvaluation d practicing) evaluatedPractices)
          (dep_practicing (dependsOn (getMetadata p)))
  && forallb (fun d => existsb (hasEvaluation d notPracticing) evaluatedPractices)
             (dep_notPracticing (dependsOn (getMetadata p))).

End ScannerUtils.

(* ===================================================================== *)
(** * Scanner                                                             *)
(* ===================================================================== *)

Definition newline : string := String (ascii_of_nat 10) EmptyString.

(** [{ ...practiceContext, config: practiceConfig }] *)
Definition withConfig (practiceContext : PracticeContext)
    (practiceConfig : PracticeConfig) : PracticeContext :=
  {| projectComponent := projectComponent practiceContext;
     root := root practiceContext;
     config := Some practiceConfig |}.

(** The body of the loop over [orderedApplicablePractices]; the state is
    the array [practicesWithContext] and the events so far. *)
Definition evaluateNext (componentContext : ProjectComponentContext)
    (practiceContext : PracticeContext)
    (state : list PracticeWithContext * list Event)
    (practice : IPracticeWithMetadata)
  : list PracticeWithContext * list Event :=
  let (practicesWithContext, events) := state in
  let practiceConfig :=
    getOverriddenPractice (configProvider componentContext) (practiceId practice) in
  let isFulfilled := ScannerUtils.isFulfilled practice practicesWithContext in
  if negb isFulfilled then state
  else
    let called :=
      EvaluateCalled (pcc_projectComponent componentContext) (practiceId practice) in
    let (evaluation, caught) :=
      match evaluate practice (withConfig practiceContext practiceConfig) with
      | Returned result => (result, [])
      | Threw error =>
          (unknown,
           [DebuggerCreated ("The " ++ name (getMetadata practice)
                             ++ " practice failed with this error:"
                             ++ newline ++ error)])
      end in
    let practiceWithContext :=
      {| componentContext := componentContext;
         practiceContext := practiceContext;
         practice := practice;
         evaluation := evaluation;
         isOn := true |} in
    (practicesWithContext ++ [practiceWithContext], events ++ called :: caught).

(** The body of the loop over [filteredPractices.practicesOff]. *)
Definition addTurnedOff (componentContext : ProjectComponentContext)
    (practiceContext : PracticeContext)
    (practicesWithContext : list PracticeWithContext)
    (practiceOff : IPracticeWithMetadata) : list PracticeWithContext :=
  let practiceWithContext :=
    {| componentContext := componentContext;
       practiceContext := practiceContext;
       practice := practiceOff;
       evaluation := unknown;
       isOn := false |} in
  practicesWithContext ++ [practiceWithContext].

(** [Promise.all]: every promise runs; the result is the array of the
    values, or a rejection when some promise rejects.  The events of the
    promises are listed one promise after the other, and of several
    rejections the one of the earliest promise in the array is kept. *)
Fixpoint promiseAll {A} (promises : list (Async A)) : Async (list A) :=
  match promises with
  | [] => ([], inr [])
  | (events, outcome) :: rest =>
      let (events', outcomes) := promiseAll rest in
      (events ++ events',
       match outcome, outcomes with
       | inl fault, _ => inl fault
       | inr _, inl fault => inl fault
       | inr value, inr values => inr (value :: values)
       end)
  end.

(** The array the [report] method hands to [this.reporter.report]. *)
Definition reportEntries (relevantPractices : list PracticeWithContext)
  : list PracticeReport :=
  map (fun p =>
         let config :=
           getOverriddenPractice (configProvider (componentContext p))
                                 (id (getMetadata (practice p))) in
         let overridenImpact := cfg_impact config in
         {| rep_component := pcc_projectComponent (componentContext p);
            rep_practice := getMetadata (practice p);
            rep_evaluation := evaluation p;
            rep_impact := match overridenImpact with
                          | Some overridden => overridden
                          | None => impact (getMetadata (practice p))
                          end;
            rep_isOn := isOn p |})
      relevantPractices.

(** [report]: the reporter is called once, outside any [try]; what it
    returns is printed, a string as it is and any other value as
    [util.inspect] renders it. *)
Definition report (reporter : IReporter)
    (practicesWithContext : list PracticeWithContext) : Async unit :=
  let relevantPractices := practicesWithContext in
  let entries := reportEntries relevantPractices in
  match reporter_report reporter entries with
  | inl error => ([ReporterReport entries], inl (ReporterFault error))
  | inr (ReportString reportString) =>
      ([ReporterReport entries; ConsoleLog reportString], inr tt)
  | inr (ReportObject inspected) =>
      ([ReporterReport entries; ConsoleLog inspected], inr tt)
  end.

Section Scanner.

(** [ScannerUtils.filterPractices] is not among the sources; the scanner is
    embedded for an arbitrary function in its place. *)
Variable filterPractices :
  ProjectComponentContext -> list IPracticeWithMetadata -> FilteredPractices.

(** [this.practices], the catalogue. *)
Variable practices : list IPracticeWithMetadata.

(** [this.reporter] *)
Variable reporter : IReporter.

Definition detectPracticesForComponent
    (componentWithCtx : ProjectComponentAndLangContext)
  : Async (list PracticeWithContext) :=
  let componentContext :=
    getProjectComponentContext (languageContext componentWithCtx)
                               (component componentWithCtx) in
  let practiceContext := getPracticeContext componentContext in
  let filteredPractices := filterPractices componentContext practices in
  match ScannerUtils.sortPractices (customApplicablePractices filteredPractices) with
  | inl fault => ([], inl fault)
  | inr orderedApplicablePractices =>
      let (evaluated, events) :=
        fold_left (evaluateNext componentContext practiceContext)
                  orderedApplicablePractices ([], []) in
      (events,
       inr (fold_left (addTurnedOff componentContext practiceContext)
                      (practicesOff filteredPractices) evaluated))
  end.

Definition detectPractices
    (componentsWithContext : list ProjectComponentAndLangContext)
  : Async (list PracticeWithContext) :=
  let (events, outcome) :=
    promiseAll (map detectPracticesForComponent componentsWithContext) in
  match outcome with
  | inl fault => (events, inl fault)
  | inr practicesWithComponentContext =>
      let practicesWithContext := concat practicesWithComponentContext in
      (events ++ [ScanDebug "Applicable practices:";
                  ScanDebugNames
                    (map (fun p => name (getMetadata (practice p)))
                         practicesWithContext)],
       inr practicesWithContext)
  end.

(** The last two statements of [scan], from the detected components on. *)
Definition scan (projectComponents : list ProjectComponentAndLangContext)
  : Async unit :=
  let (events, outcome) := detectPractices projectComponents in
  match outcome with
  | inl fault => (events, inl fault)
  | inr componentsWithPractices =>
      let (events', result) := report reporter componentsWithPractices in
      (events ++ events', result)
  end.

End Scanner.

(** The arrays that were handed to the reporter. *)
Definition handedToReporter (events : list Event) : list (list PracticeReport) :=
  flat_map (fun e => match e with
                     | ReporterReport entries => [entries]
                     | _ => []
                     end) events.

(* ===================================================================== *)
(** * Properties in the words of the specification                        *)
(* ===================================================================== *)

(** The condition under which the .gitignore practice is followed, stated
    on the file's text. *)
Module GitignoreSpec.

(** The pattern occurs somewhere in the line. *)
Definition occursIn (pattern line : Js.JsString) : Prop :=
  exists before after, line = before ++ pattern ++ after.

(** The lines that count: non-blank after trimming, not starting with #. *)
Definition considered (content line : Js.JsString) : Prop :=
  In line (Js.splitLines content)
  /\ Js.trim line <> []
  /\ ~ (exists rest, line = Js.lit "#" ++ rest).

(** Some line that counts matches the pattern. *)
Definition matched (content : Js.JsString) (pattern : string) : Prop :=
  exists line, considered content line /\ occursIn (Js.lit pattern) line.

Definition correctlySet (content : Js.JsString) : Prop :=
  ((matched content "package-lock.json" /\ ~ matched content "yarn.lock")
   \/ (~ matched content "package-lock.json" /\ matched content "yarn.lock"))
  /\ matched content "node_modules"
  /\ matched content "coverage"
  /\ matched content ".log".

End GitignoreSpec.

(** No two practices of the two lists [filterPractices] returned share an
    id: every practice of the catalogue has its own id and is listed at
    most once, either as applicable or as turned off. *)
Definition distinctIds (filtered : FilteredPractices) : Prop :=
  NoDup (map practiceId (customApplicablePractices filtered ++ practicesOff filtered)).

(** [p], a practice of [practices], names [b] in its constraints. *)
Definition requires (practices : list IPracticeWithMetadata)
    (a b : PracticeId) : Prop :=
  exists p, In p practices /\ practiceId p = a /\ In b (ScannerUtils.dependencies p).

(** Every id of [chain] requires the next one, the last one [target]. *)
Fixpoint chainTo (practices : list IPracticeWithMetadata)
    (chain : list PracticeId) (target : PracticeId) : Prop :=
  match chain with
  | [] => True
  | a :: rest => requires practices a (hd target rest) /\ chainTo practices rest target
  end.

(** [members] is a cycle of the dependency constraints of [practices]. *)
Definition isCycle (practices : list IPracticeWithMetadata)
    (members : list PracticeId) : Prop :=
  match members with
  | [] => False
  | first :: _ => chainTo practices members first
  end.

(** The records produced for a component before the practices after [pre]
    in the resolved order are considered. *)
Definition producedBy (componentContext : ProjectComponentContext)
    (pre : list IPracticeWithMetadata) : list PracticeWithContext :=
  fst (fold_left (evaluateNext componentContext (getPracticeContext componentContext))
                 pre ([], [])).

(** P2 as the specification words it: a record for a practice that another
    record's practice names in its constraints lies strictly before that
    other record. *)
Definition dependencyOrdered (records : list PracticeWithContext) : Prop :=
  forall before rP after rQ,
    records = before ++ rP :: after ->
    In rQ records ->
    In (recordId rQ) (ScannerUtils.dependencies (practice rP)) ->
    In rQ before.

(** [a] is the id of a practice of [stuck]. *)
Definition knownId (stuck : list IPracticeWithMetadata) (a : PracticeId) : Prop :=
  exists p, In p stuck /\ practiceId p = a.

(** A trail of ids, most recent first, each requiring the one walked next
    and the most recent one requiring [a]. *)
Fixpoint trailTo (stuck : list IPracticeWithMetadata)
    (trail : list PracticeId) (a : PracticeId) : Prop :=
  match trail with
  | [] => True
  | b :: older => requires stuck b a /\ trailTo stuck older b
  end.

(** The evaluation the pipeline records for a practice it evaluates: the
    result of [evaluate], unknown when [evaluate] throws. *)
Definition recordedEvaluation (componentContext : ProjectComponentContext)
    (practiceContext : PracticeContext) (p : IPracticeWithMetadata)
  : PracticeEvaluationResult :=
  match evaluate p (withConfig practiceContext
                      (getOverriddenPractice (configProvider componentContext)
                                             (practiceId p))) with
  | Returned result => result
  | Threw _ => unknown
  end.

(** The record of an evaluated practice and the record of a practice that
    is turned off. *)
Definition evaluatedRecord (componentContext : ProjectComponentContext)
    (practiceContext : PracticeContext) (p : IPracticeWithMetadata)
  : PracticeWithContext :=
  {| componentContext := componentContext;
     practiceContext := practiceContext;
     practice := p;
     evaluation := recordedEvaluation componentContext practiceContext p;
     isOn := true |}.

Definition turnedOffRecord (componentContext : ProjectComponentContext)
    (practiceContext : PracticeContext) (p : IPracticeWithMetadata)
  : PracticeWithContext :=
  {| componentContext := componentContext;
     practiceContext := practiceContext;
     practice := p;
     evaluation := unknown;
     isOn := false |}.

(** The context of a component and the lists [filterPractices] returns for
    it, as [detectPracticesForComponent] computes them. *)
Definition contextOf (componentWithCtx : ProjectComponentAndLangContext)
  : ProjectComponentContext :=
  getProjectComponentContext (languageContext componentWithCtx)
                             (component componentWithCtx).

Definition filteredFor
    (filterPractices : ProjectComponentContext -> list IPracticeWithMetadata
                       -> FilteredPractices)
    (practices : list IPracticeWithMetadata)
    (componentWithCtx : ProjectComponentAndLangContext) : FilteredPractices :=
  filterPractices (contextOf componentWithCtx) practices.

(** The reportOnlyOnce rule as the specification words it for the output
    handed to the reporter: no two entries share the id of a practice with
    [reportOnlyOnce = true]. *)
Definition reportedOnlyOnce (entries : list PracticeReport) : Prop :=
  NoDup (map (fun e => id (rep_practice e))
             (filter (fun e => reportOnlyOnce (rep_practice e)) entries)).

(* ===================================================================== *)
(** * Concrete catalogues, components and files                           *)
(* ===================================================================== *)

Module Examples.

Definition aComponent (where_ : string) (lang : ProgrammingLanguage)
  : ProjectComponent :=
  {| framework := "UNKNOWN"; language := lang; path := where_;
     platform := "UNKNOWN"; type := "UNKNOWN"; repositoryPath := None |}.

Definition noOverrides : ConfigProvider :=
  {| getOverriddenPractice := fun _ => {| cfg_impact := None |} |}.

(** A component together with a language context that gives every
    component the override store [overrides] and the files [files]. *)
Definition withContext (c : ProjectComponent) (overrides : ConfigProvider)
    (files : option FileInspector) : ProjectComponentAndLangContext :=
  {| component := c;
     languageContext :=
       {| getProjectComponentContext := fun c' =>
            {| pcc_projectComponent := c';
               configProvider := overrides;
               getPracticeContext :=
                 {| projectComponent := c';
                    root := {| fileInspector := files |};
                    config := None |} |} |} |}.

Definition aPractice (i : PracticeId) (requiresPracticing requiresNotPracticing : list PracticeId)
    (once : bool) (applicable : PracticeContext -> bool)
    (outcome : PracticeContext -> EvaluateOutcome) : IPracticeWithMetadata :=
  {| getMetadata :=
       {| id := i; name := i; impact := medium; suggestion := ""; reportOnlyOnce := once;
          url := "";
          dependsOn := {| dep_practicing := requiresPracticing;
                          dep_notPracticing := requiresNotPracticing |} |};
     isApplicable := applicable;
     evaluate := outcome |}.

(** A function in the place of [filterPractices]: the applicable practices,
    split by whether their id is among the ids turned off. *)
Definition filterWithOff (off : list PracticeId)
    (componentContext : ProjectComponentContext)
    (practices : list IPracticeWithMetadata) : FilteredPractices :=
  let applicable :=
    filter (fun p => isApplicable p (getPracticeContext componentContext)) practices in
  let isOff p := existsb (String.eqb (practiceId p)) off in
  {| customApplicablePractices := filter (fun p => negb (isOff p)) applicable;
     practicesOff := filter isOff applicable |}.

Definition always (b : bool) : PracticeContext -> bool := fun _ => b.
Definition yields (r : PracticeEvaluationResult) : PracticeContext -> EvaluateOutcome :=
  fun _ => Returned r.
Definition throws (e : string) : PracticeContext -> EvaluateOutcome :=
  fun _ => Threw e.
Definition onlyFor (lang : ProgrammingLanguage) : PracticeContext -> bool :=
  fun ctx => match language (projectComponent ctx), lang with
             | JavaScript, JavaScript | TypeScript, TypeScript | UNKNOWN, UNKNOWN => true
             | _, _ => false
             end.

Definition jsComponent := withContext (aComponent "/app" JavaScript) noOverrides None.
Definition tsComponent := withContext (aComponent "/lib" TypeScript) noOverrides None.

(** Scenario A: lockfile-present has no constraints and is not followed;
    exact-one-lockfile requires it to be followed. *)
Definition lockfilePresent := aPractice "lockfile-present" [] [] false (always true) (yields notPracticing).
Definition exactOneLockfile :=
  aPractice "exact-one-lockfile" ["lockfile-present"] [] false (always true) (yields practicing).
Definition scenarioA := [exactOneLockfile; lockfilePresent].

(** Scenario C: X is turned off. *)
Definition practiceX := aPractice "X" ["lockfile-present"] [] false (always true) (yields practicing).
Definition scenarioC := [practiceX; lockfilePresent].

(** Scenario D: Y is reported only once and not followed by either of two
    components. *)
Definition practiceY := aPractice "Y" [] [] true (always true) (yields notPracticing).
Definition scenarioD := [practiceY].

(** P6: P and Q require each other for JavaScript components; R has no
    constraints. *)
Definition practiceP := aPractice "P" ["Q"] [] false (onlyFor JavaScript) (yields practicing).
Definition practiceQ := aPractice "Q" ["P"] [] false (onlyFor JavaScript) (yields practicing).
Definition practiceR := aPractice "R" [] [] false (always true) (yields practicing).
Definition scenarioCycle := [practiceP; practiceQ; practiceR].

(** A practice that requires another one registered after it. *)
Definition dependent := aPractice "dependent" ["prerequisite"] [] false (always true) (yields practicing).
Definition prerequisite := aPractice "prerequisite" [] [] false (always true) (yields practicing).
Definition scenarioOrder := [dependent; prerequisite].

(** A practice whose [evaluate] throws, followed by one that is followed. *)
Definition failing := aPractice "failing" [] [] false (always true) (throws "boom").
Definition scenarioFault := [failing; practiceR].

(** An override store that overrides the impact of R. *)
Definition overrideR : ConfigProvider :=
  {| getOverriddenPractice := fun i =>
       {| cfg_impact := if String.eqb i "R" then Some high else None |} |}.

(** A .gitignore that is set correctly, and a file inspector serving it. *)
Definition gitignore : Js.JsString :=
  Js.lit ("# dependencies" ++ newline ++ "/node_modules" ++ newline
          ++ "coverage" ++ newline ++ newline ++ "*.log" ++ newline
          ++ "yarn.lock" ++ newline).

Definition inspector : FileInspector :=
  {| readFile := fun file => if String.eqb file ".gitignore" then inr gitignore
                             else inl "ENOENT" |}.

Definition gitignoreContext : PracticeContext :=
  {| projectComponent := aComponent "/app" JavaScript;
     root := {| fileInspector := Some inspector |};
     config := None |}.

(** A reporter that returns a text, and one that throws. *)
Definition textReporter : IReporter :=
  {| reporter_report := fun _ => inr (ReportString "report") |}.

Definition brokenReporter : IReporter :=
  {| reporter_report := fun _ => inl "cannot report" |}.

(** X is turned off while P and Q, which require each other, are not. *)
Definition scenarioOffAndCycle := [practiceX; practiceP; practiceQ].

(** The records of an evaluated and of a turned-off practice for a
    component. *)
Definition evaluatedFor (cw : ProjectComponentAndLangContext)
    (p : IPracticeWithMetadata) : PracticeWithContext :=
  evaluatedRecord (contextOf cw) (getPracticeContext (contextOf cw)) p.

Definition turnedOffFor (cw : ProjectComponentAndLangContext)
    (p : IPracticeWithMetadata) : PracticeWithContext :=
  turnedOffRecord (contextOf cw) (getPracticeContext (contextOf cw)) p.

(** The .gitignore practice as a practice of the catalogue. *)
Definition jsGitignoreCorrectlySet : IPracticeWithMetadata :=
  {| getMetadata := JsGitignoreCorrectlySetPractice.metadata;
     isApplicable := JsGitignoreCorrectlySetPractice.isApplicable;
     evaluate := fun ctx => snd (JsGitignoreCorrectlySetPractice.evaluate ctx) |}.

Definition gitignoreIsPresent :=
  aPractice "LanguageIndependent.GitignoreIsPresent" [] [] false (always true)
            (yields practicing).

Definition jsComponentWithFiles :=
  withContext (aComponent "/app" JavaScript) noOverrides (Some inspector).

End Examples.

(* ===================================================================== *)
(** * The steps of a scan before the practices are evaluated              *)
(* ===================================================================== *)

(** [preprocessData], [detectLanguagesAtPaths], [detectProjectComponents]
    and the whole of [scan] of [src/scanner/Scanner.ts].  The collaborators
    they call (the strategy detector, the language and component detectors,
    the language contexts, the file system, git and [util.inspect]) are
    parameters; a call that can reject yields an error or a value. *)
Module ScannerRun.

(** [ServiceType]: the sources name the member [local] only. *)
Inductive ServiceType := local | otherService (name : string).

Record ScanningStrategy := {
  serviceType : ServiceType;
  accessType : option string;
  remoteUrl : option string;
  localPath : option string
}.

Inductive RunError :=
| CollaboratorError (message : string)
    (** thrown by a collaborator of the scanner *)
| EngineFault (fault : Fault)
    (** thrown while the practices are evaluated *).

Record LanguageAtPath := {
  lap_language : ProgrammingLanguage;
  lap_path : string
}.

Record LanguageDetector := {
  detectLanguage : RunError + list LanguageAtPath
}.

Record ProjectComponentDetector := {
  detectComponent : LanguageAtPath -> RunError + list ProjectComponent
}.

(** A language context as [detectProjectComponents] uses it;
    [engineContext] is the same object as the evaluation of practices
    uses it. *)
Record ScanLanguageContext := {
  engineContext : LanguageContext;
  lc_language : ProgrammingLanguage;
  init : option RunError;
  getProjectComponentDetectors : list ProjectComponentDetector
}.

Record ScannerContext := {
  languageDetectors : list LanguageDetector;
  getLanguageContext : LanguageAtPath -> ScanLanguageContext
}.

(** What the scanner asks of the machine it runs on. *)
Record Host := {
  parseUrl : string -> RunError + string;
    (** [new url.URL(s).href] *)
  mkdtemp : RunError + string;
    (** [fs.mkdtempSync(path.join(os.tmpdir(), 'dx-scanner'))] *)
  gitClone : string -> string -> option RunError;
    (** [git().silent(true).clone(href, path)]: the error, if it rejects *)
  inspectStrategy : ScanningStrategy -> string;
  inspectLanguages : list LanguageAtPath -> string;
  inspectComponents : list ProjectComponentAndLangContext -> string
    (** [util.inspect] at the three places [scan] calls it *)
}.

(** The members UNKNOWN of [ProjectComponentFramework],
    [ProjectComponentPlatform] and [ProjectComponentType], declared in
    [src/model.ts]. *)
Record UnknownMembers := {
  frameworkUNKNOWN : string;
  platformUNKNOWN : string;
  typeUNKNOWN : string
}.

Inductive RunEvent :=
| TempDirMade (dir : string)
| CloneCalled (href dir : string)
| ScanDebugged (args : list string)
    (** a call of [this.scanDebug] in [scan] *)
| EngineEvent (e : Event)
    (** an event of [detectPractices] or [report] *).

Definition Run (A : Type) : Type := list RunEvent * (RunError + A).

(** [for (const x of l) { s = await body(s, x) }], left at the first
    rejection. *)
Fixpoint forOf {A S} (body : S -> A -> RunError + S) (l : list A) (s : S)
  : RunError + S :=
  match l with
  | [] => inr s
  | x :: rest =>
      match body s x with
      | inl error => inl error
      | inr s' => forOf body rest s'
      end
  end.

Definition preprocessData (host : Host) (scanningStrategy : ScanningStrategy)
  : Run ScanningStrategy :=
  let rebuilt (localPath : option string) :=
    {| serviceType := serviceType scanningStrategy;
       accessType := accessType scanningStrategy;
       remoteUrl := remoteUrl scanningStrategy;
       localPath := localPath |} in
  match localPath scanningStrategy, remoteUrl scanningStrategy,
        serviceType scanningStrategy with
  | None, Some remote, otherService _ =>
      match parseUrl host remote with
      | inl error => ([], inl error)
      | inr href =>
          match mkdtemp host with
          | inl error => ([], inl error)
          | inr dir =>
              match gitClone host href dir with
              | Some error => ([TempDirMade dir; CloneCalled href dir], inl error)
              | None => ([TempDirMade dir; CloneCalled href dir], inr (rebuilt (Some dir)))
              end
          end
      end
  | path, _, _ => ([], inr (rebuilt path))
  end.

Definition detectLanguagesAtPaths (context : ScannerContext)
  : RunError + list LanguageAtPath :=
  forOf (fun languagesAtPaths languageDetector =>
           match detectLanguage languageDetector with
           | inl error => inl error
           | inr detected => inr (languagesAtPaths ++ detected)
           end)
        (languageDetectors context) [].

(** The truthiness of [strategy.remoteUrl]. *)
Definition remoteUrlGiven (strategy : ScanningStrategy) : option string :=
  match remoteUrl strategy with
  | Some (String c s) => Some (String c s)
  | _ => None
  end.

(** The function mapped over the detected components. *)
Definition withLanguageContext (strategy : ScanningStrategy)
    (langContext : ScanLanguageContext) (c : ProjectComponent)
  : ProjectComponentAndLangContext :=
  {| component :=
       match remoteUrlGiven strategy with
       | Some remote =>
           {| framework := framework c; language := language c; path := path c;
              platform := platform c; type := type c;
              repositoryPath := Some remote |}
       | None => c
       end;
     languageContext := engineContext langContext |}.

(** The component added when a detector detects none. *)
Definition unknownComponent (unknowns : UnknownMembers)
    (langContext : ScanLanguageContext) (langAtPath : LanguageAtPath)
  : ProjectComponentAndLangContext :=
  {| languageContext := engineContext langContext;
     component :=
       {| framework := frameworkUNKNOWN unknowns;
          language := lc_language langContext;
          path := lap_path langAtPath;
          platform := platformUNKNOWN unknowns;
          type := typeUNKNOWN unknowns;
          repositoryPath := None |} |}.

(** The body of the loop over the detectors of a language context. *)
Definition detectWith (unknowns : UnknownMembers) (strategy : ScanningStrategy)
    (langContext : ScanLanguageContext) (langAtPath : LanguageAtPath)
    (components : list ProjectComponentAndLangContext)
    (componentDetector : ProjectComponentDetector)
  : RunError + list ProjectComponentAndLangContext :=
  match detectComponent componentDetector langAtPath with
  | inl error => inl error
  | inr detected =>
      let componentsWithContext :=
        map (withLanguageContext strategy langContext) detected in
      if Nat.eqb (List.length componentsWithContext) 0
      then inr (components ++ [unknownComponent unknowns langContext langAtPath])
      else inr (components ++ componentsWithContext)
  end.

Definition detectProjectComponents (unknowns : UnknownMembers)
    (languagesAtPaths : list LanguageAtPath) (context : ScannerContext)
    (strategy : ScanningStrategy)
  : RunError + list ProjectComponentAndLangContext :=
  forOf (fun components langAtPath =>
           let langContext := getLanguageContext context langAtPath in
           match init langContext with
           | Some error => inl error
           | None =>
               let detectors := getProjectComponentDetectors langContext in
               forOf (detectWith unknowns strategy langContext langAtPath)
                     detectors components
           end)
        languagesAtPaths [].

(** The evaluation of practices and the report as a step of a run. *)
Definition ofEngine {A} (a : Async A) : Run A :=
  (map EngineEvent (fst a),
   match snd a with
   | inl fault => inl (EngineFault fault)
   | inr value => inr value
   end).

(** The last two statements of [scan], embedded above, as a step of a
    run. *)
Definition detectPracticesAndReport
    (filterPractices : ProjectComponentContext -> list IPracticeWithMetadata
                       -> FilteredPractices)
    (practices : list IPracticeWithMetadata)
    (reporter : IReporter)
    (projectComponents : list ProjectComponentAndLangContext) : Run unit :=
  ofEngine (scan filterPractices practices reporter projectComponents).

Section Scan.

Variable host : Host.
Variable unknowns : UnknownMembers.
(** [this.scanStrategyDetector.detect()] and [this.scannerContextFactory] *)
Variable detect : RunError + ScanningStrategy.
Variable scannerContextFactory : ScanningStrategy -> ScannerContext.
Variable filterPractices :
  ProjectComponentContext -> list IPracticeWithMetadata -> FilteredPractices.
Variable practices : list IPracticeWithMetadata.
Variable reporter : IReporter.

Definition scan : Run unit :=
  match detect with
  | inl error => ([], inl error)
  | inr detected =>
      let e1 := [ScanDebugged [("Scan strategy: " ++ inspectStrategy host detected)%string]] in
      let (cloning, preprocessed) := preprocessData host detected in
      match preprocessed with
      | inl error => (e1 ++ cloning, inl error)
      | inr scanStrategy =>
          let e2 := [ScanDebugged [("Scan strategy (after preprocessing): "
                                    ++ inspectStrategy host scanStrategy)%string]] in
          let scannerContext := scannerContextFactory scanStrategy in
          match detectLanguagesAtPaths scannerContext with
          | inl error => (e1 ++ cloning ++ e2, inl error)
          | inr languagesAtPaths =>
              let e3 := [ScanDebugged ["LanguagesAtPaths:";
                                       inspectLanguages host languagesAtPaths]] in
              match detectProjectComponents unknowns languagesAtPaths
                                            scannerContext scanStrategy with
              | inl error => (e1 ++ cloning ++ e2 ++ e3, inl error)
              | inr projectComponents =>
                  let e4 := [ScanDebugged ["Components:";
                                           inspectComponents host projectComponents]] in
                  let (evaluating, outcome) :=
                    detectPracticesAndReport filterPractices practices reporter
                                             projectComponents in
                  (e1 ++ cloning ++ e2 ++ e3 ++ e4 ++ evaluating, outcome)
              end
          end
      end
  end.

End Scan.

(** The arrays handed to the reporter and the clones started in a run. *)
Definition reported (events : list RunEvent) : list (list PracticeReport) :=
  flat_map (fun e => match e with
                     | EngineEvent (ReporterReport entries) => [entries]
                     | _ => []
                     end) events.

Definition clones (events : list RunEvent) : list (string * string) :=
  flat_map (fun e => match e with
                     | CloneCalled href dir => [(href, dir)]
                     | _ => []
                     end) events.

Definition evaluated (events : list RunEvent) : list PracticeId :=
  flat_map (fun e => match e with
                     | EngineEvent (EvaluateCalled _ p) => [p]
                     | _ => []
                     end) events.

End ScannerRun.

(* ===================================================================== *)
(** * Files as lists of lines                                             *)
(* ===================================================================== *)

Module GitignoreLines.

Definition LF : Js.JsString := [10%N].
Definition CRLF : Js.JsString := [13%N; 10%N].

(** The text of a file whose lines are [lines], separated by [separator]. *)
Fixpoint joinLines (separator : Js.JsString) (lines : list Js.JsString)
  : Js.JsString :=
  match lines with
  | [] => []
  | line :: rest =>
      match rest with
      | [] => line
      | _ :: _ => line ++ separator ++ joinLines separator rest
      end
  end.

(** A line holds no line feed and does not end in a carriage return. *)
Definition plainLine (line : Js.JsString) : Prop :=
  ~ In 10%N line /\ last line 0%N <> 13%N.

(** The line has a code unit that is not white space and does not begin
    with #. *)
Definition meaningful (line : Js.JsString) : bool :=
  existsb (fun c => negb (Js.isWhiteSpace c)) line
  && negb (match line with
           | c :: _ => (c =? 35)%N
           | [] => false
           end).

(** A file inspector that serves [content] as .gitignore, and a practice
    context with it. *)
Definition serving (content : Js.JsString) : FileInspector :=
  {| readFile := fun file => if String.eqb file ".gitignore" then inr content
                             else inl "ENOENT" |}.

Definition contextServing (component : ProjectComponent) (content : Js.JsString)
  : PracticeContext :=
  {| projectComponent := component;
     root := {| fileInspector := Some (serving content) |};
     config := None |}.

End GitignoreLines.

(** [l] is [l'] with some elements left out. *)
Inductive Subsequence {A : Type} : list A -> list A -> Prop :=
| Subsequence_nil : Subsequence [] []
| Subsequence_skip x l l' : Subsequence l l' -> Subsequence l (x :: l')
| Subsequence_keep x l l' : Subsequence l l' -> Subsequence (x :: l) (x :: l').

(** A component [cw] that the detector [d] contributes for a language at a
    path: the UNKNOWN component when it detects none, or one of the
    components it detects, with the repository and the language context. *)
Definition contributes (unknowns : ScannerRun.UnknownMembers)
    (strategy : ScannerRun.ScanningStrategy)
    (langContext : ScannerRun.ScanLanguageContext)
    (langAtPath : ScannerRun.LanguageAtPath)
    (d : ScannerRun.ProjectComponentDetector)
    (cw : ProjectComponentAndLangContext) : Prop :=
  (ScannerRun.detectComponent d langAtPath = inr []
   /\ cw = ScannerRun.unknownComponent unknowns langContext langAtPath)
  \/ (exists detected c,
         ScannerRun.detectComponent d langAtPath = inr detected
         /\ In c detected
         /\ cw = ScannerRun.withLanguageContext strategy langContext c).

(** Concrete hosts, strategies and detectors. *)
Module RunExamples.

Import ScannerRun.

Definition host : Host :=
  {| parseUrl := fun s => if String.eqb s "" then inl (CollaboratorError "Invalid URL")
                          else inr s;
     mkdtemp := inr "/tmp/dx-scannerAbC";
     gitClone := fun href _ =>
       if String.eqb href "https://example.org/gone.git"
       then Some (CollaboratorError "repository not found") else None;
     inspectStrategy := fun _ => "{ strategy }";
     inspectLanguages := fun _ => "[ languages ]";
     inspectComponents := fun _ => "[ components ]" |}.

Definition unknowns : UnknownMembers :=
  {| frameworkUNKNOWN := "UNKNOWN"; platformUNKNOWN := "UNKNOWN"; typeUNKNOWN := "UNKNOWN" |}.

Definition remoteStrategy : ScanningStrategy :=
  {| serviceType := otherService "github"; accessType := Some "public";
     remoteUrl := Some "https://example.org/repo.git"; localPath := None |}.

Definition localStrategy : ScanningStrategy :=
  {| serviceType := local; accessType := None;
     remoteUrl := None; localPath := Some "/work/repo" |}.

Definition goneStrategy : ScanningStrategy :=
  {| serviceType := otherService "github"; accessType := Some "public";
     remoteUrl := Some "https://example.org/gone.git"; localPath := None |}.

Definition jsAtRoot : LanguageAtPath :=
  {| lap_language := JavaScript; lap_path := "/work/repo" |}.

Definition found : ProjectComponent :=
  {| framework := "React"; language := JavaScript; path := "/work/repo/web";
     platform := "Web"; type := "Application"; repositoryPath := None |}.

Definition finds (l : list ProjectComponent) : ProjectComponentDetector :=
  {| detectComponent := fun _ => inr l |}.

(** A language context with the given detectors, whose components get the
    contexts of the examples above. *)
Definition contextWith (detectors : list ProjectComponentDetector)
  : ScanLanguageContext :=
  {| engineContext := languageContext Examples.jsComponent;
     lc_language := JavaScript;
     init := None;
     getProjectComponentDetectors := detectors |}.

Definition scannerContext (languages : list LanguageAtPath)
    (detectors : list ProjectComponentDetector) : ScannerContext :=
  {| languageDetectors := [{| detectLanguage := inr languages |}];
     getLanguageContext := fun _ => contextWith detectors |}.

End RunExamples.

(* ===================================================================== *)
(** * JavaScript strings: the operations meet their descriptions           *)
(* ===================================================================== *)

Lemma startsWith_iff (p s : Js.JsString) :
  Js.startsWith p s = true <-> exists rest, s = p ++ rest.
Proof.
  revert s; induction p as [|a p IH]; intros s; simpl.
  - split; [intros _; now exists s | reflexivity].
  - destruct s as [|b s].
    + split; [discriminate | intros [rest H]; discriminate].
    + rewrite andb_true_iff, N.eqb_eq, IH. split.
      * intros [-> [rest ->]]. now exists rest.
      * intros [rest H]. injection H as -> ->. split; [reflexivity | now exists rest].
Qed.

Lemma testLiteral_iff (p s : Js.JsString) :
  Js.testLiteral p s = true <-> GitignoreSpec.occursIn p s.
Proof.
  unfold GitignoreSpec.occursIn.
  induction s as [|c s IH]; simpl; rewrite orb_true_iff, startsWith_iff.
  - split.
    + intros [[rest H] | H]; [|discriminate]. now exists [], rest.
    + intros [before [after H]]. left.
      destruct before; [now exists after | discriminate].
  - rewrite IH. split.
    + intros [[rest H] | [before [after H]]].
      * now exists [], rest.
      * exists (c :: before), after. simpl. now rewrite H.
    + intros [before [after H]]. destruct before as [|b before].
      * left. now exists after.
      * right. simpl in H. injection H as _ H. now exists before, after.
Qed.

Lemma testLiteral_nonempty (p s : Js.JsString) :
  p <> [] -> Js.testLiteral p s = true -> s <> [].
Proof.
  intros Hp H ->. simpl in H. destruct p; [congruence | discriminate].
Qed.

(** A string found by a test for a non-empty text is truthy, so the value
    of [find] is truthy exactly when some element passes the test. *)
Lemma truthy_find (p : Js.JsString) (l : list Js.JsString) :
  p <> [] ->
  Js.truthy (Js.find (Js.testLiteral p) l) = existsb (Js.testLiteral p) l.
Proof.
  intros Hp. unfold Js.find. induction l as [|s l IH]; simpl; [reflexivity|].
  destruct (Js.testLiteral p s) eqn:E; simpl.
  - destruct s; [exfalso; now apply (testLiteral_nonempty p [] Hp) | reflexivity].
  - exact IH.
Qed.

Lemma parseGitignore_In (content line : Js.JsString) :
  In line (JsGitignoreCorrectlySetPractice.parseGitignore content)
  <-> GitignoreSpec.considered content line.
Proof.
  unfold JsGitignoreCorrectlySetPractice.parseGitignore, GitignoreSpec.considered.
  rewrite filter_In, andb_true_iff, !negb_true_iff.
  assert (Hs : Js.startsWith (Js.lit "#") line = false
               <-> ~ (exists rest, line = Js.lit "#" ++ rest)).
  { rewrite <- startsWith_iff. destruct (Js.startsWith _ line); split; congruence. }
  rewrite Hs. destruct (Js.trim line); split; intros (H1 & H2 & H3);
    repeat split; try assumption; congruence.
Qed.

Lemma existsb_matched (content : Js.JsString) (pattern : string) :
  existsb (Js.testLiteral (Js.lit pattern))
          (JsGitignoreCorrectlySetPractice.parseGitignore content) = true
  <-> GitignoreSpec.matched content pattern.
Proof.
  rewrite existsb_exists. unfold GitignoreSpec.matched.
  split; intros [line [H1 H2]]; exists line.
  - now rewrite <- parseGitignore_In, <- testLiteral_iff.
  - now rewrite parseGitignore_In, testLiteral_iff.
Qed.

(** The condition the practice computes is the one of the specification. *)
Lemma correctlySet_iff (content : Js.JsString) :
  Js.truthy (JsGitignoreCorrectlySetPractice.correctlySet
               (JsGitignoreCorrectlySetPractice.parseGitignore content)) = true
  <-> GitignoreSpec.correctlySet content.
Proof.
  unfold JsGitignoreCorrectlySetPractice.correctlySet, GitignoreSpec.correctlySet.
  rewrite <- !existsb_matched.
  set (l := JsGitignoreCorrectlySetPractice.parseGitignore content).
  assert (T : forall s, Js.lit s <> [] ->
              Js.truthy (Js.find (Js.testLiteral (Js.lit s)) l)
              = existsb (Js.testLiteral (Js.lit s)) l)
    by (intros; now apply truthy_find).
  pose proof (T "package-lock.json" ltac:(discriminate)) as T1.
  pose proof (T "yarn.lock" ltac:(discriminate)) as T2.
  pose proof (T "node_modules" ltac:(discriminate)) as T3.
  pose proof (T "coverage" ltac:(discriminate)) as T4.
  pose proof (T ".log" ltac:(discriminate)) as T5.
  clear T. cbv zeta. unfold Js.and, Js.or, Js.not.
  destruct (existsb (Js.testLiteral (Js.lit "package-lock.json")) l);
  destruct (existsb (Js.testLiteral (Js.lit "yarn.lock")) l);
  destruct (existsb (Js.testLiteral (Js.lit "node_modules")) l);
  destruct (existsb (Js.testLiteral (Js.lit "coverage")) l);
  destruct (existsb (Js.testLiteral (Js.lit ".log")) l);
  rewrite ?T1, ?T2; simpl; rewrite ?T1, ?T2, ?T3, ?T4, ?T5; simpl;
  rewrite ?T1, ?T2, ?T3, ?T4, ?T5; simpl; rewrite ?T1, ?T2, ?T3, ?T4, ?T5;
  intuition congruence.
Qed.

(* ===================================================================== *)
(** * The dependency resolver                                             *)
(* ===================================================================== *)

Lemma extractFirst_Some {A} (f : A -> bool) (l : list A) x l' :
  ScannerUtils.extractFirst f l = Some (x, l') ->
  f x = true /\ Permutation l (x :: l').
Proof.
  revert x l'; induction l as [|a l IH]; simpl; intros x l' H; [discriminate|].
  destruct (f a) eqn:Fa.
  - injection H as <- <-. split; [assumption | reflexivity].
  - destruct (ScannerUtils.extractFirst f l) as [[y t]|]; [|discriminate].
    injection H as <- <-. destruct (IH y t eq_refl) as [Fy P].
    split; [assumption|]. rewrite P. apply perm_swap.
Qed.

Lemma extractFirst_None {A} (f : A -> bool) (l : list A) :
  ScannerUtils.extractFirst f l = None -> forall x, In x l -> f x = false.
Proof.
  induction l as [|a l IH]; simpl; intros H x Hx; [contradiction|].
  destruct (f a) eqn:Fa; [discriminate|].
  destruct (ScannerUtils.extractFirst f l) as [[y t]|]; [discriminate|].
  destruct Hx as [<- | Hx]; [assumption | now apply IH].
Qed.

Lemma linearize_Permutation fuel rest placed stuck :
  ScannerUtils.linearize fuel rest = (placed, stuck) ->
  Permutation rest (placed ++ stuck).
Proof.
  revert rest placed stuck; induction fuel as [|fuel IH]; simpl; intros rest placed stuck H.
  - injection H as <- <-. reflexivity.
  - destruct (ScannerUtils.extractFirst _ rest) as [[p rest']|] eqn:E.
    + destruct (ScannerUtils.linearize fuel rest') as [pl st] eqn:L.
      injection H as <- <-. apply extractFirst_Some in E as [_ P].
      rewrite P. simpl. constructor. now apply IH.
    + injection H as <- <-. reflexivity.
Qed.

(** With fuel for every practice, whatever is left over is blocked by what
    is left over. *)
Lemma linearize_stuck fuel rest placed stuck :
  ScannerUtils.linearize fuel rest = (placed, stuck) ->
  List.length rest <= fuel ->
  forall p, In p stuck -> ScannerUtils.blockedBy stuck p = true.
Proof.
  revert rest placed stuck; induction fuel as [|fuel IH]; simpl; intros rest placed stuck H Hlen.
  - injection H as <- <-. destruct rest; [intros p [] | simpl in Hlen; lia].
  - destruct (ScannerUtils.extractFirst _ rest) as [[q rest']|] eqn:E.
    + destruct (ScannerUtils.linearize fuel rest') as [pl st] eqn:L.
      injection H as <- <-. apply extractFirst_Some in E as [_ P].
      apply Permutation_length in P. simpl in P.
      apply (IH _ _ _ L). lia.
    + injection H as <- <-. intros p Hp.
      apply (extractFirst_None _ _ E) in Hp. now apply negb_false_iff in Hp.
Qed.

Lemma sortPractices_Permutation practices order :
  ScannerUtils.sortPractices practices = inr order ->
  Permutation practices order.
Proof.
  unfold ScannerUtils.sortPractices.
  destruct (ScannerUtils.linearize _ practices) as [placed stuck] eqn:L.
  destruct stuck; [|discriminate]. intros H; injection H as <-.
  apply linearize_Permutation in L. now rewrite app_nil_r in L.
Qed.

Lemma existsb_hasId d (l : list IPracticeWithMetadata) :
  existsb (ScannerUtils.hasId d) l = true <-> exists q, In q l /\ practiceId q = d.
Proof.
  rewrite existsb_exists. unfold ScannerUtils.hasId.
  split; intros [q [H1 H2]]; exists q; split; try assumption;
    now apply String.eqb_eq.
Qed.

Lemma blockedBy_iff rest p :
  ScannerUtils.blockedBy rest p = true
  <-> exists d, In d (ScannerUtils.dependencies p)
                /\ exists q, In q rest /\ practiceId q = d.
Proof.
  unfold ScannerUtils.blockedBy. rewrite existsb_exists.
  split; intros [d [H1 H2]]; exists d; split; try assumption;
    now apply existsb_hasId.
Qed.

(** A placed practice comes after every practice of the input that it names
    in its constraints. *)
Lemma linearize_topological fuel rest placed stuck :
  ScannerUtils.linearize fuel rest = (placed, stuck) ->
  forall l1 p l2, placed = l1 ++ p :: l2 ->
  forall d q, In d (ScannerUtils.dependencies p) -> In q rest -> practiceId q = d ->
  exists q', In q' l1 /\ practiceId q' = d.
Proof.
  revert rest placed stuck; induction fuel as [|fuel IH]; simpl;
    intros rest placed stuck H l1 p l2 Hpl d q Hd Hq Hid.
  - injection H as <- <-. destruct l1; discriminate.
  - destruct (ScannerUtils.extractFirst _ rest) as [[p0 rest']|] eqn:E.
    + destruct (ScannerUtils.linearize fuel rest') as [pl st] eqn:L.
      injection H as <- <-. apply extractFirst_Some in E as [Hready P].
      apply negb_true_iff in Hready.
      destruct l1 as [|x l1]; simpl in Hpl; injection Hpl as -> ->.
      * exfalso. assert (B : ScannerUtils.blockedBy rest p = true).
        { apply blockedBy_iff. exists d. split; [assumption|]. now exists q. }
        congruence.
      * apply (Permutation_in _ P) in Hq. destruct Hq as [<- | Hq].
        -- exists x. split; [now left | assumption].
        -- destruct (IH _ _ _ L l1 p l2 eq_refl d q Hd Hq Hid) as [q' [H1 H2]].
           exists q'. split; [now right | assumption].
    + injection H as <- <-. destruct l1; discriminate.
Qed.

Lemma sortPractices_topological practices order l1 p l2 d :
  ScannerUtils.sortPractices practices = inr order ->
  order = l1 ++ p :: l2 ->
  In d (ScannerUtils.dependencies p) ->
  (exists q, In q practices /\ practiceId q = d) ->
  exists q', In q' l1 /\ practiceId q' = d.
Proof.
  unfold ScannerUtils.sortPractices.
  destruct (ScannerUtils.linearize _ practices) as [placed stuck] eqn:L.
  destruct stuck; [|discriminate]. intros H; injection H as <-.
  intros Ho Hd [q [Hq Hid]].
  exact (linearize_topological _ _ _ _ L l1 p l2 Ho d q Hd Hq Hid).
Qed.

(** ** Cycles *)

Lemma requires_incl ps ps' a b :
  incl ps ps' -> requires ps a b -> requires ps' a b.
Proof. intros I [p [H1 H2]]. exists p. split; [now apply I | assumption]. Qed.

Lemma chainTo_incl ps ps' chain target :
  incl ps ps' -> chainTo ps chain target -> chainTo ps' chain target.
Proof.
  intros I. induction chain as [|a rest IH]; simpl; [trivial|].
  intros [H1 H2]. split; [now apply (requires_incl ps) | now apply IH].
Qed.

Lemma isCycle_incl ps ps' members :
  incl ps ps' -> isCycle ps members -> isCycle ps' members.
Proof. destruct members; [trivial|]. apply chainTo_incl. Qed.

Lemma chainTo_snoc ps chain b c :
  chainTo ps chain b -> requires ps b c -> chainTo ps (chain ++ [b]) c.
Proof.
  intros H R. induction chain as [|a rest IH]; simpl.
  - split; [assumption | trivial].
  - destruct H as [H1 H2]. split; [|now apply IH].
    destruct rest; assumption.
Qed.

(** Every member of a cycle requires a member of the cycle. *)
Lemma chainTo_closed ps chain target a :
  chainTo ps chain target -> In a chain ->
  exists b, (In b chain \/ b = target) /\ requires ps a b.
Proof.
  induction chain as [|x rest IH]; simpl; intros H Ha; [contradiction|].
  destruct H as [H1 H2]. destruct Ha as [<- | Ha].
  - exists (hd target rest). split; [|assumption].
    destruct rest; simpl; [now right | left; right; now left].
  - destruct (IH H2 Ha) as [b [[Hb | Hb] R]]; exists b; split; auto.
Qed.

Lemma isCycle_closed ps members :
  isCycle ps members ->
  members <> [] /\ forall a, In a members -> exists b, In b members /\ requires ps a b.
Proof.
  destruct members as [|first rest]; [contradiction|]. intros H.
  split; [discriminate|]. intros a Ha.
  destruct (chainTo_closed _ _ _ _ H Ha) as [b [[Hb | Hb] R]]; exists b; split;
    try assumption. left. now symmetry.
Qed.

(** While the constraints of the practices still to be placed contain a
    cycle, no member of the cycle is placed. *)
Lemma linearize_keeps_cycle members fuel rest placed stuck :
  ScannerUtils.linearize fuel rest = (placed, stuck) ->
  (forall a, In a members -> exists b, In b members /\ requires rest a b) ->
  forall a, In a members -> exists b, In b members /\ requires stuck a b.
Proof.
  revert rest placed stuck; induction fuel as [|fuel IH]; simpl; intros rest placed stuck H C.
  - now injection H as <- <-.
  - destruct (ScannerUtils.extractFirst _ rest) as [[p rest']|] eqn:E.
    + destruct (ScannerUtils.linearize fuel rest') as [pl st] eqn:L.
      injection H as <- <-. apply extractFirst_Some in E as [Hready P].
      apply negb_true_iff in Hready.
      apply (IH _ _ _ L). intros a Ha.
      destruct (C a Ha) as [b [Hb [q [Hq [Hid Hdep]]]]].
      exists b. split; [assumption|]. exists q. split; [|now split].
      apply (Permutation_in _ P) in Hq. destruct Hq as [<- | Hq]; [|assumption].
      exfalso. destruct (C b Hb) as [_ [_ [qb [Hqb [Hidb _]]]]].
      assert (B : ScannerUtils.blockedBy rest p = true).
      { apply blockedBy_iff. exists b. split; [assumption|]. now exists qb. }
      congruence.
    + now injection H as <- <-.
Qed.

Section FindCycle.

Variable stuck : list IPracticeWithMetadata.
Hypothesis all_blocked : forall p, In p stuck -> ScannerUtils.blockedBy stuck p = true.

Local Abbreviation known := (knownId stuck).
Local Abbreviation trailTo := (trailTo stuck).

Lemma nextBlocker_requires a :
  known a ->
  requires stuck a (ScannerUtils.nextBlocker stuck a)
  /\ known (ScannerUtils.nextBlocker stuck a).
Proof.
  intros [p0 [Hp0 Hid0]]. unfold ScannerUtils.nextBlocker.
  destruct (find (ScannerUtils.hasId a) stuck) as [p|] eqn:F.
  - apply find_some in F as [Hp Hid].
    apply String.eqb_eq in Hid.
    pose proof (all_blocked p Hp) as B. unfold ScannerUtils.blockedBy in B.
    destruct (find _ (ScannerUtils.dependencies p)) as [d|] eqn:G.
    + apply find_some in G as [Hd Hk]. apply existsb_hasId in Hk.
      split; [|exact Hk]. exists p. now repeat split.
    + exfalso. apply existsb_exists in B as [d [Hd Hk]].
      pose proof (find_none _ _ G d Hd) as N. simpl in N. congruence.
  - exfalso. pose proof (find_none _ _ F p0 Hp0) as N.
    unfold ScannerUtils.hasId in N. apply String.eqb_neq in N. congruence.
Qed.

Lemma sinceVisit_chain trail a c :
  trailTo trail c -> In a trail ->
  exists l, ScannerUtils.sinceVisit a trail = a :: l /\ chainTo stuck (a :: l) c.
Proof.
  revert c; induction trail as [|b older IH]; simpl; intros c H Ha; [contradiction|].
  destruct H as [R T]. destruct (String.eqb b a) eqn:E.
  - apply String.eqb_eq in E as ->. exists []. simpl. auto.
  - apply String.eqb_neq in E. destruct Ha as [Ha | Ha]; [congruence|].
    destruct (IH b T Ha) as [l [-> Hl]].
    exists (l ++ [b]). split; [reflexivity|].
    exact (chainTo_snoc stuck (a :: l) b c Hl R).
Qed.

Lemma walkToCycle_isCycle fuel trail a :
  trailTo trail a -> NoDup trail -> (forall x, In x trail -> known x) -> known a ->
  List.length stuck <= List.length trail + fuel ->
  isCycle stuck (ScannerUtils.walkToCycle fuel stuck trail a).
Proof.
  revert trail a; induction fuel as [|fuel IH]; intros trail a T N K Ka L.
  - assert (Hin : In a trail).
    { destruct Ka as [p [Hp Hid]].
      apply (NoDup_length_incl N (l' := map practiceId stuck)).
      - rewrite length_map. lia.
      - intros x Hx. destruct (K x Hx) as [q [Hq <-]]. now apply in_map.
      - rewrite <- Hid. now apply in_map. }
    simpl. assert (E : existsb (String.eqb a) trail = true).
    { apply existsb_exists. exists a. split; [assumption | apply String.eqb_refl]. }
    rewrite E. destruct (sinceVisit_chain trail a a T Hin) as [l [-> Hl]]. exact Hl.
  - simpl. destruct (existsb (String.eqb a) trail) eqn:E.
    + apply existsb_exists in E as [x [Hx Hxa]]. apply String.eqb_eq in Hxa as <-.
      destruct (sinceVisit_chain trail a a T Hx) as [l [-> Hl]]. exact Hl.
    + destruct (nextBlocker_requires a Ka) as [R Kn].
      apply IH; try assumption.
      * simpl. now split.
      * constructor; [|assumption]. intros Hin.
        assert (existsb (String.eqb a) trail = true); [|congruence].
        apply existsb_exists. exists a. split; [assumption | apply String.eqb_refl].
      * intros x [<- | Hx]; [assumption | now apply K].
      * simpl. lia.
Qed.

Lemma findCycle_isCycle :
  stuck <> [] -> isCycle stuck (ScannerUtils.findCycle stuck).
Proof.
  unfold ScannerUtils.findCycle. intros Hne.
  assert (H : forall p, In p stuck ->
              isCycle stuck (ScannerUtils.walkToCycle (List.length stuck) stuck []
                                                      (practiceId p))).
  { intros p Hp. apply walkToCycle_isCycle.
    - exact I.
    - constructor.
    - intros x [].
    - exists p. now split.
    - simpl. lia. }
  clear all_blocked. destruct stuck as [|p rest]; [congruence|].
  apply H. now left.
Qed.

End FindCycle.

(** The fault of the resolver names a cycle of the constraints. *)
Lemma sortPractices_fault_names_cycle practices members :
  ScannerUtils.sortPractices practices = inl (DependencyCycleFault members) ->
  isCycle practices members.
Proof.
  unfold ScannerUtils.sortPractices.
  destruct (ScannerUtils.linearize _ practices) as [placed stuck] eqn:L.
  destruct stuck as [|s stuck]; [discriminate|]. intros H; injection H as <-.
  apply (isCycle_incl (s :: stuck)).
  - intros x Hx. apply (Permutation_in x (Permutation_sym (linearize_Permutation _ _ _ _ L))).
    apply in_or_app. now right.
  - apply findCycle_isCycle; [|discriminate].
    apply (linearize_stuck _ _ _ _ L). lia.
Qed.

(** The resolver fails whenever the constraints contain a cycle. *)
Lemma sortPractices_fails_on_cycle practices cycle :
  isCycle practices cycle ->
  exists members,
    ScannerUtils.sortPractices practices = inl (DependencyCycleFault members).
Proof.
  intros C. apply isCycle_closed in C as [Hne C].
  unfold ScannerUtils.sortPractices.
  destruct (ScannerUtils.linearize _ practices) as [placed stuck] eqn:L.
  pose proof (linearize_keeps_cycle cycle _ _ _ _ L C) as C'.
  destruct stuck as [|s stuck]; [|eexists; reflexivity].
  exfalso. destruct cycle as [|a cycle]; [congruence|].
  destruct (C' a (or_introl eq_refl)) as [_ [_ [q [[] _]]]].
Qed.

(* ===================================================================== *)
(** * The evaluation loop                                                 *)
(* ===================================================================== *)

Section Pipeline.

Variable componentContext : ProjectComponentContext.
Variable practiceContext : PracticeContext.

Local Abbreviation step := (evaluateNext componentContext practiceContext).
Local Abbreviation recordOf := (evaluatedRecord componentContext practiceContext).

(** One turn of the loop: an unfulfilled practice changes nothing, a
    fulfilled one is evaluated once and its record appended. *)
Lemma evaluateNext_cases state p :
  (ScannerUtils.isFulfilled p (fst state) = false /\ step state p = state)
  \/ (ScannerUtils.isFulfilled p (fst state) = true
      /\ exists caught,
           step state p
           = (fst state ++ [recordOf p],
              snd state
              ++ EvaluateCalled (pcc_projectComponent componentContext) (practiceId p)
                 :: caught)
           /\ evaluateCalls caught = [] /\ loggedLines caught = []
           /\ handedToReporter caught = []).
Proof.
  unfold evaluateNext. destruct state as [records events]. simpl.
  destruct (ScannerUtils.isFulfilled p records); simpl; [right | left; auto].
  split; [reflexivity|].
  unfold evaluatedRecord, recordedEvaluation.
  destruct (evaluate p _); eexists; repeat split.
Qed.

(** The loop appends to the records and events it starts from. *)
Lemma loop_appends order : forall state,
  exists records events,
    fold_left step order state = (fst state ++ records, snd state ++ events)
    /\ evaluateCalls events = map recordId records
    /\ loggedLines events = []
    /\ handedToReporter events = []
    /\ Forall (fun r => exists p, In p order /\ r = recordOf p) records
    /\ incl (map recordId records) (map practiceId order)
    /\ (NoDup (map practiceId order) -> NoDup (map recordId records))
    /\ (forall l1 r l2, records = l1 ++ r :: l2 ->
          ScannerUtils.isFulfilled (practice r) (fst state ++ l1) = true).
Proof.
  induction order as [|p order IH]; intros state; simpl.
  - exists [], []. rewrite !app_nil_r. destruct state.
    repeat split; auto using incl_nil_l; try constructor.
    intros l1 r l2 H. destruct l1; discriminate.
  - destruct (IH (step state p)) as (rs & es & E & Hc & Hl & Hr & Hf & Hi & Hn & Hful).
    destruct (evaluateNext_cases state p) as [[Hno S] | [Hyes [caught (S & Cc & Cl & Cr)]]];
      rewrite S in *; simpl in *.
    + exists rs, es. repeat split; try assumption.
      * eapply Forall_impl; [|exact Hf]. intros r [q [Hq ->]]. exists q. auto.
      * now apply incl_tl.
      * intros N. inversion N. auto.
    + exists (recordOf p :: rs),
             (EvaluateCalled (pcc_projectComponent componentContext) (practiceId p)
              :: caught ++ es).
      rewrite E, <- !app_assoc. simpl. repeat split.
      * unfold evaluateCalls in *. simpl. rewrite flat_map_app, Cc, Hc. reflexivity.
      * unfold loggedLines in *. simpl. rewrite flat_map_app, Cl, Hl. reflexivity.
      * unfold handedToReporter in *. simpl. rewrite flat_map_app, Cr, Hr. reflexivity.
      * constructor; [exists p; auto|].
        eapply Forall_impl; [|exact Hf]. intros r [q [Hq ->]]. exists q. auto.
      * intros x [<- | Hx]; [now left | right; now apply Hi].
      * intros N. inversion N as [|? ? Hnotin N']. subst. constructor; [|auto].
        intros Hin. apply Hnotin. now apply Hi.
      * intros l1 r l2 H. destruct l1 as [|x l1]; simpl in H; injection H as <- ->.
        -- now rewrite app_nil_r.
        -- specialize (Hful l1 r l2 eq_refl). now rewrite <- app_assoc in Hful.
Qed.

Lemma loop_app pre post state :
  fold_left step (pre ++ post) state = fold_left step post (fold_left step pre state).
Proof. apply fold_left_app. Qed.

Lemma addTurnedOff_map off : forall records,
  fold_left (addTurnedOff componentContext practiceContext) off records
  = records ++ map (turnedOffRecord componentContext practiceContext) off.
Proof.
  induction off as [|p off IH]; intros records; simpl.
  - now rewrite app_nil_r.
  - rewrite IH. unfold addTurnedOff. now rewrite <- app_assoc.
Qed.

End Pipeline.

(* ===================================================================== *)
(** * detectPracticesForComponent                                         *)
(* ===================================================================== *)

Lemma NoDup_app_disjoint {A} (l1 l2 : list A) :
  NoDup (l1 ++ l2) -> forall a, In a l1 -> ~ In a l2.
Proof.
  induction l1 as [|x l1 IH]; simpl; intros N a Ha; [contradiction|].
  inversion N as [|? ? Hx N']; subst. destruct Ha as [<- | Ha].
  - intros H. apply Hx. apply in_or_app. now right.
  - now apply IH.
Qed.

Lemma recordId_turnedOff c pc (off : list IPracticeWithMetadata) :
  map recordId (map (turnedOffRecord c pc) off) = map practiceId off.
Proof. rewrite map_map. reflexivity. Qed.

Lemma detect_fault filterPractices practices cw fault :
  ScannerUtils.sortPractices
    (customApplicablePractices (filteredFor filterPractices practices cw)) = inl fault ->
  detectPracticesForComponent filterPractices practices cw = ([], inl fault).
Proof.
  unfold detectPracticesForComponent, filteredFor, contextOf. now intros ->.
Qed.

(** When the resolver succeeds the result set is the records of the loop
    followed by the records of the practices that are turned off. *)
Lemma detect_sorted filterPractices practices cw order :
  ScannerUtils.sortPractices
    (customApplicablePractices (filteredFor filterPractices practices cw)) = inr order ->
  exists events,
    detectPracticesForComponent filterPractices practices cw
    = (events,
       inr (producedBy (contextOf cw) order
            ++ map (turnedOffRecord (contextOf cw) (getPracticeContext (contextOf cw)))
                   (practicesOff (filteredFor filterPractices practices cw))))
    /\ evaluateCalls events = map recordId (producedBy (contextOf cw) order)
    /\ loggedLines events = []
    /\ handedToReporter events = [].
Proof.
  unfold detectPracticesForComponent, filteredFor, contextOf, producedBy. intros ->.
  set (c := getProjectComponentContext (languageContext cw) (component cw)).
  destruct (loop_appends c (getPracticeContext c) order ([], []))
    as (rs & es & E & Hc & Hl & Hr & _).
  simpl in E. rewrite E. simpl. exists es.
  rewrite addTurnedOff_map. auto.
Qed.

(** The ids of the records of the loop are ids of the practices that are
    not turned off, each at most once. *)
Lemma producedBy_ids c order :
  incl (map recordId (producedBy c order)) (map practiceId order)
  /\ (NoDup (map practiceId order) -> NoDup (map recordId (producedBy c order)))
  /\ Forall (fun r => exists p, In p order
                                /\ r = evaluatedRecord c (getPracticeContext c) p)
            (producedBy c order).
Proof.
  unfold producedBy.
  destruct (loop_appends c (getPracticeContext c) order ([], []))
    as (rs & es & E & _ & _ & _ & Hf & Hi & Hn & _).
  simpl in E. rewrite E. simpl. auto.
Qed.

Lemma producedBy_app c pre post :
  exists later,
    producedBy c (pre ++ post) = producedBy c pre ++ later
    /\ incl (map recordId later) (map practiceId post)
    /\ forall l1 r l2, later = l1 ++ r :: l2 ->
         ScannerUtils.isFulfilled (practice r) (producedBy c pre ++ l1) = true.
Proof.
  unfold producedBy. rewrite fold_left_app.
  destruct (loop_appends c (getPracticeContext c) post
              (fold_left (evaluateNext c (getPracticeContext c)) pre ([], [])))
    as (rs & es & E & _ & _ & _ & _ & Hi & _ & Hful).
  rewrite E. simpl. exists rs. auto.
Qed.

Lemma distinctIds_order filtered order :
  distinctIds filtered ->
  Permutation (customApplicablePractices filtered) order ->
  NoDup (map practiceId order ++ map practiceId (practicesOff filtered)).
Proof.
  unfold distinctIds. rewrite map_app. intros N P.
  eapply Permutation_NoDup; [|exact N].
  apply Permutation_app_tail. now apply Permutation_map.
Qed.

Lemma hasEvaluation_iff d e r :
  ScannerUtils.hasEvaluation d e r = true <-> recordId r = d /\ evaluation r = e.
Proof.
  unfold ScannerUtils.hasEvaluation. rewrite andb_true_iff, String.eqb_eq.
  destruct (evaluation r), e; intuition congruence.
Qed.

Lemma forallb_false_iff {A} (f : A -> bool) l :
  forallb f l = false <-> exists x, In x l /\ f x = false.
Proof.
  induction l as [|a l IH]; simpl.
  - split; [discriminate | intros [x [[] _]]].
  - rewrite andb_false_iff, IH. split.
    + intros [H | [x [H1 H2]]]; [exists a; auto | exists x; auto].
    + intros [x [[<- | H1] H2]]; [now left | right; now exists x].
Qed.

Lemma existsb_hasEvaluation_false d e records :
  existsb (ScannerUtils.hasEvaluation d e) records = false
  <-> ~ exists r, In r records /\ recordId r = d /\ evaluation r = e.
Proof.
  rewrite <- not_true_iff_false, existsb_exists.
  split; intros H [r [H1 H2]]; apply H; exists r; split; try assumption;
    now apply hasEvaluation_iff.
Qed.

(** A practice is unfulfilled exactly when a record it requires is missing
    among the records produced so far. *)
Lemma isFulfilled_false_iff p records :
  ScannerUtils.isFulfilled p records = false
  <-> (exists d, In d (dep_practicing (dependsOn (getMetadata p)))
                 /\ ~ exists r, In r records /\ recordId r = d
                                /\ evaluation r = practicing)
      \/ (exists d, In d (dep_notPracticing (dependsOn (getMetadata p)))
                    /\ ~ exists r, In r records /\ recordId r = d
                                   /\ evaluation r = notPracticing).
Proof.
  unfold ScannerUtils.isFulfilled. rewrite andb_false_iff, !forallb_false_iff.
  split; (intros [[d [H1 H2]] | [d [H1 H2]]]; [left | right]); exists d;
    (split; [assumption | now apply existsb_hasEvaluation_false]).
Qed.

(* ===================================================================== *)
(** * Properties of JsGitignoreCorrectlySetPractice                       *)
(* ===================================================================== *)

(** C9: for every practice context whose root has no file inspector,
    [evaluate] returns unknown and asks for no file to be read. *)
Theorem C9_no_file_inspector_gives_unknown (ctx : PracticeContext) :
  fileInspector (root ctx) = None ->
  JsGitignoreCorrectlySetPractice.evaluate ctx = ([], Returned unknown).
Proof.
  intros H. unfold JsGitignoreCorrectlySetPractice.evaluate.
  now rewrite H.
Qed.

Lemma C9_witness :
  fileInspector (root (getPracticeContext (contextOf Examples.jsComponent))) = None
  /\ JsGitignoreCorrectlySetPractice.evaluate
       (getPracticeContext (contextOf Examples.jsComponent))
     = ([], Returned unknown).
Proof.
  split; [reflexivity|].
  apply (C9_no_file_inspector_gives_unknown
           (getPracticeContext (contextOf Examples.jsComponent))).
  reflexivity.
Defined.



(** The example file is set correctly, so the practice is followed there. *)
Example gitignore_example_practicing :
  JsGitignoreCorrectlySetPractice.evaluate Examples.gitignoreContext
  = ([".gitignore"], Returned practicing).
Proof. vm_compute. reflexivity. Qed.

(* ===================================================================== *)
(** * Properties of the evaluation pipeline                               *)
(* ===================================================================== *)

(** C3: a practice of a component's resolved order for which a required
    record is missing among the records produced before its turn (no record
    for an id of requiresPracticing with evaluation practicing, or no record
    for an id of requiresNotPracticing with evaluation notPracticing) is
    skipped: its [evaluate] is never invoked and the component's result set
    has no record for it. *)
Theorem C3_unfulfilled_practice_is_skipped
    filterPractices practices cw order pre P post events outcome :
  distinctIds (filteredFor filterPractices practices cw) ->
  ScannerUtils.sortPractices
    (customApplicablePractices (filteredFor filterPractices practices cw)) = inr order ->
  order = pre ++ P :: post ->
  ((exists d, In d (dep_practicing (dependsOn (getMetadata P)))
              /\ ~ exists r, In r (producedBy (contextOf cw) pre)
                             /\ recordId r = d /\ evaluation r = practicing)
   \/ (exists d, In d (dep_notPracticing (dependsOn (getMetadata P)))
                 /\ ~ exists r, In r (producedBy (contextOf cw) pre)
                                /\ recordId r = d /\ evaluation r = notPracticing)) ->
  detectPracticesForComponent filterPractices practices cw = (events, outcome) ->
  ~ In (practiceId P) (evaluateCalls events)
  /\ forall records, outcome = inr records ->
       ~ exists r, In r records /\ recordId r = practiceId P.
Proof.
  intros D S -> U R.
  apply isFulfilled_false_iff in U.
  destruct (detect_sorted _ _ _ _ S) as (es & E & Hc & _).
  rewrite E in R. injection R as <- <-.
  pose proof (distinctIds_order _ _ D (sortPractices_Permutation _ _ S)) as N.
  rewrite map_app in N. simpl in N.
  (* the loop passes over P without a record *)
  assert (Hskip : ~ In (practiceId P)
                      (map recordId (producedBy (contextOf cw) (pre ++ P :: post)))).
  { change (pre ++ P :: post) with (pre ++ [P] ++ post). rewrite app_assoc.
    destruct (producedBy_app (contextOf cw) (pre ++ [P]) post) as (later & -> & Hi & _).
    assert (Hpre : producedBy (contextOf cw) (pre ++ [P]) = producedBy (contextOf cw) pre).
    { unfold producedBy. rewrite fold_left_app. simpl.
      destruct (evaluateNext_cases (contextOf cw) (getPracticeContext (contextOf cw))
                  (fold_left (evaluateNext (contextOf cw) (getPracticeContext (contextOf cw)))
                             pre ([], [])) P)
        as [[_ ->] | [Hyes _]]; [reflexivity|].
      unfold producedBy in U. congruence. }
    rewrite Hpre, map_app. intros Hin. apply in_app_or in Hin.
    apply NoDup_app_remove_r in N. apply NoDup_remove_2 in N. apply N.
    apply in_or_app. destruct Hin as [Hin | Hin].
    - left. now apply (proj1 (producedBy_ids (contextOf cw) pre)).
    - right. now apply Hi. }
  split.
  - now rewrite Hc.
  - intros records HR. injection HR as <-. intros [r [Hr Hid]].
    apply in_app_or in Hr. destruct Hr as [Hr | Hr].
    + apply Hskip. rewrite <- Hid. now apply in_map.
    + rewrite <- app_assoc in N. simpl in N.
      apply NoDup_app_remove_l in N. inversion N as [|? ? Hnotin _]. apply Hnotin.
      apply in_or_app. right. rewrite <- Hid.
      apply in_map_iff in Hr as [q [<- Hq]]. now apply (in_map practiceId).
Qed.

(** Closes [NoDup] and [distinctIds] goals over concrete ids. *)
Ltac distinct_ids :=
  cbv; repeat constructor; simpl; intuition discriminate.

Lemma C3_witness :
  (distinctIds (filteredFor (Examples.filterWithOff []) Examples.scenarioA
                            Examples.jsComponent)
   /\ ScannerUtils.sortPractices
        (customApplicablePractices
           (filteredFor (Examples.filterWithOff []) Examples.scenarioA
                        Examples.jsComponent))
      = inr ([Examples.lockfilePresent] ++ Examples.exactOneLockfile :: [])
   /\ ~ exists r, In r (producedBy (contextOf Examples.jsComponent)
                                   [Examples.lockfilePresent])
                  /\ recordId r = "lockfile-present" /\ evaluation r = practicing)
  /\ ~ In "exact-one-lockfile"
          (evaluateCalls
             (fst (detectPracticesForComponent (Examples.filterWithOff [])
                     Examples.scenarioA Examples.jsComponent)))
  /\ forall records,
       snd (detectPracticesForComponent (Examples.filterWithOff [])
              Examples.scenarioA Examples.jsComponent) = inr records ->
       ~ exists r, In r records /\ recordId r = "exact-one-lockfile".
Proof.
  assert (D : distinctIds (filteredFor (Examples.filterWithOff []) Examples.scenarioA
                                       Examples.jsComponent)) by distinct_ids.
  assert (U : ~ exists r, In r (producedBy (contextOf Examples.jsComponent)
                                            [Examples.lockfilePresent])
                          /\ recordId r = "lockfile-present"
                          /\ evaluation r = practicing).
  { intros [r [Hr [_ He]]]. vm_compute in Hr. destruct Hr as [<- | []]. discriminate. }
  split; [repeat split; assumption|].
  apply (C3_unfulfilled_practice_is_skipped
           (Examples.filterWithOff []) Examples.scenarioA Examples.jsComponent
           [Examples.lockfilePresent; Examples.exactOneLockfile]
           [Examples.lockfilePresent] Examples.exactOneLockfile []).
  - exact D.
  - reflexivity.
  - reflexivity.
  - left. exists "lockfile-present". split; [now left | exact U].
  - apply surjective_pairing.
Defined.

(** The resolver rejects with a cycle fault only, and it fulfils when the
    constraints contain no cycle. *)
Lemma sortPractices_fault_is_cycle practices fault :
  ScannerUtils.sortPractices practices = inl fault ->
  exists members, fault = DependencyCycleFault members.
Proof.
  unfold ScannerUtils.sortPractices.
  destruct (ScannerUtils.linearize _ practices) as [placed stuck].
  destruct stuck; [discriminate|]. intros H; injection H as <-. eexists. reflexivity.
Qed.

Lemma sortPractices_fulfils_without_cycle practices :
  (forall cycle, ~ isCycle practices cycle) ->
  exists order, ScannerUtils.sortPractices practices = inr order.
Proof.
  intros N. destruct (ScannerUtils.sortPractices practices) as [fault | order] eqn:S.
  - exfalso. destruct (sortPractices_fault_is_cycle _ _ S) as [members ->].
    exact (N members (sortPractices_fault_names_cycle _ _ S)).
  - now exists order.
Qed.




(** The ids of the records of a result set are pairwise different. *)
Lemma result_ids_NoDup filterPractices practices cw events records :
  distinctIds (filteredFor filterPractices practices cw) ->
  detectPracticesForComponent filterPractices practices cw = (events, inr records) ->
  NoDup (map recordId records).
Proof.
  intros D R.
  destruct (ScannerUtils.sortPractices
              (customApplicablePractices (filteredFor filterPractices practices cw)))
    as [fault | order] eqn:S.
  - rewrite (detect_fault _ _ _ _ S) in R. discriminate.
  - destruct (detect_sorted _ _ _ _ S) as (es & E & _).
    rewrite E in R. injection R as <- <-.
    pose proof (distinctIds_order _ _ D (sortPractices_Permutation _ _ S)) as N.
    destruct (producedBy_ids (contextOf cw) order) as (Hi & Hn & _).
    rewrite map_app, recordId_turnedOff. apply NoDup_app.
    + apply Hn. now apply NoDup_app_remove_r in N.
    + now apply NoDup_app_remove_l in N.
    + intros a Ha. apply (NoDup_app_disjoint _ _ N). now apply Hi.
Qed.

(** C6: a component's result set has at most one record for a practice.
    It consists of the evaluated records (isOn true) followed by the
    turned-off ones (isOn false); no practice has a record among both, nor
    two records among either. *)
Theorem C6_at_most_one_record_per_practice
    filterPractices practices cw events records :
  distinctIds (filteredFor filterPractices practices cw) ->
  detectPracticesForComponent filterPractices practices cw = (events, inr records) ->
  NoDup (map recordId records)
  /\ exists evaluated turnedOff,
       records = evaluated ++ turnedOff
       /\ Forall (fun r => isOn r = true) evaluated
       /\ Forall (fun r => isOn r = false) turnedOff
       /\ NoDup (map recordId evaluated)
       /\ NoDup (map recordId turnedOff)
       /\ forall r r', In r evaluated -> In r' turnedOff -> recordId r <> recordId r'.
Proof.
  intros D R. pose proof (result_ids_NoDup _ _ _ _ _ D R) as N.
  split; [exact N|].
  destruct (ScannerUtils.sortPractices
              (customApplicablePractices (filteredFor filterPractices practices cw)))
    as [fault | order] eqn:S.
  { rewrite (detect_fault _ _ _ _ S) in R. discriminate. }
  destruct (detect_sorted _ _ _ _ S) as (es & E & _).
  rewrite E in R. injection R as _ <-.
  eexists. eexists. split; [reflexivity|].
  rewrite map_app in N. repeat split.
  - apply Forall_forall. intros r Hr.
    destruct (producedBy_ids (contextOf cw) order) as (_ & _ & F).
    rewrite Forall_forall in F. destruct (F r Hr) as [p [_ ->]]. reflexivity.
  - apply Forall_forall. intros r Hr. apply in_map_iff in Hr as [p [<- _]]. reflexivity.
  - now apply NoDup_app_remove_r in N.
  - now apply NoDup_app_remove_l in N.
  - intros r r' Hr Hr' Heq. apply (NoDup_app_disjoint _ _ N (recordId r)).
    + now apply in_map.
    + rewrite Heq. now apply in_map.
Qed.

Lemma C6_witness :
  distinctIds (filteredFor (Examples.filterWithOff ["X"]) Examples.scenarioC
                           Examples.jsComponent)
  /\ snd (detectPracticesForComponent (Examples.filterWithOff ["X"])
            Examples.scenarioC Examples.jsComponent)
     = inr [Examples.evaluatedFor Examples.jsComponent Examples.lockfilePresent;
            Examples.turnedOffFor Examples.jsComponent Examples.practiceX]
  /\ NoDup (map recordId
              [Examples.evaluatedFor Examples.jsComponent Examples.lockfilePresent;
               Examples.turnedOffFor Examples.jsComponent Examples.practiceX])
  /\ exists evaluated turnedOff,
       [Examples.evaluatedFor Examples.jsComponent Examples.lockfilePresent;
        Examples.turnedOffFor Examples.jsComponent Examples.practiceX]
       = evaluated ++ turnedOff
       /\ Forall (fun r => isOn r = true) evaluated
       /\ Forall (fun r => isOn r = false) turnedOff
       /\ NoDup (map recordId evaluated)
       /\ NoDup (map recordId turnedOff)
       /\ forall r r', In r evaluated -> In r' turnedOff -> recordId r <> recordId r'.
Proof.
  assert (D : distinctIds (filteredFor (Examples.filterWithOff ["X"]) Examples.scenarioC
                                       Examples.jsComponent)) by distinct_ids.
  split; [exact D|]. split; [reflexivity|].
  apply (C6_at_most_one_record_per_practice
           (Examples.filterWithOff ["X"]) Examples.scenarioC Examples.jsComponent
           [EvaluateCalled (Examples.aComponent "/app" JavaScript) "lockfile-present"]).
  - exact D.
  - reflexivity.
Defined.

(* ===================================================================== *)
(** * Properties of reporting                                             *)
(* ===================================================================== *)

(** C8: each record is handed to the reporter with the impact the override
    store defines for its practice when it defines one and with the impact
    the practice declares otherwise; the component, the practice, the
    evaluation and isOn are those of the record. *)
Theorem C8_reported_impact_is_override_or_declared
    (reporter : IReporter) (records : list PracticeWithContext) :
  handedToReporter (fst (report reporter records)) = [reportEntries records]
  /\ Forall2
       (fun p e =>
          rep_impact e
          = match cfg_impact (getOverriddenPractice
                                (configProvider (componentContext p)) (recordId p)) with
            | Some overridden => overridden
            | None => impact (getMetadata (practice p))
            end
          /\ rep_component e = pcc_projectComponent (componentContext p)
          /\ rep_practice e = getMetadata (practice p)
          /\ rep_evaluation e = evaluation p
          /\ rep_isOn e = isOn p)
       records (reportEntries records).
Proof.
  split.
  - unfold report. cbv zeta.
    destruct (reporter_report reporter (reportEntries records)) as [e | [t | o]];
      reflexivity.
  - induction records as [|p records IH]; simpl; constructor; auto.
Qed.

Example override_example :
  map rep_impact
      (reportEntries
         [evaluatedRecord
            (contextOf (Examples.withContext (Examples.aComponent "/app" JavaScript)
                          Examples.overrideR None))
            (getPracticeContext
               (contextOf (Examples.withContext (Examples.aComponent "/app" JavaScript)
                             Examples.overrideR None)))
            Examples.practiceR;
          evaluatedRecord (contextOf Examples.jsComponent)
            (getPracticeContext (contextOf Examples.jsComponent)) Examples.practiceR])
  = [high; medium].
Proof. reflexivity. Qed.

(** ** The run over several components *)

Lemma promiseAll_fulfilled {A} (promises : list (Async A)) events values :
  promiseAll promises = (events, inr values) ->
  Forall2 (fun p v => snd p = inr v) promises values
  /\ events = concat (map fst promises).
Proof.
  revert events values; induction promises as [|[es o] promises IH]; simpl;
    intros events values H.
  - injection H as <- <-. auto.
  - destruct (promiseAll promises) as [es' os] eqn:E.
    destruct o as [f | v]; [discriminate|]. destruct os as [f | vs]; [discriminate|].
    injection H as <- <-. destruct (IH es' vs eq_refl) as [F ->]. auto.
Qed.

Lemma promiseAll_rejected {A} (promises : list (Async A)) p fault :
  In p promises -> snd p = inl fault ->
  exists fault' p', snd (promiseAll promises) = inl fault'
                    /\ In p' promises /\ snd p' = inl fault'.
Proof.
  induction promises as [|[es o] promises IH]; simpl; intros Hin Hp; [contradiction|].
  destruct (promiseAll promises) as [es' os] eqn:E. simpl in *.
  destruct o as [f | v].
  - exists f, (es, inl f). auto.
  - destruct Hin as [<- | Hin]; [discriminate|].
    destruct (IH Hin Hp) as (f' & p' & H1 & H2 & H3). rewrite H1.
    exists f', p'. auto.
Qed.

Lemma promiseAll_events {A} (promises : list (Async A)) :
  fst (promiseAll promises) = concat (map fst promises).
Proof.
  induction promises as [|[es o] promises IH]; simpl; [reflexivity|].
  destruct (promiseAll promises). simpl in *. now rewrite IH.
Qed.

(** Evaluating a component hands nothing to the reporter and writes no
    line to a log. *)
Lemma detect_events filterPractices practices cw :
  handedToReporter (fst (detectPracticesForComponent filterPractices practices cw)) = []
  /\ loggedLines (fst (detectPracticesForComponent filterPractices practices cw)) = [].
Proof.
  destruct (ScannerUtils.sortPractices
              (customApplicablePractices (filteredFor filterPractices practices cw)))
    as [fault | order] eqn:S.
  - rewrite (detect_fault _ _ _ _ S). auto.
  - destruct (detect_sorted _ _ _ _ S) as (es & -> & _ & Hl & Hr). auto.
Qed.

Lemma handedToReporter_components filterPractices practices components :
  handedToReporter
    (concat (map fst (map (detectPracticesForComponent filterPractices practices)
                          components))) = [].
Proof.
  induction components as [|cw components IH]; simpl; [reflexivity|].
  unfold handedToReporter in *. rewrite flat_map_app, IH, app_nil_r.
  apply detect_events.
Qed.

Lemma report_handed reporter records :
  handedToReporter (fst (report reporter records)) = [reportEntries records].
Proof.
  unfold report. cbv zeta.
  destruct (reporter_report reporter (reportEntries records)) as [e | [t | o]];
    reflexivity.
Qed.

(** When every component is evaluated, [scan] hands the reporter one array:
    the entries of all records, component after component. *)
Lemma scan_reports filterPractices practices reporter components events records :
  detectPractices filterPractices practices components = (events, inr records) ->
  (exists perComponent,
      Forall2 (fun cw rs =>
                 snd (detectPracticesForComponent filterPractices practices cw) = inr rs)
              components perComponent
      /\ records = concat perComponent)
  /\ handedToReporter (fst (scan filterPractices practices reporter components))
     = [reportEntries records].
Proof.
  unfold scan. intros H. rewrite H. unfold detectPractices in H.
  destruct (promiseAll _) as [es [f | per]] eqn:E; [discriminate|].
  injection H as <- <-. apply promiseAll_fulfilled in E as [F ->].
  split.
  - exists per. split; [|reflexivity].
    clear -F. revert per F. induction components as [|cw cs IH]; simpl; intros per F.
    + inversion F. constructor.
    + inversion F; subst. constructor; auto.
  - pose proof (report_handed reporter (concat per)) as Hrep.
    destruct (report reporter (concat per)) as [es' result]. cbn [fst snd] in *.
    unfold handedToReporter in *. rewrite !flat_map_app, Hrep. simpl.
    fold (handedToReporter
            (concat (map fst (map (detectPracticesForComponent filterPractices practices)
                                  components)))).
    rewrite handedToReporter_components. reflexivity.
Qed.

(** C1, as the code has it: after all components have finished, every
    record of every component, in the order the components were given, is
    handed to the reporter; none is dropped, whether or not its practice is
    reportOnlyOnce. *)
Theorem C1_every_record_is_handed_to_the_reporter
    filterPractices practices reporter components events records :
  detectPractices filterPractices practices components = (events, inr records) ->
  (exists perComponent,
      Forall2 (fun cw rs =>
                 snd (detectPracticesForComponent filterPractices practices cw) = inr rs)
              components perComponent
      /\ records = concat perComponent)
  /\ handedToReporter (fst (scan filterPractices practices reporter components))
     = [reportEntries records]
  /\ map (fun e => (rep_component e, id (rep_practice e), reportOnlyOnce (rep_practice e)))
         (reportEntries records)
     = map (fun r => (pcc_projectComponent (componentContext r), recordId r,
                      reportOnlyOnce (getMetadata (practice r))))
           records.
Proof.
  intros H. destruct (scan_reports _ _ reporter _ _ _ H) as [H1 H2].
  repeat split; try assumption.
  unfold reportEntries. rewrite map_map. reflexivity.
Qed.

Lemma C1_witness :
  (exists perComponent,
      Forall2 (fun cw rs =>
                 snd (detectPracticesForComponent (Examples.filterWithOff [])
                        Examples.scenarioD cw) = inr rs)
              [Examples.jsComponent; Examples.tsComponent] perComponent
      /\ [Examples.evaluatedFor Examples.jsComponent Examples.practiceY;
          Examples.evaluatedFor Examples.tsComponent Examples.practiceY]
         = concat perComponent)
  /\ handedToReporter
       (fst (scan (Examples.filterWithOff []) Examples.scenarioD Examples.textReporter
               [Examples.jsComponent; Examples.tsComponent]))
     = [reportEntries
          [Examples.evaluatedFor Examples.jsComponent Examples.practiceY;
           Examples.evaluatedFor Examples.tsComponent Examples.practiceY]]
  /\ map (fun e => (rep_component e, id (rep_practice e),
                    reportOnlyOnce (rep_practice e)))
         (reportEntries
            [Examples.evaluatedFor Examples.jsComponent Examples.practiceY;
             Examples.evaluatedFor Examples.tsComponent Examples.practiceY])
     = map (fun r => (pcc_projectComponent (componentContext r), recordId r,
                      reportOnlyOnce (getMetadata (practice r))))
           [Examples.evaluatedFor Examples.jsComponent Examples.practiceY;
            Examples.evaluatedFor Examples.tsComponent Examples.practiceY].
Proof.
  apply (C1_every_record_is_handed_to_the_reporter
           (Examples.filterWithOff []) Examples.scenarioD Examples.textReporter
           [Examples.jsComponent; Examples.tsComponent]
           (fst (detectPractices (Examples.filterWithOff []) Examples.scenarioD
                   [Examples.jsComponent; Examples.tsComponent]))).
  reflexivity.
Defined.

(** C1 as stated fails: two components that both do not follow the
    reportOnlyOnce practice Y give two entries for Y in the array handed to
    the reporter. *)
Lemma C1_counterexample :
  exists entries,
    handedToReporter
      (fst (scan (Examples.filterWithOff []) Examples.scenarioD Examples.textReporter
              [Examples.jsComponent; Examples.tsComponent])) = [entries]
    /\ map (fun e => (path (rep_component e), id (rep_practice e),
                      reportOnlyOnce (rep_practice e), rep_evaluation e)) entries
       = [("/app", "Y", true, notPracticing); ("/lib", "Y", true, notPracticing)]
    /\ ~ reportedOnlyOnce entries.
Proof.
  eexists. split; [reflexivity|]. split; [reflexivity|].
  unfold reportedOnlyOnce. simpl. intros N. inversion N as [|? ? Hnotin _].
  apply Hnotin. now left.
Qed.

(* ===================================================================== *)
(** * A cycle among the dependency constraints                            *)
(* ===================================================================== *)

Lemma detectPractices_rejected filterPractices practices components cw fault :
  In cw components ->
  snd (detectPracticesForComponent filterPractices practices cw) = inl fault ->
  exists fault' cw',
    snd (detectPractices filterPractices practices components) = inl fault'
    /\ In cw' components
    /\ snd (detectPracticesForComponent filterPractices practices cw') = inl fault'.
Proof.
  intros Hin Hf. unfold detectPractices.
  destruct (promiseAll_rejected
              (map (detectPracticesForComponent filterPractices practices) components)
              (detectPracticesForComponent filterPractices practices cw) fault
              (in_map _ _ _ Hin) Hf) as (f' & p' & H1 & H2 & H3).
  apply in_map_iff in H2 as [cw' [<- Hcw']].
  destruct (promiseAll _) as [es o]. simpl in H1. subst o.
  exists f', cw'. auto.
Qed.

Lemma scan_rejected filterPractices practices reporter components fault :
  snd (detectPractices filterPractices practices components) = inl fault ->
  snd (scan filterPractices practices reporter components) = inl fault
  /\ handedToReporter (fst (scan filterPractices practices reporter components)) = [].
Proof.
  unfold scan, detectPractices.
  pose proof (promiseAll_events
                (map (detectPracticesForComponent filterPractices practices) components))
    as Hev.
  destruct (promiseAll _) as [es [f | per]]; simpl; intros H; [|discriminate].
  injection H as ->. split; [reflexivity|].
  simpl in Hev. rewrite Hev. apply handedToReporter_components.
Qed.




(* ===================================================================== *)
(** * Dependency ordering of the result set                               *)
(* ===================================================================== *)

Lemma producedBy_fulfilled c order l1 r l2 :
  producedBy c order = l1 ++ r :: l2 ->
  ScannerUtils.isFulfilled (practice r) l1 = true.
Proof.
  unfold producedBy.
  destruct (loop_appends c (getPracticeContext c) order ([], []))
    as (rs & es & E & _ & _ & _ & _ & _ & _ & Hful).
  rewrite E. simpl. intros H. exact (Hful l1 r l2 H).
Qed.

Lemma producedBy_isOn c order r :
  In r (producedBy c order) -> isOn r = true.
Proof.
  intros H. destruct (producedBy_ids c order) as (_ & _ & F).
  rewrite Forall_forall in F. destruct (F r H) as [p [_ ->]]. reflexivity.
Qed.

(** A fulfilled practice has a record for every id it names. *)
Lemma isFulfilled_record p records d :
  ScannerUtils.isFulfilled p records = true ->
  In d (ScannerUtils.dependencies p) ->
  exists r, In r records /\ recordId r = d.
Proof.
  unfold ScannerUtils.isFulfilled, ScannerUtils.dependencies.
  rewrite andb_true_iff, !forallb_forall. intros [H1 H2] Hd.
  apply in_app_or in Hd. destruct Hd as [Hd | Hd];
    [apply H1 in Hd | apply H2 in Hd];
    apply existsb_exists in Hd as [r [Hr He]]; apply hasEvaluation_iff in He;
    exists r; tauto.
Qed.

(** C7, as the code has it: when the practice of a record names the
    practice of another record of the same result set in its constraints,
    and the two practices are not both turned off, the other record lies
    strictly before it. *)
Theorem C7_required_record_comes_first_unless_both_off
    filterPractices practices cw events records before rP after rQ :
  distinctIds (filteredFor filterPractices practices cw) ->
  detectPracticesForComponent filterPractices practices cw = (events, inr records) ->
  records = before ++ rP :: after ->
  In rQ records ->
  In (recordId rQ) (ScannerUtils.dependencies (practice rP)) ->
  isOn rP = true \/ isOn rQ = true ->
  In rQ before.
Proof.
  intros D R Hrec HQ Hdep Hon.
  pose proof (result_ids_NoDup _ _ _ _ _ D R) as N.
  destruct (ScannerUtils.sortPractices
              (customApplicablePractices (filteredFor filterPractices practices cw)))
    as [fault | order] eqn:S.
  { rewrite (detect_fault _ _ _ _ S) in R. discriminate. }
  destruct (detect_sorted _ _ _ _ S) as (es & E & _).
  rewrite E in R. injection R as _ R. clear E es.
  set (c := contextOf cw) in *.
  set (off := map (turnedOffRecord c (getPracticeContext c))
                  (practicesOff (filteredFor filterPractices practices cw))) in *.
  assert (Hoff : forall r, In r off -> isOn r = false).
  { intros r Hr. apply in_map_iff in Hr as [q [<- _]]. reflexivity. }
  (* a record that is on and required: it lies in [before] *)
  assert (Hevaluated : forall l', producedBy c order = before ++ rP :: l' -> In rQ before).
  { intros l' Hl. pose proof (producedBy_fulfilled _ _ _ _ _ Hl) as F.
    destruct (isFulfilled_record _ _ _ F Hdep) as [r' [Hr' Hid]].
    rewrite Hrec in HQ. apply in_app_or in HQ. destruct HQ as [HQ | HQ]; [assumption|].
    exfalso. rewrite Hrec, map_app in N.
    apply (NoDup_app_disjoint _ _ N (recordId rQ)).
    - rewrite <- Hid. now apply in_map.
    - now apply in_map. }
  (* a record that is off lies after all records that are on *)
  assert (Hturned : forall l, before = producedBy c order ++ l ->
                              off = l ++ rP :: after -> In rQ before).
  { intros l -> Hl.
    assert (HP : isOn rP = false).
    { apply Hoff. rewrite Hl. apply in_or_app. right. now left. }
    destruct Hon as [Hon | Hon]; [congruence|].
    rewrite <- R in HQ. apply in_app_or in HQ. destruct HQ as [HQ | HQ].
    - apply in_or_app. now left.
    - apply Hoff in HQ. congruence. }
  rewrite Hrec in R. symmetry in R.
  apply app_eq_app in R as [l [[H1 H2] | [H1 H2]]].
  - now apply (Hturned l).
  - destruct l as [|x l].
    + simpl in H2. rewrite app_nil_r in H1.
      apply (Hturned []); [now rewrite app_nil_r | now rewrite H2].
    + simpl in H2. injection H2 as <- H2. apply (Hevaluated l). exact H1.
Qed.

Lemma C7_witness :
  (distinctIds (filteredFor (Examples.filterWithOff []) Examples.scenarioOrder
                            Examples.jsComponent)
   /\ snd (detectPracticesForComponent (Examples.filterWithOff [])
             Examples.scenarioOrder Examples.jsComponent)
      = inr ([Examples.evaluatedFor Examples.jsComponent Examples.prerequisite]
             ++ Examples.evaluatedFor Examples.jsComponent Examples.dependent :: [])
   /\ In (recordId (Examples.evaluatedFor Examples.jsComponent Examples.prerequisite))
         (ScannerUtils.dependencies Examples.dependent)
   /\ isOn (Examples.evaluatedFor Examples.jsComponent Examples.dependent) = true)
  /\ In (Examples.evaluatedFor Examples.jsComponent Examples.prerequisite)
        [Examples.evaluatedFor Examples.jsComponent Examples.prerequisite].
Proof.
  assert (D : distinctIds (filteredFor (Examples.filterWithOff []) Examples.scenarioOrder
                                       Examples.jsComponent)) by distinct_ids.
  split; [repeat split; try exact D; simpl; auto|].
  apply (C7_required_record_comes_first_unless_both_off
           (Examples.filterWithOff []) Examples.scenarioOrder Examples.jsComponent
           [EvaluateCalled (Examples.aComponent "/app" JavaScript) "prerequisite";
            EvaluateCalled (Examples.aComponent "/app" JavaScript) "dependent"]
           [Examples.evaluatedFor Examples.jsComponent Examples.prerequisite;
            Examples.evaluatedFor Examples.jsComponent Examples.dependent]
           [Examples.evaluatedFor Examples.jsComponent Examples.prerequisite]
           (Examples.evaluatedFor Examples.jsComponent Examples.dependent)
           []
           (Examples.evaluatedFor Examples.jsComponent Examples.prerequisite)).
  - exact D.
  - reflexivity.
  - reflexivity.
  - simpl. auto.
  - simpl. auto.
  - left. reflexivity.
Defined.

(** C7 as stated fails: when a practice and the practice it requires are
    both turned off, their records are appended in the order of
    [practicesOff], here the dependent one first. *)
Lemma C7_counterexample :
  detectPracticesForComponent (Examples.filterWithOff ["dependent"; "prerequisite"])
    Examples.scenarioOrder Examples.jsComponent
  = ([], inr [Examples.turnedOffFor Examples.jsComponent Examples.dependent;
              Examples.turnedOffFor Examples.jsComponent Examples.prerequisite])
  /\ ~ dependencyOrdered
         [Examples.turnedOffFor Examples.jsComponent Examples.dependent;
          Examples.turnedOffFor Examples.jsComponent Examples.prerequisite].
Proof.
  split; [reflexivity|]. intros H.
  apply (H [] (Examples.turnedOffFor Examples.jsComponent Examples.dependent)
           [Examples.turnedOffFor Examples.jsComponent Examples.prerequisite]
           (Examples.turnedOffFor Examples.jsComponent Examples.prerequisite)).
  - reflexivity.
  - simpl. auto.
  - simpl. auto.
Qed.

(* ===================================================================== *)
(** * A practice whose evaluate throws                                    *)
(* ===================================================================== *)

(** Every practice of the resolved order that is fulfilled at its turn is
    evaluated and has its record in the result set, whatever the [evaluate]
    calls of the practices before it did; the record of a practice whose
    [evaluate] throws has evaluation unknown and isOn true. *)
Lemma fulfilled_practice_is_evaluated
    filterPractices practices cw order pre P post :
  ScannerUtils.sortPractices
    (customApplicablePractices (filteredFor filterPractices practices cw)) = inr order ->
  order = pre ++ P :: post ->
  ScannerUtils.isFulfilled P (producedBy (contextOf cw) pre) = true ->
  exists events records,
    detectPracticesForComponent filterPractices practices cw = (events, inr records)
    /\ In (practiceId P) (evaluateCalls events)
    /\ In (evaluatedRecord (contextOf cw) (getPracticeContext (contextOf cw)) P) records
    /\ (forall error,
          evaluate P (withConfig (getPracticeContext (contextOf cw))
                        (getOverriddenPractice (configProvider (contextOf cw))
                                               (practiceId P)))
          = Threw error ->
          evaluation (evaluatedRecord (contextOf cw)
                        (getPracticeContext (contextOf cw)) P) = unknown).
Proof.
  intros S -> F.
  destruct (detect_sorted _ _ _ _ S) as (es & E & Hc & _).
  exists es. eexists. split; [exact E|].
  assert (Hin : In (evaluatedRecord (contextOf cw) (getPracticeContext (contextOf cw)) P)
                   (producedBy (contextOf cw) (pre ++ P :: post))).
  { change (pre ++ P :: post) with (pre ++ [P] ++ post). rewrite app_assoc.
    destruct (producedBy_app (contextOf cw) (pre ++ [P]) post) as (later & -> & _).
    apply in_or_app. left.
    unfold producedBy in *. rewrite fold_left_app. simpl.
    destruct (evaluateNext_cases (contextOf cw) (getPracticeContext (contextOf cw))
                (fold_left (evaluateNext (contextOf cw) (getPracticeContext (contextOf cw)))
                           pre ([], [])) P)
      as [[Hno _] | [_ [caught [-> _]]]]; [congruence|].
    simpl. apply in_or_app. right. now left. }
  repeat split.
  - rewrite Hc. now apply (in_map recordId) in Hin.
  - apply in_or_app. now left.
  - intros error Ht. simpl. unfold recordedEvaluation. now rewrite Ht.
Qed.

(** C4 at a practice whose [evaluate] throws: the failure is caught, the
    record of the practice has evaluation unknown, and the practice after
    it is evaluated; but nothing is written to a log.  The [catch] block
    calls [debug], the factory of the debug package, with the message as
    the name of a new logger, and not the scanner's logger [scanDebug]. *)
Theorem C4_failure_of_evaluate_is_not_logged :
  detectPracticesForComponent (Examples.filterWithOff []) Examples.scenarioFault
    Examples.jsComponent
  = ([EvaluateCalled (Examples.aComponent "/app" JavaScript) "failing";
      DebuggerCreated ("The failing practice failed with this error:" ++ newline ++ "boom");
      EvaluateCalled (Examples.aComponent "/app" JavaScript) "R"],
     inr [Examples.evaluatedFor Examples.jsComponent Examples.failing;
          Examples.evaluatedFor Examples.jsComponent Examples.practiceR])
  /\ evaluation (Examples.evaluatedFor Examples.jsComponent Examples.failing) = unknown
  /\ loggedLines
       (fst (detectPracticesForComponent (Examples.filterWithOff [])
               Examples.scenarioFault Examples.jsComponent)) = []
  /\ loggedLines
       (fst (scan (Examples.filterWithOff []) Examples.scenarioFault Examples.textReporter
               [Examples.jsComponent]))
     = ["Applicable practices:"; "failing"; "R"].
Proof. repeat split. Qed.

(* ===================================================================== *)
(** * The assumption on filterPractices, and runs of the whole pipeline   *)
(* ===================================================================== *)

Lemma filter_partition_Permutation {A} (g : A -> bool) (l : list A) :
  Permutation (filter (fun x => negb (g x)) l ++ filter g l) l.
Proof.
  induction l as [|x l IH]; simpl; [constructor|].
  destruct (g x); simpl.
  - rewrite <- Permutation_middle. now constructor.
  - now constructor.
Qed.

(** A filter that keeps the applicable practices of a catalogue with
    pairwise different ids and splits them by a test returns two lists that
    share no id. *)
Lemma filterWithOff_distinctIds off c practices :
  NoDup (map practiceId practices) ->
  distinctIds (Examples.filterWithOff off c practices).
Proof.
  intros N. unfold distinctIds, Examples.filterWithOff. simpl.
  set (applicable := filter _ practices).
  assert (Na : NoDup (map practiceId applicable)).
  { pose proof (filter_partition_Permutation
                  (fun p => isApplicable p (getPracticeContext c)) practices) as P.
    apply (Permutation_map practiceId) in P. rewrite map_app in P.
    apply Permutation_sym in P. apply (Permutation_NoDup P) in N.
    now apply NoDup_app_remove_l in N. }
  eapply Permutation_NoDup; [|exact Na].
  apply Permutation_map, Permutation_sym, filter_partition_Permutation.
Qed.

(** The .gitignore practice requires LanguageIndependent.GitignoreIsPresent
    to be followed: alone in the catalogue it is skipped, after that
    practice it is evaluated on the component's files. *)
Example gitignore_practice_skipped_without_prerequisite :
  detectPracticesForComponent (Examples.filterWithOff [])
    [Examples.jsGitignoreCorrectlySet] Examples.jsComponentWithFiles
  = ([], inr []).
Proof. reflexivity. Qed.

Example gitignore_practice_after_prerequisite :
  option_map (map (fun r => (recordId r, evaluation r, isOn r)))
    (match snd (detectPracticesForComponent (Examples.filterWithOff [])
                  [Examples.jsGitignoreCorrectlySet; Examples.gitignoreIsPresent]
                  Examples.jsComponentWithFiles) with
     | inr records => Some records
     | inl _ => None
     end)
  = Some [("LanguageIndependent.GitignoreIsPresent", practicing, true);
          ("JavaScript.GitignoreCorrectlySet", practicing, true)].
Proof. vm_compute. reflexivity. Qed.

(** Scenario B: when lockfile-present is followed, exact-one-lockfile is
    evaluated and has a record. *)
Example scenario_B :
  map (fun r => (recordId r, evaluation r))
      (producedBy (contextOf Examples.jsComponent)
         [Examples.aPractice "lockfile-present" [] [] false (Examples.always true)
            (Examples.yields practicing);
          Examples.exactOneLockfile])
  = [("lockfile-present", practicing); ("exact-one-lockfile", practicing)].
Proof. reflexivity. Qed.

(** Files from the tests of the practices: a file without the patterns is
    not set correctly, nor is a file that ignores both lockfiles. *)
Example gitignore_dots_notPracticing :
  Js.truthy (JsGitignoreCorrectlySetPractice.correctlySet
               (JsGitignoreCorrectlySetPractice.parseGitignore (Js.lit "...")))
  = false.
Proof. reflexivity. Qed.

Example gitignore_both_lockfiles_notPracticing :
  Js.truthy (JsGitignoreCorrectlySetPractice.correctlySet
               (JsGitignoreCorrectlySetPractice.parseGitignore
                  (Examples.gitignore ++ Js.lit "package-lock.json")))
  = false.
Proof. vm_compute. reflexivity. Qed.

Example gitignore_commented_pattern_ignored :
  JsGitignoreCorrectlySetPractice.parseGitignore
    (Js.lit ("#node_modules" ++ newline ++ "   " ++ newline ++ " #kept"))
  = [Js.lit " #kept"].
Proof. reflexivity. Qed.

(* ===================================================================== *)
(** * More on JsGitignoreCorrectlySetPractice                             *)
(* ===================================================================== *)

(** ** Which lines are kept *)

Lemma dropWhile_nil_iff {A} (f : A -> bool) (l : list A) :
  Js.dropWhile f l = [] <-> forallb f l = true.
Proof.
  induction l as [|x l IH]; simpl; [tauto|].
  destruct (f x); simpl; [exact IH | split; discriminate].
Qed.

Lemma dropWhile_head {A} (f : A -> bool) (l : list A) x rest :
  Js.dropWhile f l = x :: rest -> f x = false /\ In x l.
Proof.
  induction l as [|y l IH]; simpl; [discriminate|].
  destruct (f y) eqn:E.
  - intros H. destruct (IH H). auto.
  - intros H. injection H as -> _. auto.
Qed.

(** [trim] leaves nothing exactly of the strings of white space. *)
Lemma trim_nil_iff (s : Js.JsString) :
  Js.trim s = [] <-> forallb Js.isWhiteSpace s = true.
Proof.
  unfold Js.trim. split.
  - intros H. apply dropWhile_nil_iff.
    destruct (Js.dropWhile Js.isWhiteSpace s) as [|x rest] eqn:D; [reflexivity|].
    exfalso. apply dropWhile_head in D as [Hx _].
    assert (H' : Js.dropWhile Js.isWhiteSpace (rev (x :: rest)) = []).
    { destruct (Js.dropWhile Js.isWhiteSpace (rev (x :: rest))) eqn:E; [reflexivity|].
      simpl in H. destruct (rev l); discriminate. }
    apply dropWhile_nil_iff in H'. rewrite forallb_forall in H'.
    specialize (H' x). rewrite <- in_rev in H'. simpl in H'.
    rewrite H' in Hx; [discriminate | now left].
  - intros H. apply dropWhile_nil_iff in H. now rewrite H.
Qed.

Lemma meaningful_iff (line : Js.JsString) :
  GitignoreLines.meaningful line
  = negb (match Js.trim line with [] => true | _ => false end)
    && negb (Js.startsWith (Js.lit "#") line).
Proof.
  unfold GitignoreLines.meaningful. f_equal.
  - destruct (Js.trim line) as [|t0 ts] eqn:T.
    + apply trim_nil_iff in T. simpl.
      apply not_true_iff_false. intros H. apply existsb_exists in H as [c [Hc Hn]].
      rewrite forallb_forall in T. rewrite (T c Hc) in Hn. discriminate.
    + simpl. destruct (existsb _ line) eqn:E; [reflexivity|]. exfalso.
      assert (H : forallb Js.isWhiteSpace line = true).
      { apply forallb_forall. intros c Hc.
        destruct (Js.isWhiteSpace c) eqn:W; [reflexivity|].
        assert (existsb (fun u => negb (Js.isWhiteSpace u)) line = true); [|congruence].
        apply existsb_exists. exists c. now rewrite W. }
      apply trim_nil_iff in H. congruence.
  - destruct line as [|c line]; simpl; [reflexivity|]. now rewrite N.eqb_sym, andb_true_r.
Qed.

(** X1: [parseGitignore] keeps, in the order of the file, exactly the lines
    that have a code unit other than white space and do not begin with #. *)
Theorem parseGitignore_keeps_meaningful_lines (content : Js.JsString) :
  JsGitignoreCorrectlySetPractice.parseGitignore content
  = filter GitignoreLines.meaningful (Js.splitLines content).
Proof.
  unfold JsGitignoreCorrectlySetPractice.parseGitignore.
  apply filter_ext. intros line. symmetry. apply meaningful_iff.
Qed.

(** ** Splitting a file into lines *)

Lemma splitLines_plain (line : Js.JsString) :
  ~ In 10%N line -> Js.splitLines line = [line].
Proof.
  induction line as [|c line IH]; simpl; intros H; [reflexivity|].
  assert (Hc : (c =? 10)%N = false) by (apply N.eqb_neq; intros ->; apply H; now left).
  rewrite Hc. assert (H' : ~ In 10%N line) by (intros Hin; apply H; now right).
  specialize (IH H'). destruct line as [|d line].
  - reflexivity.
  - assert (Hd : (d =? 10)%N = false)
      by (apply N.eqb_neq; intros ->; apply H'; now left).
    rewrite Hd, andb_false_r. rewrite IH. reflexivity.
Qed.

Lemma splitLines_LF (line rest : Js.JsString) :
  GitignoreLines.plainLine line ->
  Js.splitLines (line ++ GitignoreLines.LF ++ rest) = line :: Js.splitLines rest.
Proof.
  intros [H L]. induction line as [|c line IH]; [reflexivity|].
  assert (Hc : (c =? 10)%N = false) by (apply N.eqb_neq; intros ->; apply H; now left).
  assert (H' : ~ In 10%N line) by (intros Hin; apply H; now right).
  change ((c :: line) ++ GitignoreLines.LF ++ rest)
    with (c :: (line ++ GitignoreLines.LF ++ rest)).
  cbn [Js.splitLines]. rewrite Hc.
  destruct line as [|d line].
  - simpl in L. simpl. assert (Hc' : (c =? 13)%N = false) by now apply N.eqb_neq.
    rewrite Hc'. reflexivity.
  - assert (Hd : (d =? 10)%N = false)
      by (apply N.eqb_neq; intros ->; apply H'; now left).
    change ((d :: line) ++ GitignoreLines.LF ++ rest)
      with (d :: (line ++ GitignoreLines.LF ++ rest)) in *.
    cbv beta iota. rewrite Hd, andb_false_r. rewrite IH; [reflexivity | assumption | exact L].
Qed.

Lemma splitLines_CRLF (line rest : Js.JsString) :
  ~ In 10%N line ->
  Js.splitLines (line ++ GitignoreLines.CRLF ++ rest) = line :: Js.splitLines rest.
Proof.
  intros H. induction line as [|c line IH].
  - reflexivity.
  - assert (Hc : (c =? 10)%N = false) by (apply N.eqb_neq; intros ->; apply H; now left).
    assert (H' : ~ In 10%N line) by (intros Hin; apply H; now right).
    change ((c :: line) ++ GitignoreLines.CRLF ++ rest)
      with (c :: (line ++ GitignoreLines.CRLF ++ rest)).
    cbn [Js.splitLines]. rewrite Hc.
    destruct line as [|d line].
    + simpl. rewrite andb_false_r. reflexivity.
    + assert (Hd : (d =? 10)%N = false)
        by (apply N.eqb_neq; intros ->; apply H'; now left).
      change ((d :: line) ++ GitignoreLines.CRLF ++ rest)
        with (d :: (line ++ GitignoreLines.CRLF ++ rest)) in *.
      cbv beta iota. rewrite Hd, andb_false_r. rewrite IH; [reflexivity | assumption].
Qed.

Lemma splitLines_joinLines_LF (lines : list Js.JsString) :
  Forall GitignoreLines.plainLine lines -> lines <> [] ->
  Js.splitLines (GitignoreLines.joinLines GitignoreLines.LF lines) = lines.
Proof.
  induction lines as [|line rest IH]; intros F Hne; [congruence|].
  inversion F as [|? ? Hl Hrest]; subst. cbn [GitignoreLines.joinLines].
  destruct rest as [|next rest].
  - apply splitLines_plain. apply Hl.
  - rewrite splitLines_LF by assumption. f_equal. apply IH; [assumption | discriminate].
Qed.

Lemma splitLines_joinLines_CRLF (lines : list Js.JsString) :
  Forall GitignoreLines.plainLine lines -> lines <> [] ->
  Js.splitLines (GitignoreLines.joinLines GitignoreLines.CRLF lines) = lines.
Proof.
  induction lines as [|line rest IH]; intros F Hne; [congruence|].
  inversion F as [|? ? Hl Hrest]; subst. cbn [GitignoreLines.joinLines].
  destruct rest as [|next rest].
  - apply splitLines_plain. apply Hl.
  - rewrite splitLines_CRLF by apply Hl. f_equal. apply IH; [assumption | discriminate].
Qed.

(** X2: splitting recovers the lines of a file, whether they are separated
    by line feeds or by carriage return and line feed. *)
Theorem splitLines_recovers_lines (lines : list Js.JsString) :
  Forall GitignoreLines.plainLine lines -> lines <> [] ->
  Js.splitLines (GitignoreLines.joinLines GitignoreLines.LF lines) = lines
  /\ Js.splitLines (GitignoreLines.joinLines GitignoreLines.CRLF lines) = lines.
Proof.
  intros F Hne. split;
    [now apply splitLines_joinLines_LF | now apply splitLines_joinLines_CRLF].
Qed.

Lemma splitLines_recovers_lines_witness :
  (Forall GitignoreLines.plainLine [Js.lit "node_modules"; []; Js.lit "*.log"]
   /\ [Js.lit "node_modules"; []; Js.lit "*.log"] <> [])
  /\ Js.splitLines (GitignoreLines.joinLines GitignoreLines.LF
                      [Js.lit "node_modules"; []; Js.lit "*.log"])
     = [Js.lit "node_modules"; []; Js.lit "*.log"]
  /\ Js.splitLines (GitignoreLines.joinLines GitignoreLines.CRLF
                      [Js.lit "node_modules"; []; Js.lit "*.log"])
     = [Js.lit "node_modules"; []; Js.lit "*.log"].
Proof.
  assert (F : Forall GitignoreLines.plainLine
                     [Js.lit "node_modules"; []; Js.lit "*.log"]).
  { repeat constructor; simpl; intuition discriminate. }
  split; [split; [exact F | discriminate]|].
  apply (splitLines_recovers_lines [Js.lit "node_modules"; []; Js.lit "*.log"]).
  - exact F.
  - discriminate.
Defined.

Lemma parseGitignore_joinLines (lines : list Js.JsString) :
  Forall GitignoreLines.plainLine lines ->
  JsGitignoreCorrectlySetPractice.parseGitignore
    (GitignoreLines.joinLines GitignoreLines.LF lines)
  = filter GitignoreLines.meaningful lines
  /\ JsGitignoreCorrectlySetPractice.parseGitignore
       (GitignoreLines.joinLines GitignoreLines.CRLF lines)
     = filter GitignoreLines.meaningful lines.
Proof.
  intros F.
  assert (P : forall content,
             JsGitignoreCorrectlySetPractice.parseGitignore content
             = filter GitignoreLines.meaningful (Js.splitLines content)).
  { intros content. unfold JsGitignoreCorrectlySetPractice.parseGitignore.
    apply filter_ext. intros line. symmetry. apply meaningful_iff. }
  rewrite !P. destruct lines as [|line rest]; [split; reflexivity|].
  rewrite splitLines_joinLines_LF, splitLines_joinLines_CRLF;
    try assumption; try discriminate. split; reflexivity.
Qed.

(** The condition of the practice in terms of which patterns occur in some
    line. *)
Lemma correctlySet_existsb (l : list Js.JsString) :
  Js.truthy (JsGitignoreCorrectlySetPractice.correctlySet l)
  = xorb (existsb (Js.testLiteral (Js.lit "package-lock.json")) l)
         (existsb (Js.testLiteral (Js.lit "yarn.lock")) l)
    && existsb (Js.testLiteral (Js.lit "node_modules")) l
    && existsb (Js.testLiteral (Js.lit ".log")) l
    && existsb (Js.testLiteral (Js.lit "coverage")) l.
Proof.
  unfold JsGitignoreCorrectlySetPractice.correctlySet.
  assert (T : forall s, Js.lit s <> [] ->
              Js.truthy (Js.find (Js.testLiteral (Js.lit s)) l)
              = existsb (Js.testLiteral (Js.lit s)) l)
    by (intros; now apply truthy_find).
  pose proof (T "package-lock.json" ltac:(discriminate)) as T1.
  pose proof (T "yarn.lock" ltac:(discriminate)) as T2.
  pose proof (T "node_modules" ltac:(discriminate)) as T3.
  pose proof (T "coverage" ltac:(discriminate)) as T4.
  pose proof (T ".log" ltac:(discriminate)) as T5.
  clear T. cbv zeta. unfold Js.and, Js.or, Js.not.
  destruct (existsb (Js.testLiteral (Js.lit "package-lock.json")) l);
  destruct (existsb (Js.testLiteral (Js.lit "yarn.lock")) l);
  destruct (existsb (Js.testLiteral (Js.lit "node_modules")) l);
  destruct (existsb (Js.testLiteral (Js.lit "coverage")) l);
  destruct (existsb (Js.testLiteral (Js.lit ".log")) l);
  rewrite ?T1, ?T2; simpl; rewrite ?T1, ?T2, ?T3, ?T4, ?T5; simpl;
  rewrite ?T1, ?T2, ?T3, ?T4, ?T5; simpl; rewrite ?T1, ?T2, ?T3, ?T4, ?T5;
  reflexivity.
Qed.

Lemma existsb_same_elements {A} (f : A -> bool) (l l' : list A) :
  (forall x, f x = true -> (In x l <-> In x l')) ->
  existsb f l = existsb f l'.
Proof.
  intros H. apply eq_true_iff_eq. rewrite !existsb_exists.
  split; intros [x [Hx Hf]]; exists x; split; try assumption; now apply (H x Hf).
Qed.

Lemma evaluate_serving component content :
  snd (JsGitignoreCorrectlySetPractice.evaluate
         (GitignoreLines.contextServing component content))
  = if Js.truthy (JsGitignoreCorrectlySetPractice.correctlySet
                    (JsGitignoreCorrectlySetPractice.parseGitignore content))
    then Returned practicing else Returned notPracticing.
Proof. reflexivity. Qed.

(** X3: the result does not depend on whether the lines of .gitignore end
    in a line feed or in carriage return and line feed. *)
Theorem evaluate_same_for_LF_and_CRLF component (lines : list Js.JsString) :
  Forall GitignoreLines.plainLine lines ->
  snd (JsGitignoreCorrectlySetPractice.evaluate
         (GitignoreLines.contextServing component
            (GitignoreLines.joinLines GitignoreLines.LF lines)))
  = snd (JsGitignoreCorrectlySetPractice.evaluate
           (GitignoreLines.contextServing component
              (GitignoreLines.joinLines GitignoreLines.CRLF lines))).
Proof.
  intros F. rewrite !evaluate_serving.
  destruct (parseGitignore_joinLines lines F) as [-> ->]. reflexivity.
Qed.

Lemma evaluate_same_for_LF_and_CRLF_witness :
  Forall GitignoreLines.plainLine [Js.lit "node_modules"; Js.lit "yarn.lock"]
  /\ snd (JsGitignoreCorrectlySetPractice.evaluate
            (GitignoreLines.contextServing (Examples.aComponent "/app" JavaScript)
               (GitignoreLines.joinLines GitignoreLines.LF
                  [Js.lit "node_modules"; Js.lit "yarn.lock"])))
     = snd (JsGitignoreCorrectlySetPractice.evaluate
              (GitignoreLines.contextServing (Examples.aComponent "/app" JavaScript)
                 (GitignoreLines.joinLines GitignoreLines.CRLF
                    [Js.lit "node_modules"; Js.lit "yarn.lock"]))).
Proof.
  assert (F : Forall GitignoreLines.plainLine
                     [Js.lit "node_modules"; Js.lit "yarn.lock"]).
  { repeat constructor; simpl; intuition discriminate. }
  split; [exact F|].
  apply (evaluate_same_for_LF_and_CRLF (Examples.aComponent "/app" JavaScript)
           [Js.lit "node_modules"; Js.lit "yarn.lock"] F).
Defined.

(** X4: the result depends only on which meaningful lines .gitignore has:
    their order, their repetition, and the blank lines and the lines
    beginning with # among them do not matter. *)
Theorem evaluate_depends_on_meaningful_lines_only
    component (lines lines' : list Js.JsString) :
  Forall GitignoreLines.plainLine lines ->
  Forall GitignoreLines.plainLine lines' ->
  (forall line, GitignoreLines.meaningful line = true ->
                (In line lines <-> In line lines')) ->
  snd (JsGitignoreCorrectlySetPractice.evaluate
         (GitignoreLines.contextServing component
            (GitignoreLines.joinLines GitignoreLines.LF lines)))
  = snd (JsGitignoreCorrectlySetPractice.evaluate
           (GitignoreLines.contextServing component
              (GitignoreLines.joinLines GitignoreLines.LF lines'))).
Proof.
  intros F F' H. rewrite !evaluate_serving.
  destruct (parseGitignore_joinLines lines F) as [-> _].
  destruct (parseGitignore_joinLines lines' F') as [-> _].
  rewrite !correctlySet_existsb.
  assert (E : forall f, existsb f (filter GitignoreLines.meaningful lines)
                        = existsb f (filter GitignoreLines.meaningful lines')).
  { intros f. apply existsb_same_elements. intros x _. rewrite !filter_In.
    split; intros [H1 H2]; split; try assumption; now apply (H x H2). }
  now rewrite !E.
Qed.

Lemma evaluate_depends_on_meaningful_lines_only_witness :
  (Forall GitignoreLines.plainLine
          [Js.lit "# deps"; Js.lit "node_modules"; []; Js.lit "yarn.lock"]
   /\ Forall GitignoreLines.plainLine
             [Js.lit "yarn.lock"; Js.lit "node_modules"; Js.lit "yarn.lock"])
  /\ snd (JsGitignoreCorrectlySetPractice.evaluate
            (GitignoreLines.contextServing (Examples.aComponent "/app" JavaScript)
               (GitignoreLines.joinLines GitignoreLines.LF
                  [Js.lit "# deps"; Js.lit "node_modules"; []; Js.lit "yarn.lock"])))
     = snd (JsGitignoreCorrectlySetPractice.evaluate
              (GitignoreLines.contextServing (Examples.aComponent "/app" JavaScript)
                 (GitignoreLines.joinLines GitignoreLines.LF
                    [Js.lit "yarn.lock"; Js.lit "node_modules"; Js.lit "yarn.lock"]))).
Proof.
  assert (F : Forall GitignoreLines.plainLine
                [Js.lit "# deps"; Js.lit "node_modules"; []; Js.lit "yarn.lock"]).
  { repeat constructor; simpl; intuition discriminate. }
  assert (F' : Forall GitignoreLines.plainLine
                 [Js.lit "yarn.lock"; Js.lit "node_modules"; Js.lit "yarn.lock"]).
  { repeat constructor; simpl; intuition discriminate. }
  split; [split; assumption|].
  apply (evaluate_depends_on_meaningful_lines_only
           (Examples.aComponent "/app" JavaScript) _ _ F F').
  intros line M. simpl. split.
  - intros [<- | [<- | [<- | [<- | []]]]]; try discriminate; auto.
  - intros [<- | [<- | [<- | []]]]; auto.
Defined.

(** X5: with a file inspector, [evaluate] asks for .gitignore and for
    nothing else; it throws exactly when reading the file fails, with the
    error of the read, and it never returns unknown. *)
Theorem evaluate_reads_gitignore_and_throws_its_error
    (ctx : PracticeContext) (files : FileInspector) :
  fileInspector (root ctx) = Some files ->
  fst (JsGitignoreCorrectlySetPractice.evaluate ctx) = [".gitignore"]
  /\ snd (JsGitignoreCorrectlySetPractice.evaluate ctx) <> Returned unknown
  /\ forall error,
       snd (JsGitignoreCorrectlySetPractice.evaluate ctx) = Threw error
       <-> readFile files ".gitignore" = inl error.
Proof.
  intros H. unfold JsGitignoreCorrectlySetPractice.evaluate. rewrite H.
  destruct (readFile files ".gitignore") as [e | content]; simpl.
  - repeat split; try discriminate; intros E; congruence.
  - destruct (Js.truthy _); repeat split; try discriminate.
Qed.

Lemma evaluate_reads_gitignore_and_throws_its_error_witness :
  fileInspector (root (GitignoreLines.contextServing
                         (Examples.aComponent "/app" JavaScript) []))
  = Some (GitignoreLines.serving [])
  /\ fst (JsGitignoreCorrectlySetPractice.evaluate
            (GitignoreLines.contextServing (Examples.aComponent "/app" JavaScript) []))
     = [".gitignore"]
  /\ snd (JsGitignoreCorrectlySetPractice.evaluate
            (GitignoreLines.contextServing (Examples.aComponent "/app" JavaScript) []))
     <> Returned unknown
  /\ forall error,
       snd (JsGitignoreCorrectlySetPractice.evaluate
              (GitignoreLines.contextServing (Examples.aComponent "/app" JavaScript) []))
       = Threw error
       <-> readFile (GitignoreLines.serving []) ".gitignore" = inl error.
Proof.
  split; [reflexivity|].
  apply (evaluate_reads_gitignore_and_throws_its_error
           (GitignoreLines.contextServing (Examples.aComponent "/app" JavaScript) [])
           (GitignoreLines.serving [])).
  reflexivity.
Defined.

(** X6: the pipeline records unknown for the .gitignore practice exactly
    when the component has no file inspector or .gitignore cannot be
    read. *)
Theorem gitignore_practice_recorded_unknown_iff
    (componentContext : ProjectComponentContext) (practiceContext : PracticeContext) :
  recordedEvaluation componentContext practiceContext Examples.jsGitignoreCorrectlySet
  = unknown
  <-> fileInspector (root practiceContext) = None
      \/ exists files error,
           fileInspector (root practiceContext) = Some files
           /\ readFile files ".gitignore" = inl error.
Proof.
  unfold recordedEvaluation, Examples.jsGitignoreCorrectlySet, withConfig,
    JsGitignoreCorrectlySetPractice.evaluate. simpl.
  destruct (fileInspector (root practiceContext)) as [files|]; simpl.
  - destruct (readFile files ".gitignore") as [e | content] eqn:R; simpl.
    + split; [intros _; right; now exists files, e | reflexivity].
    + split.
      * destruct (Js.truthy _); discriminate.
      * intros [H | (f & e & H1 & H2)]; [discriminate|].
        injection H1 as <-. congruence.
  - split; [now left | reflexivity].
Qed.

(* ===================================================================== *)
(** * More on detectPracticesForComponent                                 *)
(* ===================================================================== *)

Lemma filter_isOn_result c order (off : list IPracticeWithMetadata) :
  filter isOn (producedBy c order ++ map (turnedOffRecord c (getPracticeContext c)) off)
  = producedBy c order.
Proof.
  rewrite filter_app.
  assert (H1 : filter isOn (producedBy c order) = producedBy c order).
  { apply forallb_filter_id. apply forallb_forall. intros r Hr.
    now apply (producedBy_isOn c order). }
  assert (H2 : filter isOn (map (turnedOffRecord c (getPracticeContext c)) off) = []).
  { induction off as [|p off IH]; simpl; [reflexivity | exact IH]. }
  now rewrite H1, H2, app_nil_r.
Qed.

(** X7: for a component, [evaluate] is invoked exactly for the practices
    that have a record with isOn true, once each and in the order of these
    records; when the component yields no result set it is not invoked. *)
Theorem evaluate_called_exactly_for_records_that_are_on filterPractices practices cw :
  evaluateCalls (fst (detectPracticesForComponent filterPractices practices cw))
  = match snd (detectPracticesForComponent filterPractices practices cw) with
    | inr records => map recordId (filter isOn records)
    | inl _ => []
    end.
Proof.
  destruct (ScannerUtils.sortPractices
              (customApplicablePractices (filteredFor filterPractices practices cw)))
    as [fault | order] eqn:S.
  - now rewrite (detect_fault _ _ _ _ S).
  - destruct (detect_sorted _ _ _ _ S) as (es & -> & Hc & _). simpl.
    now rewrite filter_isOn_result.
Qed.

(** X8: every record of a component's result set carries the context of
    that component; the evaluation of a record that is on is what
    [evaluate] returned for the component's practice context with the
    practice's entry of the override store as config, unknown when it
    threw, and the evaluation of a record that is off is unknown.  So a
    record says practicing or notPracticing only if [evaluate] returned
    that. *)
Theorem record_holds_what_evaluate_returned
    filterPractices practices cw events records r :
  detectPracticesForComponent filterPractices practices cw = (events, inr records) ->
  In r records ->
  componentContext r = contextOf cw
  /\ practiceContext r = getPracticeContext (contextOf cw)
  /\ evaluation r
     = (if isOn r
        then recordedEvaluation (contextOf cw) (getPracticeContext (contextOf cw))
                                (practice r)
        else unknown)
  /\ (evaluation r <> unknown ->
      isOn r = true
      /\ evaluate (practice r)
           (withConfig (getPracticeContext (contextOf cw))
              (getOverriddenPractice (configProvider (contextOf cw))
                                     (practiceId (practice r))))
         = Returned (evaluation r)).
Proof.
  intros R Hr.
  destruct (ScannerUtils.sortPractices
              (customApplicablePractices (filteredFor filterPractices practices cw)))
    as [fault | order] eqn:S.
  { rewrite (detect_fault _ _ _ _ S) in R. discriminate. }
  destruct (detect_sorted _ _ _ _ S) as (es & E & _).
  rewrite E in R. injection R as _ <-.
  apply in_app_or in Hr. destruct Hr as [Hr | Hr].
  - destruct (producedBy_ids (contextOf cw) order) as (_ & _ & F).
    rewrite Forall_forall in F. destruct (F r Hr) as [p [_ ->]]. simpl.
    repeat split. unfold recordedEvaluation in *.
    destruct (evaluate p _); [reflexivity | congruence].
  - apply in_map_iff in Hr as [p [<- _]]. simpl. repeat split; congruence.
Qed.

Lemma record_holds_what_evaluate_returned_witness :
  (detectPracticesForComponent (Examples.filterWithOff ["X"]) Examples.scenarioC
     Examples.jsComponent
   = ([EvaluateCalled (Examples.aComponent "/app" JavaScript) "lockfile-present"],
      inr [Examples.evaluatedFor Examples.jsComponent Examples.lockfilePresent;
           Examples.turnedOffFor Examples.jsComponent Examples.practiceX])
   /\ In (Examples.evaluatedFor Examples.jsComponent Examples.lockfilePresent)
         [Examples.evaluatedFor Examples.jsComponent Examples.lockfilePresent;
          Examples.turnedOffFor Examples.jsComponent Examples.practiceX])
  /\ evaluation (Examples.evaluatedFor Examples.jsComponent Examples.lockfilePresent)
     <> unknown
  /\ evaluate Examples.lockfilePresent
       (withConfig (getPracticeContext (contextOf Examples.jsComponent))
          (getOverriddenPractice (configProvider (contextOf Examples.jsComponent))
                                 "lockfile-present"))
     = Returned notPracticing.
Proof.
  assert (R : detectPracticesForComponent (Examples.filterWithOff ["X"])
                Examples.scenarioC Examples.jsComponent
              = ([EvaluateCalled (Examples.aComponent "/app" JavaScript) "lockfile-present"],
                 inr [Examples.evaluatedFor Examples.jsComponent Examples.lockfilePresent;
                      Examples.turnedOffFor Examples.jsComponent Examples.practiceX]))
    by reflexivity.
  assert (I : In (Examples.evaluatedFor Examples.jsComponent Examples.lockfilePresent)
                 [Examples.evaluatedFor Examples.jsComponent Examples.lockfilePresent;
                  Examples.turnedOffFor Examples.jsComponent Examples.practiceX])
    by (simpl; auto).
  assert (N : evaluation (Examples.evaluatedFor Examples.jsComponent
                            Examples.lockfilePresent) <> unknown) by discriminate.
  split; [split; assumption|]. split; [exact N|].
  destruct (record_holds_what_evaluate_returned _ _ _ _ _ _ R I) as (_ & _ & _ & H).
  exact (proj2 (H N)).
Defined.

Lemma loop_subsequence c pc order : forall state,
  exists records,
    fst (fold_left (evaluateNext c pc) order state) = fst state ++ records
    /\ Subsequence (map practice records) order.
Proof.
  induction order as [|p order IH]; intros state; simpl.
  - exists []. rewrite app_nil_r. split; [reflexivity | constructor].
  - destruct (IH (evaluateNext c pc state p)) as (rs & E & Sub).
    destruct (evaluateNext_cases c pc state p) as [[_ S] | [_ [caught (S & _)]]];
      rewrite S in *; simpl in *.
    + exists rs. split; [assumption | now constructor].
    + exists (evaluatedRecord c pc p :: rs). rewrite E, <- app_assoc. simpl.
      split; [reflexivity | now constructor].
Qed.

(** A practice that is unfulfilled at its turn has no record among those
    of the loop. *)
Lemma unfulfilled_has_no_record c pre P post :
  NoDup (map practiceId (pre ++ P :: post)) ->
  ScannerUtils.isFulfilled P (producedBy c pre) = false ->
  ~ In (practiceId P) (map recordId (producedBy c (pre ++ P :: post))).
Proof.
  intros N U.
  change (pre ++ P :: post) with (pre ++ [P] ++ post). rewrite app_assoc.
  destruct (producedBy_app c (pre ++ [P]) post) as (later & -> & Hi & _).
  assert (Hpre : producedBy c (pre ++ [P]) = producedBy c pre).
  { unfold producedBy. rewrite fold_left_app. simpl.
    destruct (evaluateNext_cases c (getPracticeContext c)
                (fold_left (evaluateNext c (getPracticeContext c)) pre ([], [])) P)
      as [[_ ->] | [Hyes _]]; [reflexivity|].
    unfold producedBy in U. congruence. }
  rewrite Hpre, map_app. intros Hin. apply in_app_or in Hin.
  rewrite map_app in N. simpl in N. apply NoDup_remove_2 in N. apply N.
  apply in_or_app. destruct Hin as [Hin | Hin].
  - left. now apply (proj1 (producedBy_ids c pre)).
  - right. now apply Hi.
Qed.

(** A practice that is fulfilled at its turn has its record among those of
    the loop. *)
Lemma fulfilled_has_record c pre P post :
  ScannerUtils.isFulfilled P (producedBy c pre) = true ->
  In (evaluatedRecord c (getPracticeContext c) P) (producedBy c (pre ++ P :: post)).
Proof.
  intros F.
  change (pre ++ P :: post) with (pre ++ [P] ++ post). rewrite app_assoc.
  destruct (producedBy_app c (pre ++ [P]) post) as (later & -> & _).
  apply in_or_app. left.
  unfold producedBy in *. rewrite fold_left_app. simpl.
  destruct (evaluateNext_cases c (getPracticeContext c)
              (fold_left (evaluateNext c (getPracticeContext c)) pre ([], [])) P)
    as [[Hno _] | [_ [caught [-> _]]]]; [congruence|].
  simpl. apply in_or_app. right. now left.
Qed.

(** X9: the practices of the records that are on are the resolved order
    with exactly the practices left out that were unfulfilled at their
    turn: they form a subsequence of the order, and a practice of the order
    has such a record if and only if it was fulfilled by the records
    produced before its turn. *)
Theorem records_follow_the_resolved_order
    filterPractices practices cw order events records :
  distinctIds (filteredFor filterPractices practices cw) ->
  ScannerUtils.sortPractices
    (customApplicablePractices (filteredFor filterPractices practices cw)) = inr order ->
  detectPracticesForComponent filterPractices practices cw = (events, inr records) ->
  Subsequence (map practice (filter isOn records)) order
  /\ forall pre P post,
       order = pre ++ P :: post ->
       (In P (map practice (filter isOn records))
        <-> ScannerUtils.isFulfilled P (producedBy (contextOf cw) pre) = true).
Proof.
  intros D S R. destruct (detect_sorted _ _ _ _ S) as (es & E & _).
  rewrite E in R. injection R as _ <-. rewrite filter_isOn_result.
  split.
  - unfold producedBy.
    destruct (loop_subsequence (contextOf cw) (getPracticeContext (contextOf cw))
                order ([], [])) as (rs & -> & Sub).
    exact Sub.
  - intros pre P post ->. split.
    + intros Hin.
      destruct (ScannerUtils.isFulfilled P (producedBy (contextOf cw) pre)) eqn:F;
        [reflexivity|]. exfalso.
      pose proof (distinctIds_order _ _ D (sortPractices_Permutation _ _ S)) as N.
      apply NoDup_app_remove_r in N.
      apply (unfulfilled_has_no_record (contextOf cw) pre P post N F).
      apply in_map_iff in Hin as [r [<- Hr]]. now apply (in_map recordId).
    + intros F.
      pose proof (fulfilled_has_record (contextOf cw) pre P post F) as Hin.
      apply (in_map practice) in Hin. exact Hin.
Qed.

Lemma records_follow_the_resolved_order_witness :
  (distinctIds (filteredFor (Examples.filterWithOff []) Examples.scenarioA
                            Examples.jsComponent)
   /\ ScannerUtils.sortPractices
        (customApplicablePractices
           (filteredFor (Examples.filterWithOff []) Examples.scenarioA
                        Examples.jsComponent))
      = inr ([Examples.lockfilePresent] ++ Examples.exactOneLockfile :: [])
   /\ snd (detectPracticesForComponent (Examples.filterWithOff []) Examples.scenarioA
             Examples.jsComponent)
      = inr [Examples.evaluatedFor Examples.jsComponent Examples.lockfilePresent])
  /\ Subsequence
       (map practice
          (filter isOn [Examples.evaluatedFor Examples.jsComponent Examples.lockfilePresent]))
       [Examples.lockfilePresent; Examples.exactOneLockfile]
  /\ (In Examples.exactOneLockfile
         (map practice
            (filter isOn
               [Examples.evaluatedFor Examples.jsComponent Examples.lockfilePresent]))
      <-> ScannerUtils.isFulfilled Examples.exactOneLockfile
            (producedBy (contextOf Examples.jsComponent) [Examples.lockfilePresent])
          = true).
Proof.
  assert (D : distinctIds (filteredFor (Examples.filterWithOff []) Examples.scenarioA
                                       Examples.jsComponent)) by distinct_ids.
  split; [repeat split; exact D|].
  destruct (records_follow_the_resolved_order
              (Examples.filterWithOff []) Examples.scenarioA Examples.jsComponent
              [Examples.lockfilePresent; Examples.exactOneLockfile]
              [EvaluateCalled (Examples.aComponent "/app" JavaScript) "lockfile-present"]
              [Examples.evaluatedFor Examples.jsComponent Examples.lockfilePresent]
              D eq_refl eq_refl) as [H1 H2].
  split; [exact H1|].
  exact (H2 [Examples.lockfilePresent] Examples.exactOneLockfile [] eq_refl).
Defined.

(* ===================================================================== *)
(** * preprocessData                                                      *)
(* ===================================================================== *)

(** X10: a strategy that has a local path, or has no remote URL, or is of
    the local service, is returned as it is, and nothing is asked of the
    host: no URL is parsed, no directory made and nothing cloned. *)
Theorem preprocessData_leaves_local_strategy_alone
    (host : ScannerRun.Host) (strategy : ScannerRun.ScanningStrategy) :
  ScannerRun.localPath strategy <> None
  \/ ScannerRun.remoteUrl strategy = None
  \/ ScannerRun.serviceType strategy = ScannerRun.local ->
  ScannerRun.preprocessData host strategy = ([], inr strategy).
Proof.
  destruct strategy as [service access remote path]. unfold ScannerRun.preprocessData.
  simpl. intros [H | [H | H]].
  - destruct path; [|congruence]. destruct remote, service; reflexivity.
  - subst. destruct path, service; reflexivity.
  - subst. destruct path, remote; reflexivity.
Qed.

Lemma preprocessData_leaves_local_strategy_alone_witness :
  (ScannerRun.localPath RunExamples.localStrategy <> None
   \/ ScannerRun.remoteUrl RunExamples.localStrategy = None
   \/ ScannerRun.serviceType RunExamples.localStrategy = ScannerRun.local)
  /\ ScannerRun.preprocessData RunExamples.host RunExamples.localStrategy
     = ([], inr RunExamples.localStrategy).
Proof.
  assert (H : ScannerRun.localPath RunExamples.localStrategy <> None
              \/ ScannerRun.remoteUrl RunExamples.localStrategy = None
              \/ ScannerRun.serviceType RunExamples.localStrategy = ScannerRun.local)
    by (right; left; reflexivity).
  split; [exact H|].
  apply (preprocessData_leaves_local_strategy_alone
           RunExamples.host RunExamples.localStrategy H).
Defined.

(** X11: when [preprocessData] fulfils, the service type, the access type
    and the remote URL are those of its argument.  Either it asked for no
    clone and returns its argument, or its argument had no local path and a
    remote URL, it cloned the URL's href once into a new temporary
    directory, and that directory is the local path it returns. *)
Theorem preprocessData_clones_into_the_local_path
    (host : ScannerRun.Host) (strategy result : ScannerRun.ScanningStrategy) :
  snd (ScannerRun.preprocessData host strategy) = inr result ->
  ScannerRun.serviceType result = ScannerRun.serviceType strategy
  /\ ScannerRun.accessType result = ScannerRun.accessType strategy
  /\ ScannerRun.remoteUrl result = ScannerRun.remoteUrl strategy
  /\ ((ScannerRun.clones (fst (ScannerRun.preprocessData host strategy)) = []
       /\ result = strategy)
      \/ exists remote href dir,
           ScannerRun.localPath strategy = None
           /\ ScannerRun.remoteUrl strategy = Some remote
           /\ ScannerRun.serviceType strategy <> ScannerRun.local
           /\ ScannerRun.parseUrl host remote = inr href
           /\ ScannerRun.mkdtemp host = inr dir
           /\ ScannerRun.clones (fst (ScannerRun.preprocessData host strategy))
              = [(href, dir)]
           /\ ScannerRun.localPath result = Some dir).
Proof.
  destruct strategy as [service access remote path]. unfold ScannerRun.preprocessData.
  simpl.
  destruct path as [p|]; [|destruct remote as [r|]; [destruct service as [|n]|]];
    simpl; try (intros H; injection H as <-; simpl; repeat split; left; split; reflexivity).
  destruct (ScannerRun.parseUrl host r) as [e | href] eqn:P; simpl; [discriminate|].
  destruct (ScannerRun.mkdtemp host) as [e | dir] eqn:M; simpl; [discriminate|].
  destruct (ScannerRun.gitClone host href dir) as [e|] eqn:G; simpl; [discriminate|].
  intros H; injection H as <-. simpl. repeat split. right.
  exists r, href, dir. repeat split; try assumption; discriminate.
Qed.

Lemma preprocessData_clones_into_the_local_path_witness :
  snd (ScannerRun.preprocessData RunExamples.host RunExamples.remoteStrategy)
  = inr {| ScannerRun.serviceType := ScannerRun.otherService "github";
           ScannerRun.accessType := Some "public";
           ScannerRun.remoteUrl := Some "https://example.org/repo.git";
           ScannerRun.localPath := Some "/tmp/dx-scannerAbC" |}
  /\ ScannerRun.clones
       (fst (ScannerRun.preprocessData RunExamples.host RunExamples.remoteStrategy))
     = [("https://example.org/repo.git", "/tmp/dx-scannerAbC")].
Proof.
  split; [reflexivity|].
  destruct (preprocessData_clones_into_the_local_path
              RunExamples.host RunExamples.remoteStrategy _ eq_refl)
    as (_ & _ & _ & [[_ H] | (remote & href & dir & _ & _ & _ & _ & _ & H & _)]).
  - discriminate.
  - reflexivity.
Defined.

(** X12: [preprocessData] rejects only with the error of parsing the URL,
    of making the temporary directory or of the clone, and only for a
    strategy without a local path that has a remote URL and is not of the
    local service. *)
Theorem preprocessData_rejects_with_the_error_of_the_host
    (host : ScannerRun.Host) (strategy : ScannerRun.ScanningStrategy) error :
  snd (ScannerRun.preprocessData host strategy) = inl error ->
  ScannerRun.localPath strategy = None
  /\ ScannerRun.serviceType strategy <> ScannerRun.local
  /\ exists remote,
       ScannerRun.remoteUrl strategy = Some remote
       /\ (ScannerRun.parseUrl host remote = inl error
           \/ (exists href, ScannerRun.parseUrl host remote = inr href
                            /\ ScannerRun.mkdtemp host = inl error)
           \/ (exists href dir,
                  ScannerRun.parseUrl host remote = inr href
                  /\ ScannerRun.mkdtemp host = inr dir
                  /\ ScannerRun.gitClone host href dir = Some error)).
Proof.
  destruct strategy as [service access remote path]. unfold ScannerRun.preprocessData.
  simpl.
  destruct path as [p|]; [|destruct remote as [r|]; [destruct service as [|n]|]];
    simpl; try discriminate.
  intros H. split; [reflexivity|]. split; [discriminate|]. exists r.
  split; [reflexivity|].
  destruct (ScannerRun.parseUrl host r) as [e | href] eqn:P; simpl in H.
  - left. congruence.
  - right. destruct (ScannerRun.mkdtemp host) as [e | dir] eqn:M; simpl in H.
    + left. exists href. split; congruence.
    + right. exists href, dir.
      destruct (ScannerRun.gitClone host href dir) as [e|] eqn:G; simpl in H;
        [|discriminate].
      repeat split; congruence.
Qed.

Lemma preprocessData_rejects_with_the_error_of_the_host_witness :
  snd (ScannerRun.preprocessData RunExamples.host RunExamples.goneStrategy)
  = inl (ScannerRun.CollaboratorError "repository not found")
  /\ ScannerRun.localPath RunExamples.goneStrategy = None
  /\ ScannerRun.serviceType RunExamples.goneStrategy <> ScannerRun.local.
Proof.
  split; [reflexivity|].
  destruct (preprocessData_rejects_with_the_error_of_the_host
              RunExamples.host RunExamples.goneStrategy _ eq_refl) as (H1 & H2 & _).
  split; assumption.
Defined.

(* ===================================================================== *)
(** * detectLanguagesAtPaths                                              *)
(* ===================================================================== *)

Lemma detectLanguages_loop (detectors : list ScannerRun.LanguageDetector) :
  forall start,
    match ScannerRun.forOf
            (fun languagesAtPaths languageDetector =>
               match ScannerRun.detectLanguage languageDetector with
               | inl error => inl error
               | inr detected => inr (languagesAtPaths ++ detected)
               end) detectors start with
    | inr languages =>
        exists each,
          Forall2 (fun d l => ScannerRun.detectLanguage d = inr l) detectors each
          /\ languages = start ++ concat each
    | inl error =>
        exists before d after,
          detectors = before ++ d :: after
          /\ Forall (fun d' => exists l, ScannerRun.detectLanguage d' = inr l) before
          /\ ScannerRun.detectLanguage d = inl error
    end.
Proof.
  induction detectors as [|d detectors IH]; intros start; simpl.
  - exists []. split; [constructor | now rewrite app_nil_r].
  - destruct (ScannerRun.detectLanguage d) as [e | l] eqn:D.
    + exists [], d, detectors. repeat split; [constructor | assumption].
    + specialize (IH (start ++ l)).
      destruct (ScannerRun.forOf _ detectors (start ++ l)) as [e | languages].
      * destruct IH as (before & d' & after & -> & F & E).
        exists (d :: before), d', after. repeat split; try assumption.
        constructor; [now exists l | assumption].
      * destruct IH as (each & F & ->). exists (l :: each).
        split; [now constructor | simpl; now rewrite app_assoc].
Qed.

(** X13: [detectLanguagesAtPaths] fulfils with the languages of all
    detectors, detector after detector, none dropped and none merged, when
    every detector fulfils; it rejects with the error of the first detector
    that rejects. *)
Theorem detectLanguagesAtPaths_concatenates_or_rejects
    (context : ScannerRun.ScannerContext) :
  match ScannerRun.detectLanguagesAtPaths context with
  | inr languages =>
      exists each,
        Forall2 (fun d l => ScannerRun.detectLanguage d = inr l)
                (ScannerRun.languageDetectors context) each
        /\ languages = concat each
  | inl error =>
      exists before d after,
        ScannerRun.languageDetectors context = before ++ d :: after
        /\ Forall (fun d' => exists l, ScannerRun.detectLanguage d' = inr l) before
        /\ ScannerRun.detectLanguage d = inl error
  end.
Proof.
  exact (detectLanguages_loop (ScannerRun.languageDetectors context) []).
Qed.

(* ===================================================================== *)
(** * detectProjectComponents                                             *)
(* ===================================================================== *)

Lemma detectWith_contributes unknowns strategy langContext langAtPath components d result :
  ScannerRun.detectWith unknowns strategy langContext langAtPath components d
  = inr result ->
  exists added,
    result = components ++ added
    /\ added <> []
    /\ forall cw, In cw added
                  <-> contributes unknowns strategy langContext langAtPath d cw.
Proof.
  unfold ScannerRun.detectWith, contributes.
  destruct (ScannerRun.detectComponent d langAtPath) as [e | detected] eqn:D;
    [discriminate|].
  rewrite length_map. destruct detected as [|c detected]; simpl; intros H;
    injection H as <-.
  - eexists. split; [reflexivity|]. split; [discriminate|]. intros cw. split.
    + intros [<- | []]. left. auto.
    + intros [[_ ->] | (l & c & E & Hc & _)]; [now left|].
      injection E as <-. contradiction.
  - eexists. split; [reflexivity|]. split; [discriminate|]. intros cw. split.
    + intros Hin. right. exists (c :: detected).
      change (In cw (map (ScannerRun.withLanguageContext strategy langContext)
                         (c :: detected))) in Hin.
      apply in_map_iff in Hin as [c' [<- Hc']]. exists c'. auto.
    + intros [[E _] | (l & c' & E & Hc' & ->)]; [discriminate|].
      injection E as <-.
      change (In (ScannerRun.withLanguageContext strategy langContext c')
                 (map (ScannerRun.withLanguageContext strategy langContext)
                      (c :: detected))).
      now apply in_map.
Qed.

Lemma detectors_loop unknowns strategy langContext langAtPath detectors :
  forall components result,
    ScannerRun.forOf (ScannerRun.detectWith unknowns strategy langContext langAtPath)
                     detectors components = inr result ->
    exists added,
      result = components ++ added
      /\ List.length detectors <= List.length added
      /\ forall cw, In cw added
                    <-> exists d, In d detectors
                                  /\ contributes unknowns strategy langContext
                                                 langAtPath d cw.
Proof.
  induction detectors as [|d detectors IH]; intros components result; simpl.
  - intros H; injection H as <-. exists []. rewrite app_nil_r.
    repeat split; auto. intros []. intros [d [[] _]].
  - destruct (ScannerRun.detectWith _ _ _ _ components d) as [e | next] eqn:W;
      [discriminate|].
    intros H. destruct (detectWith_contributes _ _ _ _ _ _ _ W) as (a1 & -> & Hne & H1).
    destruct (IH _ _ H) as (a2 & -> & Hlen & H2).
    exists (a1 ++ a2). rewrite app_assoc. split; [reflexivity|]. split.
    + rewrite length_app. destruct a1; [congruence | simpl; lia].
    + intros cw. rewrite in_app_iff, H1, H2. split.
      * intros [C | [d' [Hd' C]]]; [exists d | exists d']; auto.
      * intros [d' [[<- | Hd'] C]]; [now left | right; now exists d'].
Qed.

Lemma languages_loop unknowns context strategy languages :
  forall components result,
    ScannerRun.forOf
      (fun components langAtPath =>
         let langContext := ScannerRun.getLanguageContext context langAtPath in
         match ScannerRun.init langContext with
         | Some error => inl error
         | None =>
             let detectors := ScannerRun.getProjectComponentDetectors langContext in
             ScannerRun.forOf
               (ScannerRun.detectWith unknowns strategy langContext langAtPath)
               detectors components
         end)
      languages components = inr result ->
    exists added,
      result = components ++ added
      /\ list_sum (map (fun l => List.length
                                   (ScannerRun.getProjectComponentDetectors
                                      (ScannerRun.getLanguageContext context l)))
                       languages)
         <= List.length added
      /\ forall cw,
           In cw added
           <-> exists langAtPath d,
                 In langAtPath languages
                 /\ In d (ScannerRun.getProjectComponentDetectors
                            (ScannerRun.getLanguageContext context langAtPath))
                 /\ contributes unknowns strategy
                      (ScannerRun.getLanguageContext context langAtPath)
                      langAtPath d cw.
Proof.
  induction languages as [|l languages IH]; intros components result; simpl.
  - intros H; injection H as <-. exists []. rewrite app_nil_r.
    repeat split; auto. intros []. intros (? & ? & [] & _).
  - destruct (ScannerRun.init (ScannerRun.getLanguageContext context l));
      [discriminate|].
    destruct (ScannerRun.forOf (ScannerRun.detectWith _ _ _ _) _ components)
      as [e | next] eqn:W; [discriminate|].
    intros H. destruct (detectors_loop _ _ _ _ _ _ _ W) as (a1 & -> & L1 & H1).
    destruct (IH _ _ H) as (a2 & -> & L2 & H2).
    exists (a1 ++ a2). rewrite app_assoc. split; [reflexivity|]. split.
    + rewrite length_app. lia.
    + intros cw. rewrite in_app_iff, H1, H2. split.
      * intros [[d [Hd C]] | (l' & d & Hl' & Hd & C)];
          [exists l, d | exists l', d]; auto.
      * intros (l' & d & [<- | Hl'] & Hd & C);
          [left; now exists d | right; now exists l', d].
Qed.

(** X14: when [detectProjectComponents] fulfils, its components are
    exactly what the detectors of the language contexts contribute for the
    languages at paths: for every language at a path and every detector of
    its context, the components the detector detects, or the UNKNOWN
    component when it detects none. *)
Theorem detectProjectComponents_are_the_contributions
    unknowns languages context strategy components cw :
  ScannerRun.detectProjectComponents unknowns languages context strategy
  = inr components ->
  (In cw components
   <-> exists langAtPath d,
         In langAtPath languages
         /\ In d (ScannerRun.getProjectComponentDetectors
                    (ScannerRun.getLanguageContext context langAtPath))
         /\ contributes unknowns strategy
              (ScannerRun.getLanguageContext context langAtPath) langAtPath d cw).
Proof.
  intros H. destruct (languages_loop _ _ _ _ _ _ H) as (added & -> & _ & Hiff).
  apply Hiff.
Qed.

Lemma detectProjectComponents_are_the_contributions_witness :
  ScannerRun.detectProjectComponents RunExamples.unknowns [RunExamples.jsAtRoot]
    (RunExamples.scannerContext [RunExamples.jsAtRoot]
       [RunExamples.finds [RunExamples.found]; RunExamples.finds []])
    RunExamples.remoteStrategy
  = inr [ScannerRun.withLanguageContext RunExamples.remoteStrategy
           (RunExamples.contextWith
              [RunExamples.finds [RunExamples.found]; RunExamples.finds []])
           RunExamples.found;
         ScannerRun.unknownComponent RunExamples.unknowns
           (RunExamples.contextWith
              [RunExamples.finds [RunExamples.found]; RunExamples.finds []])
           RunExamples.jsAtRoot]
  /\ exists langAtPath d,
       In langAtPath [RunExamples.jsAtRoot]
       /\ In d [RunExamples.finds [RunExamples.found]; RunExamples.finds []]
       /\ contributes RunExamples.unknowns RunExamples.remoteStrategy
            (RunExamples.contextWith
               [RunExamples.finds [RunExamples.found]; RunExamples.finds []])
            langAtPath d
            (ScannerRun.unknownComponent RunExamples.unknowns
               (RunExamples.contextWith
                  [RunExamples.finds [RunExamples.found]; RunExamples.finds []])
               RunExamples.jsAtRoot).
Proof.
  split; [reflexivity|].
  apply (detectProjectComponents_are_the_contributions
           RunExamples.unknowns [RunExamples.jsAtRoot]
           (RunExamples.scannerContext [RunExamples.jsAtRoot]
              [RunExamples.finds [RunExamples.found]; RunExamples.finds []])
           RunExamples.remoteStrategy _ _ eq_refl).
  simpl. auto.
Defined.

(** X15: with a remote URL, every component of the result that a detector
    detected has the URL as its repository path, whereas the UNKNOWN
    component added for a detector that detected none has no repository
    path (and the language of the language context and the path of the
    language at the path). *)
Theorem detected_components_get_the_remote_url
    unknowns languages context strategy components cw url :
  ScannerRun.detectProjectComponents unknowns languages context strategy
  = inr components ->
  ScannerRun.remoteUrl strategy = Some url -> url <> "" ->
  In cw components ->
  repositoryPath (component cw) = Some url
  \/ exists langAtPath,
       In langAtPath languages
       /\ cw = ScannerRun.unknownComponent unknowns
                 (ScannerRun.getLanguageContext context langAtPath) langAtPath
       /\ repositoryPath (component cw) = None
       /\ language (component cw)
          = ScannerRun.lc_language (ScannerRun.getLanguageContext context langAtPath)
       /\ path (component cw) = ScannerRun.lap_path langAtPath.
Proof.
  intros H U Hne Hin.
  destruct (languages_loop _ _ _ _ _ _ H) as (added & -> & _ & Hiff).
  apply Hiff in Hin.
  destruct Hin as (l & d & Hl & _ & [[_ ->] | (detected & c & _ & _ & ->)]).
  - right. exists l. repeat split. assumption.
  - left. unfold ScannerRun.withLanguageContext, ScannerRun.remoteUrlGiven. rewrite U.
    destruct url; [congruence | reflexivity].
Qed.

Lemma detected_components_get_the_remote_url_witness :
  (ScannerRun.remoteUrl RunExamples.remoteStrategy = Some "https://example.org/repo.git"
   /\ "https://example.org/repo.git" <> "")
  /\ repositoryPath
       (component
          (ScannerRun.withLanguageContext RunExamples.remoteStrategy
             (RunExamples.contextWith [RunExamples.finds [RunExamples.found]])
             RunExamples.found))
     = Some "https://example.org/repo.git".
Proof.
  split; [split; [reflexivity | discriminate]|].
  destruct (detected_components_get_the_remote_url
              RunExamples.unknowns [RunExamples.jsAtRoot]
              (RunExamples.scannerContext [RunExamples.jsAtRoot]
                 [RunExamples.finds [RunExamples.found]])
              RunExamples.remoteStrategy _
              (ScannerRun.withLanguageContext RunExamples.remoteStrategy
                 (RunExamples.contextWith [RunExamples.finds [RunExamples.found]])
                 RunExamples.found)
              "https://example.org/repo.git" eq_refl eq_refl)
    as [H | (l & _ & _ & H & _)].
  - discriminate.
  - simpl. auto.
  - exact H.
  - discriminate.
Defined.

(** X16: every run of a detector contributes at least one component, so
    there are at least as many components as detectors were run; and a
    language at a path whose language context has no detector contributes
    none, not even the UNKNOWN one: when no context has a detector there
    is no component. *)
Theorem detectProjectComponents_counts
    unknowns languages context strategy components :
  ScannerRun.detectProjectComponents unknowns languages context strategy
  = inr components ->
  list_sum (map (fun l => List.length
                            (ScannerRun.getProjectComponentDetectors
                               (ScannerRun.getLanguageContext context l)))
                languages)
  <= List.length components
  /\ ((forall l, In l languages ->
                 ScannerRun.getProjectComponentDetectors
                   (ScannerRun.getLanguageContext context l) = []) ->
      components = []).
Proof.
  intros H. destruct (languages_loop _ _ _ _ _ _ H) as (added & -> & L & Hiff).
  split; [exact L|]. intros Hno. simpl.
  destruct added as [|cw added]; [reflexivity|]. exfalso.
  destruct (proj1 (Hiff cw) (or_introl eq_refl)) as (l & d & Hl & Hd & _).
  rewrite (Hno l Hl) in Hd. contradiction.
Qed.

Lemma detectProjectComponents_counts_witness :
  ScannerRun.detectProjectComponents RunExamples.unknowns [RunExamples.jsAtRoot]
    (RunExamples.scannerContext [RunExamples.jsAtRoot] []) RunExamples.remoteStrategy
  = inr []
  /\ 0 <= List.length (@nil ProjectComponentAndLangContext).
Proof.
  split; [reflexivity|].
  exact (proj1 (detectProjectComponents_counts
                  RunExamples.unknowns [RunExamples.jsAtRoot]
                  (RunExamples.scannerContext [RunExamples.jsAtRoot] [])
                  RunExamples.remoteStrategy [] eq_refl)).
Defined.

(* ===================================================================== *)
(** * The whole scan                                                      *)
(* ===================================================================== *)

Lemma reported_engine (events : list Event) :
  ScannerRun.reported (map ScannerRun.EngineEvent events) = handedToReporter events.
Proof.
  unfold ScannerRun.reported, handedToReporter.
  induction events as [|e events IH]; simpl; [reflexivity|].
  rewrite IH. destruct e; reflexivity.
Qed.

Lemma evaluated_engine (events : list Event) :
  ScannerRun.evaluated (map ScannerRun.EngineEvent events) = evaluateCalls events.
Proof.
  unfold ScannerRun.evaluated, evaluateCalls.
  induction events as [|e events IH]; simpl; [reflexivity|].
  rewrite IH. destruct e; reflexivity.
Qed.

Lemma clones_engine (events : list Event) :
  ScannerRun.clones (map ScannerRun.EngineEvent events) = [].
Proof. induction events as [|e events IH]; simpl; [reflexivity | exact IH]. Qed.

Lemma preprocessData_events host strategy :
  ScannerRun.reported (fst (ScannerRun.preprocessData host strategy)) = []
  /\ ScannerRun.evaluated (fst (ScannerRun.preprocessData host strategy)) = [].
Proof.
  destruct strategy as [service access remote path]. unfold ScannerRun.preprocessData.
  simpl.
  destruct path; [|destruct remote as [r|]; [destruct service|]]; simpl; auto.
  destruct (ScannerRun.parseUrl host r); simpl; auto.
  destruct (ScannerRun.mkdtemp host) as [|dir]; simpl; auto.
  destruct (ScannerRun.gitClone host s dir); simpl; auto.
Qed.

(** The evaluation of the practices and the report, as a step: either the
    reporter was called once, and the step fulfils or rejects with what the
    reporter threw, or the reporter was not called and the step rejects. *)
Lemma detectPracticesAndReport_outcome filterPractices practices reporter components :
  (exists entries,
      ScannerRun.reported
        (fst (ScannerRun.detectPracticesAndReport filterPractices practices reporter
                components))
      = [entries]
      /\ ((exists value, reporter_report reporter entries = inr value
                         /\ snd (ScannerRun.detectPracticesAndReport filterPractices
                                   practices reporter components) = inr tt)
          \/ (exists error,
                 reporter_report reporter entries = inl error
                 /\ snd (ScannerRun.detectPracticesAndReport filterPractices practices
                           reporter components)
                    = inl (ScannerRun.EngineFault (ReporterFault error)))))
  \/ (exists fault,
         ScannerRun.reported
           (fst (ScannerRun.detectPracticesAndReport filterPractices practices reporter
                   components))
         = []
         /\ snd (ScannerRun.detectPracticesAndReport filterPractices practices reporter
                   components)
            = inl (ScannerRun.EngineFault fault)).
Proof.
  unfold ScannerRun.detectPracticesAndReport, ScannerRun.ofEngine. simpl.
  rewrite reported_engine.
  destruct (detectPractices filterPractices practices components) as [es [f | rs]] eqn:D.
  - right. exists f.
    assert (Hf : snd (detectPractices filterPractices practices components) = inl f)
      by now rewrite D.
    destruct (scan_rejected _ _ reporter _ _ Hf) as [-> ->]. auto.
  - left. exists (reportEntries rs).
    destruct (scan_reports _ _ reporter _ _ _ D) as [_ ->]. split; [reflexivity|].
    unfold scan. rewrite D. unfold report. cbv zeta.
    destruct (reporter_report reporter (reportEntries rs)) as [e | [t | o]]; cbn [snd].
    + right. exists e. auto.
    + left. eexists. auto.
    + left. eexists. auto.
Qed.

Lemma reported_app a b :
  ScannerRun.reported (a ++ b) = ScannerRun.reported a ++ ScannerRun.reported b.
Proof. apply flat_map_app. Qed.

Lemma evaluated_app a b :
  ScannerRun.evaluated (a ++ b) = ScannerRun.evaluated a ++ ScannerRun.evaluated b.
Proof. apply flat_map_app. Qed.

Lemma clones_app a b :
  ScannerRun.clones (a ++ b) = ScannerRun.clones a ++ ScannerRun.clones b.
Proof. apply flat_map_app. Qed.

(** Splits a goal on [scan] by the step at which the scan stops. *)
Ltac scan_stages host detect scannerContextFactory unknowns :=
  unfold ScannerRun.scan;
  destruct detect as [e0 | detected]; cbv beta iota zeta;
  [| destruct (ScannerRun.preprocessData host detected) as [cloning [e1 | strategy]] eqn:P;
     cbv beta iota zeta;
     [| destruct (ScannerRun.detectLanguagesAtPaths (scannerContextFactory strategy))
          as [e2 | languages] eqn:L; cbv beta iota zeta;
        [| destruct (ScannerRun.detectProjectComponents unknowns languages
                       (scannerContextFactory strategy) strategy)
             as [e3 | components] eqn:C; cbv beta iota zeta ] ] ].

(** X17: a scan calls the reporter at most once.  When it fulfils it has
    called it exactly once and the reporter returned; when it rejects,
    either it has not called it, or it has called it once and rejects with
    what the reporter threw. *)
Theorem scan_reports_once_or_rejects
    host unknowns detect scannerContextFactory filterPractices practices reporter :
  (exists entries,
      ScannerRun.reported
        (fst (ScannerRun.scan host unknowns detect scannerContextFactory
                filterPractices practices reporter)) = [entries]
      /\ ((exists value,
              reporter_report reporter entries = inr value
              /\ snd (ScannerRun.scan host unknowns detect scannerContextFactory
                        filterPractices practices reporter) = inr tt)
          \/ (exists error,
                 reporter_report reporter entries = inl error
                 /\ snd (ScannerRun.scan host unknowns detect scannerContextFactory
                           filterPractices practices reporter)
                    = inl (ScannerRun.EngineFault (ReporterFault error)))))
  \/ (exists error,
         ScannerRun.reported
           (fst (ScannerRun.scan host unknowns detect scannerContextFactory
                   filterPractices practices reporter)) = []
         /\ snd (ScannerRun.scan host unknowns detect scannerContextFactory
                   filterPractices practices reporter) = inl error).
Proof.
  assert (Hc : forall s, ScannerRun.reported
                           (fst (ScannerRun.preprocessData host s)) = [])
    by (intros s; apply preprocessData_events).
  scan_stages host detect scannerContextFactory unknowns;
    try (specialize (Hc detected); rewrite P in Hc; cbn [fst] in Hc).
  - right. exists e0. auto.
  - right. exists e1. cbn [fst snd]. rewrite !reported_app, Hc. auto.
  - right. exists e2. cbn [fst snd]. rewrite !reported_app, Hc. auto.
  - right. exists e3. cbn [fst snd]. rewrite !reported_app, Hc. auto.
  - pose proof (detectPracticesAndReport_outcome filterPractices practices reporter
                  components) as O.
    destruct (ScannerRun.detectPracticesAndReport filterPractices practices reporter
                components) as [evaluating outcome].
    cbn [fst snd] in *. rewrite !reported_app, Hc.
    destruct O as [[entries [-> O]] | [fault [-> ->]]].
    + left. exists entries. split; [reflexivity | exact O].
    + right. exists (ScannerRun.EngineFault fault). auto.
Qed.

(** X18: when a scan rejects with the error of a collaborator (the
    strategy detector, the host, a language or component detector, a
    language context), no practice has been evaluated and the reporter has
    not been called. *)
Theorem scan_stops_before_the_practices_when_a_collaborator_fails
    host unknowns detect scannerContextFactory filterPractices practices reporter message :
  snd (ScannerRun.scan host unknowns detect scannerContextFactory
         filterPractices practices reporter)
  = inl (ScannerRun.CollaboratorError message) ->
  ScannerRun.evaluated
    (fst (ScannerRun.scan host unknowns detect scannerContextFactory
            filterPractices practices reporter)) = []
  /\ ScannerRun.reported
       (fst (ScannerRun.scan host unknowns detect scannerContextFactory
               filterPractices practices reporter)) = [].
Proof.
  assert (Hc : forall s,
             ScannerRun.reported (fst (ScannerRun.preprocessData host s)) = []
             /\ ScannerRun.evaluated (fst (ScannerRun.preprocessData host s)) = [])
    by (intros s; apply preprocessData_events).
  scan_stages host detect scannerContextFactory unknowns;
    try (specialize (Hc detected); rewrite P in Hc; cbn [fst] in Hc;
         destruct Hc as [Hr He]).
  - auto.
  - cbn [fst snd]. rewrite !reported_app, !evaluated_app, Hr, He. auto.
  - cbn [fst snd]. rewrite !reported_app, !evaluated_app, Hr, He. auto.
  - cbn [fst snd]. rewrite !reported_app, !evaluated_app, Hr, He. auto.
  - pose proof (detectPracticesAndReport_outcome filterPractices practices reporter
                  components) as O.
    destruct (ScannerRun.detectPracticesAndReport filterPractices practices reporter
                components) as [evaluating outcome].
    cbn [fst snd] in *. intros H. subst outcome.
    destruct O as [[entries [_ [[v [_ O]] | [e [_ O]]]]] | [fault [_ O]]]; discriminate.
Qed.

Lemma scan_stops_before_the_practices_when_a_collaborator_fails_witness :
  snd (ScannerRun.scan RunExamples.host RunExamples.unknowns
         (inr RunExamples.goneStrategy)
         (fun _ => RunExamples.scannerContext [RunExamples.jsAtRoot]
                     [RunExamples.finds [RunExamples.found]])
         (Examples.filterWithOff []) Examples.scenarioA Examples.textReporter)
  = inl (ScannerRun.CollaboratorError "repository not found")
  /\ ScannerRun.evaluated
       (fst (ScannerRun.scan RunExamples.host RunExamples.unknowns
               (inr RunExamples.goneStrategy)
               (fun _ => RunExamples.scannerContext [RunExamples.jsAtRoot]
                           [RunExamples.finds [RunExamples.found]])
               (Examples.filterWithOff []) Examples.scenarioA Examples.textReporter)) = []
  /\ ScannerRun.reported
       (fst (ScannerRun.scan RunExamples.host RunExamples.unknowns
               (inr RunExamples.goneStrategy)
               (fun _ => RunExamples.scannerContext [RunExamples.jsAtRoot]
                           [RunExamples.finds [RunExamples.found]])
               (Examples.filterWithOff []) Examples.scenarioA Examples.textReporter)) = [].
Proof.
  split; [reflexivity|].
  apply (scan_stops_before_the_practices_when_a_collaborator_fails
           RunExamples.host RunExamples.unknowns (inr RunExamples.goneStrategy)
           (fun _ => RunExamples.scannerContext [RunExamples.jsAtRoot]
                       [RunExamples.finds [RunExamples.found]])
           (Examples.filterWithOff []) Examples.scenarioA Examples.textReporter
           "repository not found").
  reflexivity.
Defined.

(** X19: when no language is detected, no practice is evaluated and the
    reporter is called once, with an empty array; the scan then fulfils if
    the reporter returns and rejects with what the reporter threw if it
    throws. *)
Theorem scan_without_languages_reports_nothing
    host unknowns detect scannerContextFactory filterPractices practices reporter
    detected strategy :
  detect = inr detected ->
  snd (ScannerRun.preprocessData host detected) = inr strategy ->
  ScannerRun.detectLanguagesAtPaths (scannerContextFactory strategy) = inr [] ->
  ScannerRun.reported
    (fst (ScannerRun.scan host unknowns detect scannerContextFactory
            filterPractices practices reporter)) = [[]]
  /\ ScannerRun.evaluated
       (fst (ScannerRun.scan host unknowns detect scannerContextFactory
               filterPractices practices reporter)) = []
  /\ snd (ScannerRun.scan host unknowns detect scannerContextFactory
            filterPractices practices reporter)
     = match reporter_report reporter [] with
       | inr _ => inr tt
       | inl error => inl (ScannerRun.EngineFault (ReporterFault error))
       end.
Proof.
  intros -> Hp Hl. unfold ScannerRun.scan.
  pose proof (preprocessData_events host detected) as [Hr He].
  destruct (ScannerRun.preprocessData host detected) as [cloning outcome].
  cbn [fst snd] in *. subst outcome. cbv beta iota zeta. rewrite Hl.
  change (ScannerRun.detectProjectComponents unknowns []
            (scannerContextFactory strategy) strategy)
    with (@inr ScannerRun.RunError (list ProjectComponentAndLangContext) []).
  cbv beta iota zeta.
  assert (E : ScannerRun.detectPracticesAndReport filterPractices practices reporter []
              = (map ScannerRun.EngineEvent
                     ([ScanDebug "Applicable practices:"; ScanDebugNames []]
                      ++ fst (report reporter [])),
                 match snd (report reporter []) with
                 | inl fault => inl (ScannerRun.EngineFault fault)
                 | inr value => inr value
                 end)).
  { unfold ScannerRun.detectPracticesAndReport, ScannerRun.ofEngine, scan,
      detectPractices. simpl. destruct (report reporter []). reflexivity. }
  rewrite E. cbv beta iota zeta. cbn [fst snd].
  rewrite !reported_app, !evaluated_app, Hr, He, reported_engine, evaluated_engine.
  unfold report. cbv zeta. change (reportEntries []) with (@nil PracticeReport).
  destruct (reporter_report reporter []) as [e | [t | o]]; repeat split.
Qed.

Lemma scan_without_languages_reports_nothing_witness :
  ScannerRun.reported
    (fst (ScannerRun.scan RunExamples.host RunExamples.unknowns
            (inr RunExamples.localStrategy)
            (fun _ => RunExamples.scannerContext [] [])
            (Examples.filterWithOff []) Examples.scenarioA Examples.brokenReporter))
  = [[]]
  /\ ScannerRun.evaluated
       (fst (ScannerRun.scan RunExamples.host RunExamples.unknowns
               (inr RunExamples.localStrategy)
               (fun _ => RunExamples.scannerContext [] [])
               (Examples.filterWithOff []) Examples.scenarioA Examples.brokenReporter))
     = []
  /\ snd (ScannerRun.scan RunExamples.host RunExamples.unknowns
            (inr RunExamples.localStrategy)
            (fun _ => RunExamples.scannerContext [] [])
            (Examples.filterWithOff []) Examples.scenarioA Examples.brokenReporter)
     = inl (ScannerRun.EngineFault (ReporterFault "cannot report")).
Proof.
  apply (scan_without_languages_reports_nothing
           RunExamples.host RunExamples.unknowns (inr RunExamples.localStrategy)
           (fun _ => RunExamples.scannerContext [] [])
           (Examples.filterWithOff []) Examples.scenarioA Examples.brokenReporter
           RunExamples.localStrategy RunExamples.localStrategy);
    reflexivity.
Defined.

Lemma preprocessData_clones host strategy :
  ScannerRun.clones (fst (ScannerRun.preprocessData host strategy)) = []
  \/ exists remote href dir,
       ScannerRun.localPath strategy = None
       /\ ScannerRun.remoteUrl strategy = Some remote
       /\ ScannerRun.serviceType strategy <> ScannerRun.local
       /\ ScannerRun.parseUrl host remote = inr href
       /\ ScannerRun.mkdtemp host = inr dir
       /\ ScannerRun.clones (fst (ScannerRun.preprocessData host strategy))
          = [(href, dir)].
Proof.
  destruct strategy as [service access remote path]. unfold ScannerRun.preprocessData.
  simpl.
  destruct path; [|destruct remote as [r|]; [destruct service|]]; simpl; auto.
  destruct (ScannerRun.parseUrl host r) as [|href] eqn:U; simpl; auto.
  destruct (ScannerRun.mkdtemp host) as [|dir] eqn:M; simpl; auto.
  right. exists r, href, dir.
  destruct (ScannerRun.gitClone host href dir); simpl;
    repeat split; try discriminate; assumption.
Qed.

(** X20: a scan starts at most one clone, and it starts one only when the
    detected strategy has no local path, has a remote URL and is not of
    the local service; the clone is of the URL's href into the temporary
    directory the host made. *)
Theorem scan_clones_at_most_once
    host unknowns detect scannerContextFactory filterPractices practices reporter :
  ScannerRun.clones
    (fst (ScannerRun.scan host unknowns detect scannerContextFactory
            filterPractices practices reporter)) = []
  \/ exists detected remote href dir,
       detect = inr detected
       /\ ScannerRun.localPath detected = None
       /\ ScannerRun.remoteUrl detected = Some remote
       /\ ScannerRun.serviceType detected <> ScannerRun.local
       /\ ScannerRun.parseUrl host remote = inr href
       /\ ScannerRun.mkdtemp host = inr dir
       /\ ScannerRun.clones
            (fst (ScannerRun.scan host unknowns detect scannerContextFactory
                    filterPractices practices reporter)) = [(href, dir)].
Proof.
  assert (Hc : forall s,
             ScannerRun.clones (fst (ScannerRun.preprocessData host s)) = []
             \/ exists remote href dir,
                  ScannerRun.localPath s = None
                  /\ ScannerRun.remoteUrl s = Some remote
                  /\ ScannerRun.serviceType s <> ScannerRun.local
                  /\ ScannerRun.parseUrl host remote = inr href
                  /\ ScannerRun.mkdtemp host = inr dir
                  /\ ScannerRun.clones (fst (ScannerRun.preprocessData host s))
                     = [(href, dir)])
    by (intros s; apply preprocessData_clones).
  assert (Hcases : forall detected before after,
             ScannerRun.clones before = [] -> ScannerRun.clones after = [] ->
             ScannerRun.clones
               (before ++ fst (ScannerRun.preprocessData host detected) ++ after) = []
             \/ exists remote href dir,
                  ScannerRun.localPath detected = None
                  /\ ScannerRun.remoteUrl detected = Some remote
                  /\ ScannerRun.serviceType detected <> ScannerRun.local
                  /\ ScannerRun.parseUrl host remote = inr href
                  /\ ScannerRun.mkdtemp host = inr dir
                  /\ ScannerRun.clones
                       (before ++ fst (ScannerRun.preprocessData host detected) ++ after)
                     = [(href, dir)]).
  { intros d before after Hb Ha. rewrite !clones_app, Hb, Ha, app_nil_r. simpl.
    apply Hc. }
  scan_stages host detect scannerContextFactory unknowns.
  - left. reflexivity.
  - destruct (Hcases detected
                [ScannerRun.ScanDebugged
                   [("Scan strategy: " ++ ScannerRun.inspectStrategy host detected)%string]]
                [] eq_refl eq_refl) as [H | (r & h & d & H)];
      rewrite P, app_nil_r in *; cbn [fst snd] in *;
      [left; exact H | right; exists detected, r, h, d; tauto].
  - destruct (Hcases detected
                [ScannerRun.ScanDebugged
                   [("Scan strategy: " ++ ScannerRun.inspectStrategy host detected)%string]]
                [ScannerRun.ScanDebugged
                   [("Scan strategy (after preprocessing): "
                     ++ ScannerRun.inspectStrategy host strategy)%string]]
                eq_refl eq_refl) as [H | (r & h & d & H)];
      rewrite P in *; cbn [fst snd] in *;
      [left; exact H | right; exists detected, r, h, d; tauto].
  - destruct (Hcases detected
                [ScannerRun.ScanDebugged
                   [("Scan strategy: " ++ ScannerRun.inspectStrategy host detected)%string]]
                ([ScannerRun.ScanDebugged
                    [("Scan strategy (after preprocessing): "
                      ++ ScannerRun.inspectStrategy host strategy)%string]]
                 ++ [ScannerRun.ScanDebugged
                       ["LanguagesAtPaths:"; ScannerRun.inspectLanguages host languages]])
                eq_refl eq_refl) as [H | (r & h & d & H)];
      rewrite P in *; cbn [fst snd] in *;
      [left; exact H | right; exists detected, r, h, d; tauto].
  - destruct (ScannerRun.detectPracticesAndReport filterPractices practices reporter components)
      as [evaluating outcome] eqn:E.
    assert (He : ScannerRun.clones evaluating = []).
    { unfold ScannerRun.detectPracticesAndReport, ScannerRun.ofEngine in E.
      injection E as <- _. apply clones_engine. }
    destruct (Hcases detected
                [ScannerRun.ScanDebugged
                   [("Scan strategy: " ++ ScannerRun.inspectStrategy host detected)%string]]
                ([ScannerRun.ScanDebugged
                    [("Scan strategy (after preprocessing): "
                      ++ ScannerRun.inspectStrategy host strategy)%string]]
                 ++ [ScannerRun.ScanDebugged
                       ["LanguagesAtPaths:"; ScannerRun.inspectLanguages host languages]]
                 ++ [ScannerRun.ScanDebugged
                       ["Components:"; ScannerRun.inspectComponents host components]]
                 ++ evaluating)
                eq_refl) as [H | (r & h & d & H)];
      try (rewrite !clones_app, He; reflexivity);
      rewrite P in *; cbn [fst snd] in *;
      [left; exact H | right; exists detected, r, h, d; tauto].
Qed.

(* ===================================================================== *)
(** * From the components to the report                                   *)
(* ===================================================================== *)

Lemma result_record_context filterPractices practices cw events records r :
  detectPracticesForComponent filterPractices practices cw = (events, inr records) ->
  In r records -> componentContext r = contextOf cw.
Proof.
  intros R Hr.
  destruct (ScannerUtils.sortPractices
              (customApplicablePractices (filteredFor filterPractices practices cw)))
    as [fault | order] eqn:S.
  { rewrite (detect_fault _ _ _ _ S) in R. discriminate. }
  destruct (detect_sorted _ _ _ _ S) as (es & E & _).
  rewrite E in R. injection R as _ <-.
  apply in_app_or in Hr. destruct Hr as [Hr | Hr].
  - destruct (producedBy_ids (contextOf cw) order) as (_ & _ & F).
    rewrite Forall_forall in F. destruct (F r Hr) as [p [_ ->]]. reflexivity.
  - apply in_map_iff in Hr as [p [<- _]]. reflexivity.
Qed.

Lemma Forall2_In_r {A B} (R : A -> B -> Prop) l l' y :
  Forall2 R l l' -> In y l' -> exists x, In x l /\ R x y.
Proof.
  induction 1 as [|x y' l l' Hxy F IH]; simpl; [contradiction|].
  intros [<- | Hy]; [exists x; auto|].
  destruct (IH Hy) as [x' [H1 H2]]. exists x'. auto.
Qed.

Lemma detectPractices_results filterPractices practices components events records :
  detectPractices filterPractices practices components = (events, inr records) ->
  exists perComponent,
    Forall2 (fun cw rs =>
               snd (detectPracticesForComponent filterPractices practices cw) = inr rs)
            components perComponent
    /\ records = concat perComponent.
Proof.
  unfold detectPractices. intros H.
  destruct (promiseAll _) as [es [f | per]] eqn:E; [discriminate|].
  injection H as _ <-. apply promiseAll_fulfilled in E as [F _].
  exists per. split; [|reflexivity].
  clear -F. revert per F. induction components as [|cw cs IH]; simpl; intros per F.
  - inversion F. constructor.
  - inversion F; subst. constructor; auto.
Qed.

(** X21: every entry handed to the reporter comes from a record of the
    result set of one of the components that were scanned, and names that
    component's project component, the metadata of the record's practice,
    and the record's evaluation and isOn. *)
Theorem reported_entries_come_from_the_scanned_components
    filterPractices practices components events records entry :
  detectPractices filterPractices practices components = (events, inr records) ->
  In entry (reportEntries records) ->
  exists cw results r,
    In cw components
    /\ snd (detectPracticesForComponent filterPractices practices cw) = inr results
    /\ In r results
    /\ rep_component entry = pcc_projectComponent (contextOf cw)
    /\ rep_practice entry = getMetadata (practice r)
    /\ rep_evaluation entry = evaluation r
    /\ rep_isOn entry = isOn r.
Proof.
  intros D He. destruct (detectPractices_results _ _ _ _ _ D) as (per & F & ->).
  unfold reportEntries in He. apply in_map_iff in He as [r [<- Hr]].
  apply in_concat in Hr as [results [Hres Hr]].
  destruct (Forall2_In_r _ _ _ _ F Hres) as [cw [Hcw Hs]].
  exists cw, results, r. simpl. repeat split; try assumption.
  rewrite (result_record_context filterPractices practices cw
             (fst (detectPracticesForComponent filterPractices practices cw))
             results r); [reflexivity | | assumption].
  rewrite <- Hs. apply surjective_pairing.
Qed.

Lemma reported_entries_come_from_the_scanned_components_witness :
  (snd (detectPractices (Examples.filterWithOff []) Examples.scenarioD
          [Examples.jsComponent; Examples.tsComponent])
   = inr [Examples.evaluatedFor Examples.jsComponent Examples.practiceY;
          Examples.evaluatedFor Examples.tsComponent Examples.practiceY])
  /\ exists cw results r,
       In cw [Examples.jsComponent; Examples.tsComponent]
       /\ snd (detectPracticesForComponent (Examples.filterWithOff [])
                 Examples.scenarioD cw) = inr results
       /\ In r results
       /\ Examples.aComponent "/lib" TypeScript = pcc_projectComponent (contextOf cw)
       /\ getMetadata Examples.practiceY = getMetadata (practice r)
       /\ notPracticing = evaluation r
       /\ true = isOn r.
Proof.
  split; [reflexivity|].
  apply (reported_entries_come_from_the_scanned_components
           (Examples.filterWithOff []) Examples.scenarioD
           [Examples.jsComponent; Examples.tsComponent]
           (fst (detectPractices (Examples.filterWithOff []) Examples.scenarioD
                   [Examples.jsComponent; Examples.tsComponent]))
           [Examples.evaluatedFor Examples.jsComponent Examples.practiceY;
            Examples.evaluatedFor Examples.tsComponent Examples.practiceY]
           {| rep_component := Examples.aComponent "/lib" TypeScript;
              rep_practice := getMetadata Examples.practiceY;
              rep_evaluation := notPracticing;
              rep_impact := medium;
              rep_isOn := true |}).
  - reflexivity.
  - simpl. auto.
Defined.
